(* ===================================================================== *)
(*  Simulated-OBD2-UDS: the diagnostic protocol stack, embedded shallowly *)
(*                                                                       *)
(*    lib/isotp.py         frame codec, sender, receiver                 *)
(*    lib/dtc_manager.py   trouble codes, lifecycle manager, MIL         *)
(*    lib/obd_services.py  OBD-II dispatcher (modes 01-0A)               *)
(*    lib/uds_services.py  UDS engine (session, security, services)      *)
(*    mock_ecu_v2.py       dispatcher and request handler of the ECU     *)
(*                                                                       *)
(*  Conventions.  Python `bytes` is `list byte`; a Python `int` is `Z`.  *)
(*  An exception is a `Raise` in the `result` type.  A reading of        *)
(*  `time.time()` is an integer number of milliseconds, so a comparison  *)
(*  against x seconds in the source is a comparison against 1000 * x.    *)
(*  A Python float is a binary64 float of the kernel, with its IEEE      *)
(*  arithmetic; int(x) on one truncates toward zero and raises on NaN    *)
(*  and on the infinities.                                               *)
(* ===================================================================== *)

From Stdlib Require Import ZArith List Bool Lia String Ascii Floats.
From Stdlib Require Strings.Byte.
From stdpp Require Import base option list gmap strings.

Local Open Scope Z_scope.

(* decimal literals such as 0.7 stand for the nearest binary64 value, as
   they do in Python *)
#[local] Set Warnings "-inexact-float".

(* --------------------------------------------------------------------- *)
(*  Python values and exceptions                                         *)
(* --------------------------------------------------------------------- *)

Inductive exn : Type :=
| ValueError
| IndexError
| KeyError
| UnicodeEncodeError
| OverflowError
| CanError.

Inductive result (A : Type) : Type :=
| Ok (a : A)
| Raise (e : exn).

Arguments Ok {A} a.
Arguments Raise {A} e.

Definition rbind {A B} (r : result A) (k : A -> result B) : result B :=
  match r with
  | Ok a => k a
  | Raise e => Raise e
  end.

Notation "'let*' x ':=' e 'in' k" := (rbind e (fun x => k))
  (at level 10, x pattern, e at level 100, k at level 200).

Abbreviation byte := Byte.byte.
Abbreviation bytes := (list Byte.byte).

(* b as an int, the way indexing a bytes object yields it *)
Definition b2z (b : byte) : Z := Z.of_N (Byte.to_N b).

(* bytes([i]) for one element: ValueError outside range(256) *)
Definition z2b (i : Z) : result byte :=
  if (i <? 0) then Raise ValueError
  else match Byte.of_N (Z.to_N i) with
       | Some b => Ok b
       | None => Raise ValueError
       end.

(* bytes([i0, i1, ...]) *)
Fixpoint bytes_of (l : list Z) : result bytes :=
  match l with
  | [] => Ok []
  | i :: r => let* b := z2b i in let* bs := bytes_of r in Ok (b :: bs)
  end.

(* data[i] for i >= 0 *)
Definition index (data : bytes) (i : nat) : result Z :=
  match data !! i with
  | Some b => Ok (b2z b)
  | None => Raise IndexError
  end.

(* data[:k], where a negative k counts from the end *)
Definition upto {A} (k : Z) (l : list A) : list A :=
  if k <? 0 then take (length l - Z.to_nat (- k)) l else take (Z.to_nat k) l.

(* data[a:b] for 0 <= a, 0 <= b *)
Definition slice {A} (a b : Z) (l : list A) : list A :=
  take (Z.to_nat (b - a)) (drop (Z.to_nat a) l).

(* bytes([0x00] * n) *)
Definition zeros (n : nat) : bytes := repeat Byte.x00 n.

Definition len {A} (l : list A) : Z := Z.of_nat (length l).

(* int(x) on a float: ValueError on NaN, OverflowError on an infinity,
   otherwise the value m * 2^e of the float truncated toward zero *)
Definition int_of_float (x : float) : result Z :=
  match Prim2SF x with
  | S754_zero _ => Ok 0
  | S754_infinity _ => Raise OverflowError
  | S754_nan => Raise ValueError
  | S754_finite s m e =>
      let a := if 0 <=? e then Z.pos m * 2 ^ e else Z.pos m / 2 ^ (- e) in
      Ok (if s then - a else a)
  end.

(* int.from_bytes(b, 'big') *)
Definition int_from_bytes (b : bytes) : Z :=
  fold_left (fun acc x => Z.lor (Z.shiftl acc 8) (b2z x)) b 0.

(* i.to_bytes(4, 'big') *)
Definition int_to_bytes4 (i : Z) : result bytes :=
  if (i <? 0) || (i >=? 2 ^ 32) then Raise OverflowError
  else bytes_of [Z.land (Z.shiftr i 24) 0xFF; Z.land (Z.shiftr i 16) 0xFF;
                 Z.land (Z.shiftr i 8) 0xFF; Z.land i 0xFF].

(* random.randint(a, b), drawn from the entropy rnd *)
Definition randint (a b rnd : Z) : Z := a + rnd mod (b - a + 1).

(* s.encode('ascii') *)
Fixpoint encode_ascii (s : string) : result bytes :=
  match s with
  | EmptyString => Ok []
  | String c r =>
      if (N_of_ascii c <? 128)%N then
        let* bs := encode_ascii r in Ok (byte_of_ascii c :: bs)
      else Raise UnicodeEncodeError
  end.

(* b.ljust(n, b'\x00') *)
Definition ljust (n : nat) (b : bytes) : bytes :=
  b ++ repeat Byte.x00 (n - length b).

(* --------------------------------------------------------------------- *)
(*  lib/isotp.py                                                         *)
(* --------------------------------------------------------------------- *)

Module ISOTP.

Inductive FrameType : Type :=
| SINGLE_FRAME
| FIRST_FRAME
| CONSECUTIVE_FRAME
| FLOW_CONTROL.

Inductive FlowStatus : Type :=
| CONTINUE_TO_SEND
| WAIT
| OVERFLOW.

Definition FlowStatus_value (s : FlowStatus) : Z :=
  match s with
  | CONTINUE_TO_SEND => 0x00
  | WAIT => 0x01
  | OVERFLOW => 0x02
  end.

Record ISOTPConfig : Type := {
  stmin : Z;
  block_size : Z;
  timeout_ms : Z;
  padding : bool
}.

(* ISOTPConfig() *)
Definition default_config : ISOTPConfig :=
  {| stmin := 0; block_size := 0; timeout_ms := 1000; padding := true |}.

(* the `if padding and len(frame) < 8: frame += bytes([0x00] * (8 - len(frame)))`
   tail shared by the four constructors *)
Definition pad (padding : bool) (frame : bytes) : bytes :=
  if padding && (len frame <? 8) then frame ++ zeros (Z.to_nat (8 - len frame))
  else frame.

(* ISOTPFrame.parse *)
Definition parse (data : bytes) : result (FrameType * bytes) :=
  if len data =? 0 then Raise ValueError
  else
    let* pci_byte := index data 0 in
    let frame_type_nibble := Z.land pci_byte 0xF0 in
    if frame_type_nibble =? 0x00 then
      let length := Z.land pci_byte 0x0F in
      Ok (SINGLE_FRAME, slice 1 (1 + length) data)
    else if frame_type_nibble =? 0x10 then
      let* d1 := index data 1 in
      let length := Z.lor (Z.shiftl (Z.land pci_byte 0x0F) 8) d1 in
      Ok (FIRST_FRAME, drop 2 data)
    else if frame_type_nibble =? 0x20 then
      let seq_num := Z.land pci_byte 0x0F in
      Ok (CONSECUTIVE_FRAME, drop 1 data)
    else if frame_type_nibble =? 0x30 then
      let flow_status := Z.land pci_byte 0x0F in
      Ok (FLOW_CONTROL, slice 1 3 data)
    else Raise ValueError.

(* ISOTPFrame.create_single_frame *)
Definition create_single_frame (data : bytes) (padding : bool) : result bytes :=
  if len data >? 7 then Raise ValueError
  else
    let pci := Z.lor 0x00 (len data) in
    let* hd := bytes_of [pci] in
    let frame := hd ++ data in
    Ok (pad padding frame).

(* ISOTPFrame.create_first_frame *)
Definition create_first_frame (total_length : Z) (data : bytes) (padding : bool)
  : result bytes :=
  if total_length >? 4095 then Raise ValueError
  else
    let pci_high := Z.lor 0x10 (Z.land (Z.shiftr total_length 8) 0x0F) in
    let pci_low := Z.land total_length 0xFF in
    let* hd := bytes_of [pci_high; pci_low] in
    let frame := hd ++ take 6 data in
    Ok (pad padding frame).

(* ISOTPFrame.create_consecutive_frame *)
Definition create_consecutive_frame (seq_num : Z) (data : bytes) (padding : bool)
  : result bytes :=
  let pci := Z.lor 0x20 (Z.land seq_num 0x0F) in
  let* hd := bytes_of [pci] in
  let frame := hd ++ take 7 data in
  Ok (pad padding frame).

(* ISOTPFrame.create_flow_control *)
Definition create_flow_control (flow_status : FlowStatus) (block_size stmin : Z)
    (padding : bool) : result bytes :=
  let pci := Z.lor 0x30 (FlowStatus_value flow_status) in
  let* frame := bytes_of [pci; Z.land block_size 0xFF; Z.land stmin 0xFF] in
  Ok (pad padding frame).

(* can.Message(arbitration_id=..., data=..., is_extended_id=...) *)
Record Message : Type := {
  arbitration_id : Z;
  data : bytes;
  is_extended_id : bool
}.

(* What a sender or a receiver touches outside itself: its `can.Bus` handle
   and the wall clock.  `bus_recv` is `bus.recv(timeout=0.1)`, `None` when
   nothing arrived in that window; `bus_send` may raise. *)
Class Env (W : Type) : Type := {
  bus_send : Message -> W -> result unit * W;
  bus_recv : W -> option Message * W;
  time_time : W -> Z * W;
  time_sleep : Z -> W -> W
}.

Record ISOTPSender : Type := {
  s_tx_id : Z;
  s_rx_id : Z;
  s_config : ISOTPConfig
}.

Record ISOTPReceiver : Type := {
  r_tx_id : Z;
  r_rx_id : Z;
  r_config : ISOTPConfig;
  receiving : bool;
  expected_length : Z;
  received_data : bytes;
  next_seq_num : Z;
  last_frame_time : Z
}.

(* ISOTPReceiver.__init__ *)
Definition new_receiver (tx_id rx_id : Z) (config : ISOTPConfig) : ISOTPReceiver :=
  {| r_tx_id := tx_id; r_rx_id := rx_id; r_config := config;
     receiving := false; expected_length := 0; received_data := [];
     next_seq_num := 1; last_frame_time := 0 |}.

Section Transport.
Context {W : Type} `{Env W}.

(* ISOTPSender._send_single_frame *)
Definition _send_single_frame (self : ISOTPSender) (payload : bytes) (w : W)
  : bool * W :=
  match create_single_frame payload (padding (s_config self)) with
  | Raise _ => (false, w)
  | Ok frame_data =>
      let msg := {| arbitration_id := s_tx_id self; data := frame_data;
                    is_extended_id := false |} in
      match bus_send msg w with
      | (Ok _, w1) => (true, w1)
      | (Raise _, w1) => (false, w1)
      end
  end.

(* the `while time.time() - start_time < timeout` loop of
   ISOTPSender._wait_for_flow_control; `None` when `fuel` polls did not
   reach a `return` *)
Fixpoint wait_loop (fuel : nat) (self : ISOTPSender) (start_time : Z) (w : W)
  : option (bool * W) :=
  match fuel with
  | O => None
  | S fuel' =>
      let '(now, w0) := time_time w in
      if now - start_time <? timeout_ms (s_config self) then
        let '(msg, w1) := bus_recv w0 in
        match msg with
        | Some m =>
            if arbitration_id m =? s_rx_id self then
              match parse (data m) with
              | Ok (FLOW_CONTROL, d) =>
                  let flow_status :=
                    if len d >? 0 then
                      match index d 0 with
                      | Ok v => v
                      | Raise _ => FlowStatus_value CONTINUE_TO_SEND
                      end
                    else FlowStatus_value CONTINUE_TO_SEND in
                  if flow_status =? FlowStatus_value CONTINUE_TO_SEND then
                    Some (true, w1)
                  else if flow_status =? FlowStatus_value WAIT then
                    wait_loop fuel' self start_time w1
                  else Some (false, w1)
              | Ok (_, _) => wait_loop fuel' self start_time w1
              | Raise _ => wait_loop fuel' self start_time w1
              end
            else wait_loop fuel' self start_time w1
        | None => wait_loop fuel' self start_time w1
        end
      else Some (false, w0)
  end.

(* ISOTPSender._wait_for_flow_control *)
Definition _wait_for_flow_control (fuel : nat) (self : ISOTPSender) (w : W)
  : option (bool * W) :=
  let '(start_time, w0) := time_time w in
  wait_loop fuel self start_time w0.

(* the `while offset < len(remaining)` loop of ISOTPSender._send_multi_frame;
   `Some (false, _)` is the `except` branch *)
Fixpoint cf_loop (fuel : nat) (self : ISOTPSender) (remaining : bytes)
    (seq_num offset : Z) (w : W) : option (bool * W) :=
  if offset <? len remaining then
    match fuel with
    | O => None
    | S fuel' =>
        let chunk := slice offset (offset + 7) remaining in
        match create_consecutive_frame seq_num chunk (padding (s_config self)) with
        | Raise _ => Some (false, w)
        | Ok cf_data =>
            let msg := {| arbitration_id := s_tx_id self; data := cf_data;
                          is_extended_id := false |} in
            match bus_send msg w with
            | (Raise _, w1) => Some (false, w1)
            | (Ok _, w1) =>
                let seq_num' := (seq_num + 1) mod 16 in
                let offset' := offset + 7 in
                let w2 := if stmin (s_config self) >? 0
                          then time_sleep (stmin (s_config self)) w1 else w1 in
                cf_loop fuel' self remaining seq_num' offset' w2
            end
        end
    end
  else Some (true, w).

(* ISOTPSender._send_multi_frame *)
Definition _send_multi_frame (fuel : nat) (self : ISOTPSender) (payload : bytes)
    (w : W) : option (bool * W) :=
  match create_first_frame (len payload) (take 6 payload)
          (padding (s_config self)) with
  | Raise _ => Some (false, w)
  | Ok ff_data =>
      let msg := {| arbitration_id := s_tx_id self; data := ff_data;
                    is_extended_id := false |} in
      match bus_send msg w with
      | (Raise _, w1) => Some (false, w1)
      | (Ok _, w1) =>
          match _wait_for_flow_control fuel self w1 with
          | None => None
          | Some (false, w2) => Some (false, w2)
          | Some (true, w2) =>
              let remaining := drop 6 payload in
              cf_loop fuel self remaining 1 0 w2
          end
      end
  end.

(* ISOTPSender.send *)
Definition send (fuel : nat) (self : ISOTPSender) (payload : bytes) (w : W)
  : option (bool * W) :=
  if len payload <=? 7 then Some (_send_single_frame self payload w)
  else _send_multi_frame fuel self payload w.

(* ISOTPReceiver._reset_reception *)
Definition _reset_reception (self : ISOTPReceiver) : ISOTPReceiver :=
  {| r_tx_id := r_tx_id self; r_rx_id := r_rx_id self; r_config := r_config self;
     receiving := false; expected_length := 0; received_data := [];
     next_seq_num := 1; last_frame_time := 0 |}.

(* ISOTPReceiver._send_flow_control *)
Definition _send_flow_control (self : ISOTPReceiver) (flow_status : FlowStatus)
    (w : W) : W :=
  match create_flow_control flow_status (block_size (r_config self))
          (stmin (r_config self)) (padding (r_config self)) with
  | Raise _ => w
  | Ok fc_data =>
      let msg := {| arbitration_id := r_tx_id self; data := fc_data;
                    is_extended_id := false |} in
      snd (bus_send msg w)
  end.

(* ISOTPReceiver._handle_single_frame *)
Definition _handle_single_frame (self : ISOTPReceiver) (d : bytes)
  : option bytes * ISOTPReceiver :=
  (Some d, _reset_reception self).

(* ISOTPReceiver._handle_first_frame *)
Definition _handle_first_frame (self : ISOTPReceiver) (d raw_frame : bytes) (w : W)
  : result (option bytes * ISOTPReceiver) * W :=
  match (let* pci_high := index raw_frame 0 in
         let* pci_low := index raw_frame 1 in Ok (pci_high, pci_low)) with
  | Raise e => (Raise e, w)
  | Ok (pci_high, pci_low) =>
      let '(now, w0) := time_time w in
      let self1 :=
        {| r_tx_id := r_tx_id self; r_rx_id := r_rx_id self;
           r_config := r_config self;
           receiving := true;
           expected_length := Z.lor (Z.shiftl (Z.land pci_high 0x0F) 8) pci_low;
           received_data := take 6 d;
           next_seq_num := 1;
           last_frame_time := now |} in
      let w1 := _send_flow_control self1 CONTINUE_TO_SEND w0 in
      (Ok (None, self1), w1)
  end.

(* ISOTPReceiver._handle_consecutive_frame *)
Definition _handle_consecutive_frame (self : ISOTPReceiver) (d raw_frame : bytes)
    (w : W) : result (option bytes * ISOTPReceiver) * W :=
  if negb (receiving self) then (Ok (None, self), w)
  else
    let '(now, w0) := time_time w in
    if now - last_frame_time self >? timeout_ms (r_config self) then
      (Ok (None, _reset_reception self), w0)
    else
      match index raw_frame 0 with
      | Raise e => (Raise e, w0)
      | Ok pci =>
          let seq_num := Z.land pci 0x0F in
          if negb (seq_num =? next_seq_num self) then
            (Ok (None, _reset_reception self), w0)
          else
            let remaining := expected_length self - len (received_data self) in
            let chunk_size := Z.min 7 remaining in
            let received := received_data self ++ upto chunk_size d in
            let '(now', w1) := time_time w0 in
            let self1 :=
              {| r_tx_id := r_tx_id self; r_rx_id := r_rx_id self;
                 r_config := r_config self;
                 receiving := receiving self;
                 expected_length := expected_length self;
                 received_data := received;
                 next_seq_num := (next_seq_num self + 1) mod 16;
                 last_frame_time := now' |} in
            if len received >=? expected_length self then
              let payload := upto (expected_length self) received in
              (Ok (Some payload, _reset_reception self1), w1)
            else (Ok (None, self1), w1)
      end.

(* ISOTPReceiver.receive_frame *)
Definition receive_frame (self : ISOTPReceiver) (msg : Message) (w : W)
  : option bytes * ISOTPReceiver * W :=
  if negb (arbitration_id msg =? r_rx_id self) then (None, self, w)
  else
    let attempt :=
      match parse (data msg) with
      | Raise e => (Raise e, w)
      | Ok (SINGLE_FRAME, d) => (Ok (_handle_single_frame self d), w)
      | Ok (FIRST_FRAME, d) => _handle_first_frame self d (data msg) w
      | Ok (CONSECUTIVE_FRAME, d) => _handle_consecutive_frame self d (data msg) w
      | Ok (FLOW_CONTROL, _) => (Ok (None, self), w)
      end in
    match attempt with
    | (Ok (r, self1), w1) => (r, self1, w1)
    | (Raise _, w1) => (None, _reset_reception self, w1)
    end.

End Transport.

(* A sender wired to its peer.  The receiving end sees the clock reading
   `pe_now` while it handles one frame and queues what it sends in
   `pe_sent`. *)
Record peer_env : Type := {
  pe_now : Z;
  pe_sent : list Message
}.

#[export] Instance peer_Env : Env peer_env := {
  bus_send m w := (Ok tt, {| pe_now := pe_now w; pe_sent := pe_sent w ++ [m] |});
  bus_recv w := (None, w);
  time_time w := (pe_now w, w);
  time_sleep _ w := w
}.

(* The sender's view of the link: every frame it puts on the bus is handed
   to `lk_peer.receive_frame` at the clock reading `lk_at i`, i the number
   of frames sent before; what the peer sends back waits in `lk_inbox`;
   `lk_delivered` collects the payloads `receive_frame` returned. *)
Record link : Type := {
  lk_peer : ISOTPReceiver;
  lk_at : nat -> Z;
  lk_inbox : list Message;
  lk_wire : list Message;
  lk_delivered : list bytes
}.

Definition link_send (m : Message) (w : link) : result unit * link :=
  let i := length (lk_wire w) in
  let '(r, peer1, e) :=
    receive_frame (lk_peer w) m {| pe_now := lk_at w i; pe_sent := [] |} in
  (Ok tt,
   {| lk_peer := peer1;
      lk_at := lk_at w;
      lk_inbox := lk_inbox w ++ pe_sent e;
      lk_wire := lk_wire w ++ [m];
      lk_delivered := lk_delivered w ++ match r with Some p => [p] | None => [] end |}).

Definition link_recv (w : link) : option Message * link :=
  match lk_inbox w with
  | [] => (None, w)
  | m :: q =>
      (Some m,
       {| lk_peer := lk_peer w; lk_at := lk_at w; lk_inbox := q;
          lk_wire := lk_wire w; lk_delivered := lk_delivered w |})
  end.

#[export] Instance link_Env : Env link := {
  bus_send := link_send;
  bus_recv := link_recv;
  time_time w := (lk_at w (length (lk_wire w)), w);
  time_sleep _ w := w
}.

Definition new_link (peer : ISOTPReceiver) (at_ : nat -> Z) : link :=
  {| lk_peer := peer; lk_at := at_; lk_inbox := []; lk_wire := [];
     lk_delivered := [] |}.

End ISOTP.

(* --------------------------------------------------------------------- *)
(*  lib/vehicle_simulator.py: the records the service handlers touch      *)
(* --------------------------------------------------------------------- *)

Module Vehicle.

(* SensorData: the fields annotated `float` hold binary64 values (NaN and
   the infinities included); where the simulator stores an int in one of
   them (`self.sensors.rpm = 0`), the field holds the float of that value *)
Record SensorData : Type := {
  rpm : float;
  engine_load : float;
  coolant_temp : float;
  intake_air_temp : float;
  maf : float;
  timing_advance : float;
  throttle_position : float;
  fuel_level : float;
  fuel_pressure : float;
  fuel_rate : float;
  vehicle_speed : float;
  distance_traveled : float;
  distance_with_mil : float;
  distance_since_clear : float;
  battery_voltage : float;
  o2_voltage : float;
  short_term_fuel_trim : float;
  long_term_fuel_trim : float;
  catalyst_temp : float;
  evap_vapor_pressure : float;
  barometric_pressure : float;
  engine_runtime : float;
  warmups_since_clear : Z;
  mil_status : bool
}.

(* SensorData() *)
Definition new_SensorData : SensorData :=
  {| rpm := 0; engine_load := 0; coolant_temp := 20; intake_air_temp := 25;
     maf := 0; timing_advance := 0; throttle_position := 0; fuel_level := 75;
     fuel_pressure := 380; fuel_rate := 0; vehicle_speed := 0;
     distance_traveled := 0; distance_with_mil := 0; distance_since_clear := 0;
     battery_voltage := 12.6; o2_voltage := 0.45;
     short_term_fuel_trim := 0; long_term_fuel_trim := 0; catalyst_temp := 400;
     evap_vapor_pressure := 0; barometric_pressure := 101.3;
     engine_runtime := 0; warmups_since_clear := 0; mil_status := false |}.

Record DriveCycle : Type := {
  misfire_monitor_complete : bool;
  fuel_system_monitor_complete : bool;
  component_monitor_complete : bool;
  catalyst_monitor_complete : bool;
  heated_catalyst_monitor_complete : bool;
  evap_system_monitor_complete : bool;
  secondary_air_monitor_complete : bool;
  oxygen_sensor_monitor_complete : bool;
  oxygen_sensor_heater_complete : bool;
  egr_system_monitor_complete : bool;
  idle_time : float;
  cruise_time : float;
  accel_count : Z;
  decel_count : Z;
  cold_start_count : Z
}.

(* DriveCycle() *)
Definition new_DriveCycle : DriveCycle :=
  {| misfire_monitor_complete := false;
     fuel_system_monitor_complete := false;
     component_monitor_complete := false;
     catalyst_monitor_complete := false;
     heated_catalyst_monitor_complete := false;
     evap_system_monitor_complete := false;
     secondary_air_monitor_complete := false;
     oxygen_sensor_monitor_complete := false;
     oxygen_sensor_heater_complete := false;
     egr_system_monitor_complete := false;
     idle_time := 0;
     cruise_time := 0;
     accel_count := 0;
     decel_count := 0;
     cold_start_count := 0 |}.

(* DriveCycle.reset *)
Definition reset (self : DriveCycle) : DriveCycle :=
  {| misfire_monitor_complete := false;
     fuel_system_monitor_complete := false;
     component_monitor_complete := false;
     catalyst_monitor_complete := false;
     heated_catalyst_monitor_complete := false;
     evap_system_monitor_complete := false;
     secondary_air_monitor_complete := false;
     oxygen_sensor_monitor_complete := false;
     oxygen_sensor_heater_complete := false;
     egr_system_monitor_complete := false;
     idle_time := 0;
     cruise_time := 0;
     accel_count := 0;
     decel_count := 0;
     cold_start_count := 0 |}.

(* DriveCycle.get_completion_mask *)
Definition get_completion_mask (self : DriveCycle) : Z :=
  let mask := 0 in
  let mask := if misfire_monitor_complete self
              then Z.lor mask (Z.shiftl 1 0) else mask in
  let mask := if fuel_system_monitor_complete self
              then Z.lor mask (Z.shiftl 1 1) else mask in
  let mask := if component_monitor_complete self
              then Z.lor mask (Z.shiftl 1 2) else mask in
  let mask := if catalyst_monitor_complete self
              then Z.lor mask (Z.shiftl 1 3) else mask in
  let mask := if heated_catalyst_monitor_complete self
              then Z.lor mask (Z.shiftl 1 4) else mask in
  let mask := if evap_system_monitor_complete self
              then Z.lor mask (Z.shiftl 1 5) else mask in
  let mask := if secondary_air_monitor_complete self
              then Z.lor mask (Z.shiftl 1 6) else mask in
  let mask := if oxygen_sensor_monitor_complete self
              then Z.lor mask (Z.shiftl 1 7) else mask in
  let mask := if oxygen_sensor_heater_complete self
              then Z.lor mask (Z.shiftl 1 8) else mask in
  let mask := if egr_system_monitor_complete self
              then Z.lor mask (Z.shiftl 1 9) else mask in
  mask.

Inductive EngineState : Type :=
| OFF
| CRANKING
| RUNNING
| STALLING.

(* VehicleSimulator: the state the handlers reach through `get_sensor_data`,
   `get_drive_cycle` and `reset_drive_cycle`.  Both getters hand out the
   live object, so a write through the result is a write to the field. *)
Record VehicleSimulator : Type := {
  engine_state : EngineState;
  sensors : SensorData;
  drive_cycle : DriveCycle
}.

(* VehicleSimulator.get_sensor_data *)
Definition get_sensor_data (self : VehicleSimulator) : SensorData := sensors self.

(* VehicleSimulator.get_drive_cycle *)
Definition get_drive_cycle (self : VehicleSimulator) : DriveCycle := drive_cycle self.

(* VehicleSimulator.reset_drive_cycle *)
Definition reset_drive_cycle (self : VehicleSimulator) : VehicleSimulator :=
  {| engine_state := engine_state self;
     sensors := sensors self;
     drive_cycle := reset (drive_cycle self) |}.

(* the three assignments `sensors.distance_since_clear = 0.0`,
   `sensors.distance_with_mil = 0.0`, `sensors.warmups_since_clear = 0`
   on the live sensor record *)
Definition set_distance_since_clear (v : float) (s : SensorData) : SensorData :=
  {| rpm := rpm s; engine_load := engine_load s; coolant_temp := coolant_temp s;
     intake_air_temp := intake_air_temp s; maf := maf s;
     timing_advance := timing_advance s; throttle_position := throttle_position s;
     fuel_level := fuel_level s; fuel_pressure := fuel_pressure s;
     fuel_rate := fuel_rate s; vehicle_speed := vehicle_speed s;
     distance_traveled := distance_traveled s;
     distance_with_mil := distance_with_mil s;
     distance_since_clear := v;
     battery_voltage := battery_voltage s; o2_voltage := o2_voltage s;
     short_term_fuel_trim := short_term_fuel_trim s;
     long_term_fuel_trim := long_term_fuel_trim s;
     catalyst_temp := catalyst_temp s;
     evap_vapor_pressure := evap_vapor_pressure s;
     barometric_pressure := barometric_pressure s;
     engine_runtime := engine_runtime s;
     warmups_since_clear := warmups_since_clear s;
     mil_status := mil_status s |}.

Definition set_distance_with_mil (v : float) (s : SensorData) : SensorData :=
  {| rpm := rpm s; engine_load := engine_load s; coolant_temp := coolant_temp s;
     intake_air_temp := intake_air_temp s; maf := maf s;
     timing_advance := timing_advance s; throttle_position := throttle_position s;
     fuel_level := fuel_level s; fuel_pressure := fuel_pressure s;
     fuel_rate := fuel_rate s; vehicle_speed := vehicle_speed s;
     distance_traveled := distance_traveled s;
     distance_with_mil := v;
     distance_since_clear := distance_since_clear s;
     battery_voltage := battery_voltage s; o2_voltage := o2_voltage s;
     short_term_fuel_trim := short_term_fuel_trim s;
     long_term_fuel_trim := long_term_fuel_trim s;
     catalyst_temp := catalyst_temp s;
     evap_vapor_pressure := evap_vapor_pressure s;
     barometric_pressure := barometric_pressure s;
     engine_runtime := engine_runtime s;
     warmups_since_clear := warmups_since_clear s;
     mil_status := mil_status s |}.

Definition set_warmups_since_clear (v : Z) (s : SensorData) : SensorData :=
  {| rpm := rpm s; engine_load := engine_load s; coolant_temp := coolant_temp s;
     intake_air_temp := intake_air_temp s; maf := maf s;
     timing_advance := timing_advance s; throttle_position := throttle_position s;
     fuel_level := fuel_level s; fuel_pressure := fuel_pressure s;
     fuel_rate := fuel_rate s; vehicle_speed := vehicle_speed s;
     distance_traveled := distance_traveled s;
     distance_with_mil := distance_with_mil s;
     distance_since_clear := distance_since_clear s;
     battery_voltage := battery_voltage s; o2_voltage := o2_voltage s;
     short_term_fuel_trim := short_term_fuel_trim s;
     long_term_fuel_trim := long_term_fuel_trim s;
     catalyst_temp := catalyst_temp s;
     evap_vapor_pressure := evap_vapor_pressure s;
     barometric_pressure := barometric_pressure s;
     engine_runtime := engine_runtime s;
     warmups_since_clear := v;
     mil_status := mil_status s |}.

Definition with_sensors (s : SensorData) (self : VehicleSimulator)
  : VehicleSimulator :=
  {| engine_state := engine_state self; sensors := s;
     drive_cycle := drive_cycle self |}.

End Vehicle.

(* --------------------------------------------------------------------- *)
(*  lib/dtc_manager.py                                                   *)
(* --------------------------------------------------------------------- *)

Module DTC.
Import Vehicle.

Inductive DTCState : Type :=
| PENDING
| CONFIRMED
| PERMANENT
| HISTORY.

Definition DTCState_eqb (a b : DTCState) : bool :=
  match a, b with
  | PENDING, PENDING | CONFIRMED, CONFIRMED
  | PERMANENT, PERMANENT | HISTORY, HISTORY => true
  | _, _ => false
  end.

Inductive DTCType : Type :=
| POWERTRAIN
| CHASSIS
| BODY
| NETWORK.

Record FreezeFrame : Type := {
  ff_timestamp : Z;
  ff_rpm : float;
  ff_speed : float;
  ff_coolant_temp : float;
  ff_engine_load : float;
  ff_throttle_position : float;
  ff_fuel_pressure : float;
  ff_maf : float;
  ff_short_term_fuel_trim : float;
  ff_long_term_fuel_trim : float;
  ff_timing_advance : float
}.

(* FreezeFrame.capture *)
Definition capture (sensors : SensorData) (now : Z) : FreezeFrame :=
  {| ff_timestamp := now;
     ff_rpm := rpm sensors;
     ff_speed := vehicle_speed sensors;
     ff_coolant_temp := coolant_temp sensors;
     ff_engine_load := engine_load sensors;
     ff_throttle_position := throttle_position sensors;
     ff_fuel_pressure := fuel_pressure sensors;
     ff_maf := maf sensors;
     ff_short_term_fuel_trim := short_term_fuel_trim sensors;
     ff_long_term_fuel_trim := long_term_fuel_trim sensors;
     ff_timing_advance := timing_advance sensors |}.

Record DiagnosticTroubleCode : Type := {
  code : string;
  description : string;
  state : DTCState;
  detection_count : Z;
  first_detected : Z;
  last_detected : Z;
  freeze_frame : option FreezeFrame;
  mil_illuminate : bool;
  is_emission_related : bool
}.

Definition with_state (s : DTCState) (d : DiagnosticTroubleCode)
  : DiagnosticTroubleCode :=
  {| code := code d; description := description d; state := s;
     detection_count := detection_count d; first_detected := first_detected d;
     last_detected := last_detected d; freeze_frame := freeze_frame d;
     mil_illuminate := mil_illuminate d;
     is_emission_related := is_emission_related d |}.

(* code.startswith(c) for a one-character c *)
Definition startswith (s : string) (c : ascii) : bool :=
  match s with
  | String a _ => Ascii.eqb a c
  | EmptyString => false
  end.

(* DiagnosticTroubleCode.get_type *)
Definition get_type (self : DiagnosticTroubleCode) : DTCType :=
  if startswith (code self) "P" then POWERTRAIN
  else if startswith (code self) "C" then CHASSIS
  else if startswith (code self) "B" then BODY
  else if startswith (code self) "U" then NETWORK
  else POWERTRAIN.

(* {'P': 0, 'C': 1, 'B': 2, 'U': 3}.get(c, 0) *)
Definition type_map_get (c : ascii) : Z :=
  if Ascii.eqb c "P" then 0
  else if Ascii.eqb c "C" then 1
  else if Ascii.eqb c "B" then 2
  else if Ascii.eqb c "U" then 3
  else 0.

(* int(c) for a one-character string c: the decimal digits, ValueError
   for every other character *)
Definition int_of_char (c : ascii) : result Z :=
  let n := Z.of_N (N_of_ascii c) in
  if (48 <=? n) && (n <=? 57) then Ok (n - 48) else Raise ValueError.

(* s[i] on a str *)
Definition str_index (s : string) (i : nat) : result ascii :=
  match String.get i s with
  | Some c => Ok c
  | None => Raise IndexError
  end.

(* the byte packing shared by DiagnosticTroubleCode.to_bytes and the
   sub-function 0x0A loop of UDS service 0x19: the pair (byte1, byte2) *)
Definition pack_digits (code_type : Z) (digits : string) : result (Z * Z) :=
  let* c0 := str_index digits 0 in
  let* first_digit := int_of_char c0 in
  let* c1 := str_index digits 1 in
  let* second_digit := int_of_char c1 in
  let byte1 := Z.lor (Z.lor (Z.shiftl code_type 6) (Z.shiftl first_digit 4))
                     second_digit in
  let* c2 := str_index digits 2 in
  let* third_digit := int_of_char c2 in
  let* c3 := str_index digits 3 in
  let* fourth_digit := int_of_char c3 in
  let byte2 := Z.lor (Z.shiftl third_digit 4) fourth_digit in
  Ok (byte1, byte2).

(* code[1:] *)
Definition str_tail (s : string) : string :=
  match s with
  | String _ r => r
  | EmptyString => EmptyString
  end.

(* DiagnosticTroubleCode.to_bytes *)
Definition to_bytes (self : DiagnosticTroubleCode) : result bytes :=
  let* c := str_index (code self) 0 in
  let code_type := type_map_get c in
  let digits := str_tail (code self) in
  if negb (Nat.eqb (String.length digits) 4) then bytes_of [0x00; 0x00]
  else
    let* (byte1, byte2) := pack_digits code_type digits in
    bytes_of [byte1; byte2].

(* The decoder of test_client_v2.py (TestClient.test_read_dtcs):
     dtc_type = ['P','C','B','U'][(byte1 >> 6) & 0x03]
     digit1 = (byte1 >> 4) & 0x03;  digit2 = byte1 & 0x0F
     digit3 = (byte2 >> 4) & 0x0F;  digit4 = byte2 & 0x0F
     f"{dtc_type}{digit1}{digit2:X}{digit3:X}{digit4:X}" *)
Definition format_X (d : Z) : string :=
  String.substring (Z.to_nat d) 1 "0123456789ABCDEF".

Definition format_d (d : Z) : string :=
  String.substring (Z.to_nat d) 1 "0123456789".

Definition decode_dtc (byte1 byte2 : Z) : string :=
  let dtc_type := String.substring (Z.to_nat (Z.land (Z.shiftr byte1 6) 0x03)) 1 "PCBU" in
  let digit1 := Z.land (Z.shiftr byte1 4) 0x03 in
  let digit2 := Z.land byte1 0x0F in
  let digit3 := Z.land (Z.shiftr byte2 4) 0x0F in
  let digit4 := Z.land byte2 0x0F in
  (dtc_type ++ format_d digit1 ++ format_X digit2 ++ format_X digit3
   ++ format_X digit4)%string.

(* DTC_DEFINITIONS, in source order: code -> (description, mil_illuminate,
   is_emission_related) *)
Definition DTC_DEFINITIONS : list (string * (string * bool * bool)) :=
  [ ("P0300", ("Random/Multiple Cylinder Misfire Detected", true, true));
    ("P0301", ("Cylinder 1 Misfire Detected", true, true));
    ("P0302", ("Cylinder 2 Misfire Detected", true, true));
    ("P0303", ("Cylinder 3 Misfire Detected", true, true));
    ("P0304", ("Cylinder 4 Misfire Detected", true, true));
    ("P0171", ("System Too Lean (Bank 1)", true, true));
    ("P0172", ("System Too Rich (Bank 1)", true, true));
    ("P0174", ("System Too Lean (Bank 2)", true, true));
    ("P0175", ("System Too Rich (Bank 2)", true, true));
    ("P0128", ("Coolant Thermostat (Coolant Temperature Below Thermostat Regulating Temperature)", true, true));
    ("P0420", ("Catalyst System Efficiency Below Threshold (Bank 1)", true, true));
    ("P0430", ("Catalyst System Efficiency Below Threshold (Bank 2)", true, true));
    ("P0440", ("Evaporative Emission Control System Malfunction", true, true));
    ("P0442", ("Evaporative Emission Control System Leak Detected (Small Leak)", true, true));
    ("P0443", ("Evaporative Emission Control System Purge Control Valve Circuit Malfunction", true, true));
    ("P0446", ("Evaporative Emission Control System Vent Control Circuit Malfunction", true, true));
    ("P0130", ("O2 Sensor Circuit Malfunction (Bank 1, Sensor 1)", true, true));
    ("P0131", ("O2 Sensor Circuit Low Voltage (Bank 1, Sensor 1)", true, true));
    ("P0132", ("O2 Sensor Circuit High Voltage (Bank 1, Sensor 1)", true, true));
    ("P0133", ("O2 Sensor Circuit Slow Response (Bank 1, Sensor 1)", true, true));
    ("P0134", ("O2 Sensor Circuit No Activity Detected (Bank 1, Sensor 1)", true, true));
    ("P0100", ("Mass or Volume Air Flow Circuit Malfunction", true, false));
    ("P0101", ("Mass or Volume Air Flow Circuit Range/Performance Problem", true, false));
    ("P0102", ("Mass or Volume Air Flow Circuit Low Input", true, false));
    ("P0103", ("Mass or Volume Air Flow Circuit High Input", true, false));
    ("P0562", ("System Voltage Low", true, false));
    ("P0563", ("System Voltage High", true, false));
    ("P0401", ("Exhaust Gas Recirculation Flow Insufficient Detected", true, true));
    ("P0402", ("Exhaust Gas Recirculation Flow Excessive Detected", true, true));
    ("P0700", ("Transmission Control System Malfunction", false, false));
    ("P0715", ("Input/Turbine Speed Sensor Circuit Malfunction", false, false));
    ("P0720", ("Output Speed Sensor Circuit Malfunction", false, false));
    ("P1000", ("OBD System Readiness Test Not Complete", false, false)) ]%string.

(* DTC_DEFINITIONS.get(code) *)
Fixpoint definition_of_in (defs : list (string * (string * bool * bool)))
    (c : string) : option (string * bool * bool) :=
  match defs with
  | [] => None
  | (k, v) :: r => if String.eqb k c then Some v else definition_of_in r c
  end.

Definition definition_of (c : string) : option (string * bool * bool) :=
  definition_of_in DTC_DEFINITIONS c.

(* DTCManager.  `dtcs` is the dict `self.dtcs` in insertion order; every
   entry is stored under its own `code` (inject_dtc is the only writer), so
   the key is read off the record. *)
Record DTCManager : Type := {
  dtcs : list DiagnosticTroubleCode;
  mil_on : bool;
  pending_to_confirmed_threshold : Z;
  healing_drive_cycles : Z;
  drive_cycle_count : Z
}.

(* DTCManager.__init__ *)
Definition new_DTCManager : DTCManager :=
  {| dtcs := []; mil_on := false; pending_to_confirmed_threshold := 2;
     healing_drive_cycles := 40; drive_cycle_count := 0 |}.

Definition with_dtcs (l : list DiagnosticTroubleCode) (self : DTCManager)
  : DTCManager :=
  {| dtcs := l; mil_on := mil_on self;
     pending_to_confirmed_threshold := pending_to_confirmed_threshold self;
     healing_drive_cycles := healing_drive_cycles self;
     drive_cycle_count := drive_cycle_count self |}.

(* code in self.dtcs *)
Definition contains (l : list DiagnosticTroubleCode) (c : string) : bool :=
  existsb (fun d => String.eqb (code d) c) l.

(* self.dtcs.get(code) *)
Definition lookup_code (l : list DiagnosticTroubleCode) (c : string)
  : option DiagnosticTroubleCode :=
  find (fun d => String.eqb (code d) c) l.

(* del self.dtcs[code] *)
Definition del (c : string) (l : list DiagnosticTroubleCode)
  : list DiagnosticTroubleCode :=
  List.filter (fun d => negb (String.eqb (code d) c)) l.

(* state in [DTCState.CONFIRMED, DTCState.PERMANENT] *)
Definition confirmed_or_permanent (s : DTCState) : bool :=
  DTCState_eqb s CONFIRMED || DTCState_eqb s PERMANENT.

(* DTCManager._update_mil *)
Definition _update_mil (self : DTCManager) : DTCManager :=
  {| dtcs := dtcs self;
     mil_on := existsb (fun dtc => mil_illuminate dtc
                                   && confirmed_or_permanent (state dtc))
                       (dtcs self);
     pending_to_confirmed_threshold := pending_to_confirmed_threshold self;
     healing_drive_cycles := healing_drive_cycles self;
     drive_cycle_count := drive_cycle_count self |}.

(* the `if code in self.dtcs:` branch of inject_dtc, on the stored record *)
Definition redetect (threshold now : Z) (dtc : DiagnosticTroubleCode)
  : DiagnosticTroubleCode :=
  let count := detection_count dtc + 1 in
  let st :=
    if DTCState_eqb (state dtc) PENDING && (count >=? threshold) then
      if is_emission_related dtc then PERMANENT else CONFIRMED
    else state dtc in
  {| code := code dtc; description := description dtc; state := st;
     detection_count := count; first_detected := first_detected dtc;
     last_detected := now; freeze_frame := freeze_frame dtc;
     mil_illuminate := mil_illuminate dtc;
     is_emission_related := is_emission_related dtc |}.

(* in-place update of the entry stored under c *)
Definition update_code (c : string)
    (f : DiagnosticTroubleCode -> DiagnosticTroubleCode)
    (l : list DiagnosticTroubleCode) : list DiagnosticTroubleCode :=
  map (fun d => if String.eqb (code d) c then f d else d) l.

(* DTCManager.inject_dtc *)
Definition inject_dtc (self : DTCManager) (c : string) (sensors : SensorData)
    (capture_freeze_frame : bool) (now : Z) : bool * DTCManager :=
  match definition_of c with
  | None => (false, self)
  | Some (descr, mil, is_emission) =>
      let self1 :=
        if contains (dtcs self) c then
          with_dtcs (update_code c
                       (redetect (pending_to_confirmed_threshold self) now)
                       (dtcs self)) self
        else
          let ff := if capture_freeze_frame then Some (capture sensors now)
                    else None in
          let dtc :=
            {| code := c; description := descr; state := PENDING;
               detection_count := 1; first_detected := now;
               last_detected := now; freeze_frame := ff;
               mil_illuminate := mil; is_emission_related := is_emission |} in
          with_dtcs (dtcs self ++ [dtc]) self in
      (true, _update_mil self1)
  end.

(* DTCManager.get_dtcs_by_state *)
Definition get_dtcs_by_state (self : DTCManager) (s : DTCState)
  : list DiagnosticTroubleCode :=
  List.filter (fun dtc => DTCState_eqb (state dtc) s) (dtcs self).

(* DTCManager.get_pending_dtcs *)
Definition get_pending_dtcs (self : DTCManager) := get_dtcs_by_state self PENDING.

(* DTCManager.get_confirmed_dtcs *)
Definition get_confirmed_dtcs (self : DTCManager) := get_dtcs_by_state self CONFIRMED.

(* DTCManager.get_permanent_dtcs *)
Definition get_permanent_dtcs (self : DTCManager) := get_dtcs_by_state self PERMANENT.

(* DTCManager.get_all_active_dtcs *)
Definition get_all_active_dtcs (self : DTCManager) : list DiagnosticTroubleCode :=
  List.filter (fun dtc => DTCState_eqb (state dtc) PENDING
                     || DTCState_eqb (state dtc) CONFIRMED
                     || DTCState_eqb (state dtc) PERMANENT) (dtcs self).

(* DTCManager.get_dtc_count *)
Definition get_dtc_count (self : DTCManager) : Z :=
  len (get_confirmed_dtcs self) + len (get_permanent_dtcs self).

(* DTCManager.is_mil_on *)
Definition is_mil_on (self : DTCManager) : bool := mil_on self.

(* list.sort(key=lambda d: d.last_detected): stable, ascending *)
Fixpoint insert_by_last (x : DiagnosticTroubleCode)
    (l : list DiagnosticTroubleCode) : list DiagnosticTroubleCode :=
  match l with
  | [] => [x]
  | y :: r => if last_detected x <=? last_detected y then x :: y :: r
              else y :: insert_by_last x r
  end.

Definition sort_by_last (l : list DiagnosticTroubleCode)
  : list DiagnosticTroubleCode :=
  fold_right insert_by_last [] l.

(* DTCManager._cleanup_history *)
Definition _cleanup_history (self : DTCManager) (max_history : Z) : DTCManager :=
  let history_dtcs := get_dtcs_by_state self HISTORY in
  if len history_dtcs >? max_history then
    let history_dtcs := sort_by_last history_dtcs in
    with_dtcs (fold_left (fun l dtc => del (code dtc) l)
                         (upto (- max_history) history_dtcs) (dtcs self)) self
  else self.

(* one turn of the `for code, dtc in list(self.dtcs.items())` loop of
   clear_dtcs: the entry afterwards, and whether its code was appended to
   `cleared` *)
Definition clear_one (clear_permanent : bool) (dtc : DiagnosticTroubleCode)
  : DiagnosticTroubleCode * bool :=
  if DTCState_eqb (state dtc) PERMANENT && negb clear_permanent then (dtc, false)
  else if DTCState_eqb (state dtc) PENDING || DTCState_eqb (state dtc) CONFIRMED
  then (with_state HISTORY dtc, true)
  else if clear_permanent && DTCState_eqb (state dtc) PERMANENT
  then (with_state HISTORY dtc, true)
  else (dtc, false).

(* DTCManager.clear_dtcs *)
Definition clear_dtcs (self : DTCManager) (clear_permanent : bool)
  : list string * DTCManager :=
  let turns := map (clear_one clear_permanent) (dtcs self) in
  let cleared := map (fun t => code (fst t)) (List.filter (fun t => snd t) turns) in
  let self1 := with_dtcs (map fst turns) self in
  let self2 := _cleanup_history self1 10 in
  let self3 := _update_mil self2 in
  (cleared, self3).

(* DTCManager.drive_cycle_complete *)
Definition drive_cycle_complete (self : DTCManager) (now : Z) : DTCManager :=
  let count := drive_cycle_count self + 1 in
  let current_time := now in
  let healed (dtc : DiagnosticTroubleCode) : bool :=
    DTCState_eqb (state dtc) PENDING
    && (current_time - last_detected dtc
        >? healing_drive_cycles self * 600 * 1000) in
  let kept :=
    fold_left (fun l dtc => if healed dtc then del (code dtc) l else l)
              (dtcs self) (dtcs self) in
  _update_mil
    {| dtcs := kept; mil_on := mil_on self;
       pending_to_confirmed_threshold := pending_to_confirmed_threshold self;
       healing_drive_cycles := healing_drive_cycles self;
       drive_cycle_count := count |}.

(* DTCManager.format_dtc_response *)
Definition format_dtc_response (l : list DiagnosticTroubleCode) : result bytes :=
  match l with
  | [] => bytes_of [0x00]
  | _ =>
      let* hd := bytes_of [len l] in
      fold_left (fun acc dtc => let* response := acc in
                                let* b := to_bytes dtc in Ok (response ++ b))
                l (Ok hd)
  end.

(* DTCManager.get_freeze_frame *)
Definition get_freeze_frame (self : DTCManager) (dtc_code : string)
  : option FreezeFrame :=
  match lookup_code (dtcs self) dtc_code with
  | Some d => freeze_frame d
  | None => None
  end.

End DTC.

(* --------------------------------------------------------------------- *)
(*  lib/obd_services.py                                                  *)
(* --------------------------------------------------------------------- *)

Module OBD.
Import Vehicle DTC.

Record OBDServiceHandler : Type := {
  vehicle : VehicleSimulator;
  dtc_manager : DTCManager;
  vin : string;
  calibration_id : string;
  ecu_name : string
}.

(* OBDServiceHandler.__init__ with config = {} *)
Definition new_OBDServiceHandler (v : VehicleSimulator) (m : DTCManager)
  : OBDServiceHandler :=
  {| vehicle := v; dtc_manager := m; vin := "1HGBH41JXMN109186";
     calibration_id := "CALIB12345678"; ecu_name := "ENGINE-ECU" |}.

Definition hi_lo (v : Z) : list Z :=
  [Z.land (Z.shiftr v 8) 0xFF; Z.land v 0xFF].

(* the PID 0x01 branch of _mode_01_current_data *)
Definition monitor_status (self : OBDServiceHandler) : result bytes :=
  let drive_cycle := get_drive_cycle (vehicle self) in
  let dtc_count := Z.min 127 (get_dtc_count (dtc_manager self)) in
  let mil_on := if is_mil_on (dtc_manager self) then 0x80 else 0x00 in
  let byte_a := Z.lor mil_on dtc_count in
  let byte_b := 0x07 in
  let byte_b := if misfire_monitor_complete drive_cycle
                then Z.land byte_b (Z.lnot 0x01) else byte_b in
  let byte_b := if fuel_system_monitor_complete drive_cycle
                then Z.land byte_b (Z.lnot 0x02) else byte_b in
  let byte_b := if component_monitor_complete drive_cycle
                then Z.land byte_b (Z.lnot 0x04) else byte_b in
  let byte_c := 0x0F in
  let byte_c := if catalyst_monitor_complete drive_cycle
                then Z.land byte_c (Z.lnot 0x01) else byte_c in
  let byte_c := if heated_catalyst_monitor_complete drive_cycle
                then Z.land byte_c (Z.lnot 0x02) else byte_c in
  let byte_c := if evap_system_monitor_complete drive_cycle
                then Z.land byte_c (Z.lnot 0x04) else byte_c in
  let byte_d := 0x07 in
  let byte_d := if oxygen_sensor_monitor_complete drive_cycle
                then Z.land byte_d (Z.lnot 0x01) else byte_d in
  let byte_d := if oxygen_sensor_heater_complete drive_cycle
                then Z.land byte_d (Z.lnot 0x02) else byte_d in
  let byte_d := if egr_system_monitor_complete drive_cycle
                then Z.land byte_d (Z.lnot 0x04) else byte_d in
  bytes_of [0x41; 0x01; byte_a; byte_b; byte_c; byte_d].

(* OBDServiceHandler._mode_01_current_data *)
Definition _mode_01_current_data (self : OBDServiceHandler) (request : bytes)
  : result bytes :=
  if len request <? 2 then bytes_of [0x7F; 0x01; 0x12]
  else
    let* pid := index request 1 in
    let sensors := get_sensor_data (vehicle self) in
    if pid =? 0x00 then bytes_of [0x41; 0x00; 0xBF; 0xBF; 0xA8; 0x91]
    else if pid =? 0x01 then monitor_status self
    else if pid =? 0x03 then bytes_of [0x41; 0x03; 0x02; 0x00]
    else if pid =? 0x04 then
      let* load := int_of_float (engine_load sensors * 255 / 100) in
      bytes_of [0x41; 0x04; load]
    else if pid =? 0x05 then
      let* temp := int_of_float (coolant_temp sensors + 40) in
      bytes_of [0x41; 0x05; temp]
    else if pid =? 0x06 then
      let* trim :=
        int_of_float ((short_term_fuel_trim sensors + 100) * 128 / 100) in
      bytes_of [0x41; 0x06; Z.max 0 (Z.min 255 trim)]
    else if pid =? 0x07 then
      let* trim :=
        int_of_float ((long_term_fuel_trim sensors + 100) * 128 / 100) in
      bytes_of [0x41; 0x07; Z.max 0 (Z.min 255 trim)]
    else if pid =? 0x0B then
      let* pressure := int_of_float (30 + engine_load sensors * 0.7) in
      bytes_of [0x41; 0x0B; pressure]
    else if pid =? 0x0C then
      let* rpm_value := int_of_float (rpm sensors * 4) in
      bytes_of ([0x41; 0x0C] ++ hi_lo rpm_value)
    else if pid =? 0x0D then
      let* speed := int_of_float (vehicle_speed sensors) in
      bytes_of [0x41; 0x0D; speed]
    else if pid =? 0x0E then
      let* advance := int_of_float ((timing_advance sensors + 64) * 2) in
      bytes_of [0x41; 0x0E; Z.max 0 (Z.min 255 advance)]
    else if pid =? 0x0F then
      let* temp := int_of_float (intake_air_temp sensors + 40) in
      bytes_of [0x41; 0x0F; temp]
    else if pid =? 0x10 then
      let* maf_value := int_of_float (maf sensors * 100) in
      bytes_of ([0x41; 0x10] ++ hi_lo maf_value)
    else if pid =? 0x11 then
      let* throttle := int_of_float (throttle_position sensors * 255 / 100) in
      bytes_of [0x41; 0x11; throttle]
    else if pid =? 0x1C then bytes_of [0x41; 0x1C; 0x07]
    else if pid =? 0x1F then
      let* runtime := int_of_float (engine_runtime sensors) in
      bytes_of ([0x41; 0x1F] ++ hi_lo runtime)
    else if pid =? 0x20 then bytes_of [0x41; 0x20; 0xA0; 0x05; 0xB0; 0x11]
    else if pid =? 0x21 then
      let* dist := int_of_float (distance_with_mil sensors) in
      bytes_of ([0x41; 0x21] ++ hi_lo dist)
    else if pid =? 0x23 then
      let* pressure_value := int_of_float (fuel_pressure sensors * 10) in
      bytes_of ([0x41; 0x23] ++ hi_lo pressure_value)
    else if pid =? 0x2F then
      let* fuel := int_of_float (fuel_level sensors * 255 / 100) in
      bytes_of [0x41; 0x2F; fuel]
    else if pid =? 0x30 then
      bytes_of [0x41; 0x30; warmups_since_clear sensors]
    else if pid =? 0x31 then
      let* dist := int_of_float (distance_since_clear sensors) in
      bytes_of ([0x41; 0x31] ++ hi_lo dist)
    else if pid =? 0x33 then
      let* pressure := int_of_float (barometric_pressure sensors) in
      bytes_of [0x41; 0x33; pressure]
    else if pid =? 0x40 then bytes_of [0x41; 0x40; 0x40; 0x00; 0x00; 0x00]
    else if pid =? 0x42 then
      let* voltage := int_of_float (battery_voltage sensors * 1000) in
      bytes_of ([0x41; 0x42] ++ hi_lo voltage)
    else if pid =? 0x5C then
      let* oil_temp := int_of_float (coolant_temp sensors + 10 + 40) in
      bytes_of [0x41; 0x5C; oil_temp]
    else bytes_of [0x7F; 0x01; 0x12].

(* OBDServiceHandler._mode_02_freeze_frame *)
Definition _mode_02_freeze_frame (self : OBDServiceHandler) (request : bytes)
  : result bytes :=
  if len request <? 3 then bytes_of [0x7F; 0x02; 0x12]
  else
    let* pid := index request 1 in
    let* frame_num := index request 2 in
    match get_confirmed_dtcs (dtc_manager self) with
    | [] => bytes_of [0x7F; 0x02; 0x12]
    | dtc :: _ =>
        if frame_num >? 0 then bytes_of [0x7F; 0x02; 0x12]
        else
          match freeze_frame dtc with
          | None => bytes_of [0x7F; 0x02; 0x12]
          | Some ff =>
              if pid =? 0x0C then
                let* rpm_value := int_of_float (ff_rpm ff * 4) in
                bytes_of ([0x42; 0x0C; frame_num] ++ hi_lo rpm_value)
              else if pid =? 0x0D then
                let* speed := int_of_float (ff_speed ff) in
                bytes_of [0x42; 0x0D; frame_num; speed]
              else if pid =? 0x05 then
                let* temp := int_of_float (ff_coolant_temp ff + 40) in
                bytes_of [0x42; 0x05; frame_num; temp]
              else if pid =? 0x04 then
                let* load := int_of_float (ff_engine_load ff * 255 / 100) in
                bytes_of [0x42; 0x04; frame_num; load]
              else bytes_of [0x7F; 0x02; 0x12]
          end
    end.

(* the `response = bytearray([sid, len(l)]); for dtc in l:
   response.extend(dtc.to_bytes())` shape of modes 03, 07 and 0A *)
Definition dtc_list_response (sid : Z) (l : list DiagnosticTroubleCode)
  : result bytes :=
  match l with
  | [] => bytes_of [sid; 0x00]
  | _ =>
      let* hd := bytes_of [sid; len l] in
      fold_left (fun acc dtc => let* response := acc in
                                let* b := to_bytes dtc in Ok (response ++ b))
                l (Ok hd)
  end.

(* OBDServiceHandler._mode_03_read_dtcs *)
Definition _mode_03_read_dtcs (self : OBDServiceHandler) (request : bytes)
  : result bytes :=
  let confirmed_dtcs := get_confirmed_dtcs (dtc_manager self) in
  let permanent_dtcs := get_permanent_dtcs (dtc_manager self) in
  let all_dtcs := confirmed_dtcs ++ permanent_dtcs in
  dtc_list_response 0x43 all_dtcs.

(* OBDServiceHandler._mode_04_clear_dtcs *)
Definition _mode_04_clear_dtcs (self : OBDServiceHandler) (request : bytes)
  : result bytes * OBDServiceHandler :=
  let '(_, m1) := clear_dtcs (dtc_manager self) false in
  let v1 := reset_drive_cycle (vehicle self) in
  let sensors := get_sensor_data v1 in
  let sensors := set_distance_since_clear 0 sensors in
  let sensors := set_distance_with_mil 0 sensors in
  let sensors := set_warmups_since_clear 0 sensors in
  (bytes_of [0x44],
   {| vehicle := with_sensors sensors v1; dtc_manager := m1; vin := vin self;
      calibration_id := calibration_id self; ecu_name := ecu_name self |}).

(* OBDServiceHandler._mode_06_test_results *)
Definition _mode_06_test_results (self : OBDServiceHandler) (request : bytes)
  : result bytes :=
  bytes_of [0x46; 0x01; 0x01; 0x00; 0x0A; 0x00; 0xFF; 0x00; 0x45; 0x00; 0xFA].

(* OBDServiceHandler._mode_07_pending_dtcs *)
Definition _mode_07_pending_dtcs (self : OBDServiceHandler) (request : bytes)
  : result bytes :=
  dtc_list_response 0x47 (get_pending_dtcs (dtc_manager self)).

(* OBDServiceHandler._mode_08_control_systems *)
Definition _mode_08_control_systems (self : OBDServiceHandler) (request : bytes)
  : result bytes :=
  if len request <? 2 then bytes_of [0x7F; 0x08; 0x12]
  else let* tid := index request 1 in bytes_of [0x48; tid].

(* OBDServiceHandler._mode_09_vehicle_info *)
Definition _mode_09_vehicle_info (self : OBDServiceHandler) (request : bytes)
  : result bytes :=
  if len request <? 2 then bytes_of [0x7F; 0x09; 0x12]
  else
    let* pid := index request 1 in
    if pid =? 0x00 then bytes_of [0x49; 0x00; 0x55]
    else if pid =? 0x02 then
      let* e := encode_ascii (vin self) in
      let vin_bytes := ljust 17 (take 17 e) in
      let* hd := bytes_of [0x49; 0x02; 0x01] in Ok (hd ++ vin_bytes)
    else if pid =? 0x04 then
      let* e := encode_ascii (calibration_id self) in
      let cal_id := ljust 16 (take 16 e) in
      let* hd := bytes_of [0x49; 0x04; 0x01] in Ok (hd ++ cal_id)
    else if pid =? 0x06 then
      let* cvn := bytes_of [0x12; 0x34; 0x56; 0x78] in
      let* hd := bytes_of [0x49; 0x06; 0x01] in Ok (hd ++ cvn)
    else if pid =? 0x0A then
      let* e := encode_ascii (ecu_name self) in
      let name := ljust 20 (take 20 e) in
      let* hd := bytes_of [0x49; 0x0A; 0x01] in Ok (hd ++ name)
    else bytes_of [0x7F; 0x09; 0x12].

(* OBDServiceHandler._mode_0A_permanent_dtcs *)
Definition _mode_0A_permanent_dtcs (self : OBDServiceHandler) (request : bytes)
  : result bytes :=
  dtc_list_response 0x4A (get_permanent_dtcs (dtc_manager self)).

(* OBDServiceHandler.process: the response (`None` is Python's None) and the
   handler afterwards *)
Definition process (self : OBDServiceHandler) (request : bytes)
  : result (option bytes) * OBDServiceHandler :=
  let some (r : result bytes) : result (option bytes) :=
    let* b := r in Ok (Some b) in
  if len request <? 2 then (Ok None, self)
  else
    match index request 0 with
    | Raise e => (Raise e, self)
    | Ok mode =>
        if mode =? 0x01 then (some (_mode_01_current_data self request), self)
        else if mode =? 0x02 then (some (_mode_02_freeze_frame self request), self)
        else if mode =? 0x03 then (some (_mode_03_read_dtcs self request), self)
        else if mode =? 0x04 then
          let '(r, self1) := _mode_04_clear_dtcs self request in (some r, self1)
        else if mode =? 0x06 then (some (_mode_06_test_results self request), self)
        else if mode =? 0x07 then (some (_mode_07_pending_dtcs self request), self)
        else if mode =? 0x08 then
          (some (_mode_08_control_systems self request), self)
        else if mode =? 0x09 then (some (_mode_09_vehicle_info self request), self)
        else if mode =? 0x0A then
          (some (_mode_0A_permanent_dtcs self request), self)
        else (some (bytes_of [0x7F; mode; 0x11]), self)
    end.

End OBD.

(* --------------------------------------------------------------------- *)
(*  lib/uds_services.py                                                  *)
(* --------------------------------------------------------------------- *)

Module UDS.
Import Vehicle DTC.

Inductive DiagnosticSession : Type :=
| DEFAULT
| PROGRAMMING
| EXTENDED
| SAFETY_SYSTEM.

Definition DiagnosticSession_value (s : DiagnosticSession) : Z :=
  match s with
  | DEFAULT => 0x01
  | PROGRAMMING => 0x02
  | EXTENDED => 0x03
  | SAFETY_SYSTEM => 0x04
  end.

(* DiagnosticSession(v) *)
Definition DiagnosticSession_of (v : Z) : result DiagnosticSession :=
  if v =? 0x01 then Ok DEFAULT
  else if v =? 0x02 then Ok PROGRAMMING
  else if v =? 0x03 then Ok EXTENDED
  else if v =? 0x04 then Ok SAFETY_SYSTEM
  else Raise ValueError.

Definition DiagnosticSession_eqb (a b : DiagnosticSession) : bool :=
  DiagnosticSession_value a =? DiagnosticSession_value b.

Inductive SecurityLevel : Type :=
| LOCKED
| LEVEL_1
| LEVEL_2.

Definition SecurityLevel_value (s : SecurityLevel) : Z :=
  match s with
  | LOCKED => 0x00
  | LEVEL_1 => 0x01
  | LEVEL_2 => 0x02
  end.

(* SecurityLevel(v) *)
Definition SecurityLevel_of (v : Z) : result SecurityLevel :=
  if v =? 0x00 then Ok LOCKED
  else if v =? 0x01 then Ok LEVEL_1
  else if v =? 0x02 then Ok LEVEL_2
  else Raise ValueError.

Definition SecurityLevel_eqb (a b : SecurityLevel) : bool :=
  SecurityLevel_value a =? SecurityLevel_value b.

(* UDSServiceHandler; `self.vehicle` and `self.config` are never read after
   __init__ and are left out *)
Record UDSServiceHandler : Type := {
  dtc_manager : DTCManager;
  current_session : DiagnosticSession;
  security_level : SecurityLevel;
  session_start_time : Z;
  session_timeout : Z;
  current_seed : option Z;
  security_attempts : Z;
  max_security_attempts : Z;
  io_controls : gmap Z bool;
  active_routines : gmap Z string;
  dids : gmap Z bytes
}.

(* UDSServiceHandler._initialize_dids, given the VIN string of the config *)
Definition _initialize_dids (vin_str : string) : result (gmap Z bytes) :=
  let* e := encode_ascii vin_str in
  let vin := ljust 17 (take 17 e) in
  Ok (<[0xF187 := list_byte_of_string "12345678"]>
      (<[0xF18A := list_byte_of_string "SUPPLIER"]>
      (<[0xF18B := list_byte_of_string "20250101"]>
      (<[0xF18C := list_byte_of_string "SN123456789012"]>
      (<[0xF18E := list_byte_of_string "v2.0.0"]>
      (<[0xF190 := vin]>
      (<[0xF191 := list_byte_of_string "HW1.0"]>
      (<[0xF19E := list_byte_of_string "ENGINE-ECU"]>
      (<[0x0100 := [Byte.x00; Byte.x01]]>
      (<[0x0101 := [Byte.x00; Byte.x02]]> ∅)))))))))).

(* UDSServiceHandler.__init__ with config = {} *)
Definition new_UDSServiceHandler (m : DTCManager) : result UDSServiceHandler :=
  let* d := _initialize_dids "1HGBH41JXMN109186" in
  Ok {| dtc_manager := m;
        current_session := DEFAULT;
        security_level := LOCKED;
        session_start_time := 0;
        session_timeout := 5000;
        current_seed := None;
        security_attempts := 0;
        max_security_attempts := 3;
        io_controls := ∅;
        active_routines := ∅;
        dids := d |}.

Definition set_session (s : DiagnosticSession) (t : Z) (l : SecurityLevel)
    (self : UDSServiceHandler) : UDSServiceHandler :=
  {| dtc_manager := dtc_manager self;
     current_session := s;
     security_level := l;
     session_start_time := t;
     session_timeout := session_timeout self;
     current_seed := current_seed self;
     security_attempts := security_attempts self;
     max_security_attempts := max_security_attempts self;
     io_controls := io_controls self;
     active_routines := active_routines self;
     dids := dids self |}.

Definition set_security (l : SecurityLevel) (seed : option Z) (attempts : Z)
    (self : UDSServiceHandler) : UDSServiceHandler :=
  {| dtc_manager := dtc_manager self;
     current_session := current_session self;
     security_level := l;
     session_start_time := session_start_time self;
     session_timeout := session_timeout self;
     current_seed := seed;
     security_attempts := attempts;
     max_security_attempts := max_security_attempts self;
     io_controls := io_controls self;
     active_routines := active_routines self;
     dids := dids self |}.

Definition set_tables (m : DTCManager) (io : gmap Z bool)
    (routines : gmap Z string) (d : gmap Z bytes) (self : UDSServiceHandler)
  : UDSServiceHandler :=
  {| dtc_manager := m;
     current_session := current_session self;
     security_level := security_level self;
     session_start_time := session_start_time self;
     session_timeout := session_timeout self;
     current_seed := current_seed self;
     security_attempts := security_attempts self;
     max_security_attempts := max_security_attempts self;
     io_controls := io;
     active_routines := routines;
     dids := d |}.

(* a returned `bytes([...])` *)
Definition respond (l : list Z) : result (option bytes) :=
  let* b := bytes_of l in Ok (Some b).

(* UDSServiceHandler._negative_response *)
Definition _negative_response (service nrc : Z) : result (option bytes) :=
  respond [0x7F; service; nrc].

(* request[i] read as an int; the callers have checked the length *)
Definition at_ (request : bytes) (i : nat) : result Z := index request i.

(* UDSServiceHandler._service_10_diagnostic_session *)
Definition _service_10_diagnostic_session (self : UDSServiceHandler)
    (request : bytes) (now : Z) : result (option bytes) * UDSServiceHandler :=
  if len request <? 2 then (_negative_response 0x10 0x13, self)
  else
    match at_ request 1 with
    | Raise e => (Raise e, self)
    | Ok session_type =>
        match DiagnosticSession_of session_type with
        | Raise _ => (_negative_response 0x10 0x12, self)
        | Ok session =>
            let level :=
              if negb (session_type =? DiagnosticSession_value EXTENDED)
              then LOCKED else security_level self in
            (respond [0x50; session_type; 0x00; 0x32; 0x01; 0xF4],
             set_session session now level self)
        end
    end.

(* UDSServiceHandler._service_11_ecu_reset *)
Definition _service_11_ecu_reset (self : UDSServiceHandler) (request : bytes)
  : result (option bytes) :=
  if len request <? 2 then _negative_response 0x11 0x13
  else
    let* reset_type := at_ request 1 in
    if negb ((reset_type =? 0x01) || (reset_type =? 0x02) || (reset_type =? 0x03))
    then _negative_response 0x11 0x12
    else respond [0x51; reset_type].

(* UDSServiceHandler._service_14_clear_dtc *)
Definition _service_14_clear_dtc (self : UDSServiceHandler) (request : bytes)
  : result (option bytes) * UDSServiceHandler :=
  if len request <? 4 then (_negative_response 0x14 0x13, self)
  else
    match (let* r1 := at_ request 1 in let* r2 := at_ request 2 in
           let* r3 := at_ request 3 in
           Ok (Z.lor (Z.lor (Z.shiftl r1 16) (Z.shiftl r2 8)) r3)) with
    | Raise e => (Raise e, self)
    | Ok dtc_group =>
        let self1 :=
          if dtc_group =? 0xFFFFFF then
            set_tables (snd (clear_dtcs (dtc_manager self) false))
                       (io_controls self) (active_routines self) (dids self) self
          else self in
        (respond [0x54], self1)
    end.

(* UDSServiceHandler._service_19_read_dtc_info *)
Definition _service_19_read_dtc_info (self : UDSServiceHandler) (request : bytes)
  : result (option bytes) :=
  if len request <? 2 then _negative_response 0x19 0x13
  else
    let* sub_function := at_ request 1 in
    if sub_function =? 0x01 then
      let dtc_count := get_dtc_count (dtc_manager self) in
      respond [0x59; 0x01; 0xFF; 0x00; Z.land (Z.shiftr dtc_count 8) 0xFF;
               Z.land dtc_count 0xFF]
    else if sub_function =? 0x02 then
      if len request <? 3 then _negative_response 0x19 0x13
      else
        let* status_mask := at_ request 2 in
        let dtcs := get_all_active_dtcs (dtc_manager self) in
        let* hd := bytes_of [0x59; 0x02; status_mask] in
        let* response :=
          fold_left (fun acc dtc => let* response := acc in
                                    let* b := to_bytes dtc in
                                    let* st := bytes_of [0x08] in
                                    Ok (response ++ b ++ st))
                    dtcs (Ok hd) in
        Ok (Some response)
    else if sub_function =? 0x0A then
      let* hd := bytes_of [0x59; 0x0A] in
      let* response :=
        fold_left (fun acc code => let* response := acc in
                                   let* c := str_index code 0 in
                                   let code_type := type_map_get c in
                                   let digits := str_tail code in
                                   let* (byte1, byte2) := pack_digits code_type digits in
                                   let* e := bytes_of [byte1; byte2; 0x00] in
                                   Ok (response ++ e))
                  (take 10 (map fst DTC_DEFINITIONS)) (Ok hd) in
      Ok (Some response)
    else _negative_response 0x19 0x12.

(* UDSServiceHandler._service_22_read_data_by_id *)
Definition _service_22_read_data_by_id (self : UDSServiceHandler) (request : bytes)
  : result (option bytes) :=
  if len request <? 3 then _negative_response 0x22 0x13
  else
    let* r1 := at_ request 1 in
    let* r2 := at_ request 2 in
    let did := Z.lor (Z.shiftl r1 8) r2 in
    match dids self !! did with
    | None => _negative_response 0x22 0x31
    | Some d => let* hd := bytes_of [0x62; r1; r2] in Ok (Some (hd ++ d))
    end.

(* UDSServiceHandler._service_27_security_access; rnd is the entropy the
   seed is drawn from *)
Definition _service_27_security_access (self : UDSServiceHandler)
    (request : bytes) (rnd : Z) : result (option bytes) * UDSServiceHandler :=
  if len request <? 2 then (_negative_response 0x27 0x13, self)
  else
    match at_ request 1 with
    | Raise e => (Raise e, self)
    | Ok sub_function =>
        if sub_function mod 2 =? 1 then
          let level := (sub_function + 1) / 2 in
          if SecurityLevel_value (security_level self) >=? level then
            (respond [0x67; sub_function; 0x00; 0x00; 0x00; 0x00], self)
          else if security_attempts self >=? max_security_attempts self then
            (_negative_response 0x27 0x36, self)
          else
            let seed := randint 0x10000000 0xFFFFFFFF rnd in
            let self1 := set_security (security_level self) (Some seed)
                                      (security_attempts self) self in
            ((let* seed_bytes := int_to_bytes4 seed in
              let* hd := bytes_of [0x67; sub_function] in
              Ok (Some (hd ++ seed_bytes))), self1)
        else if sub_function mod 2 =? 0 then
          if len request <? 6 then (_negative_response 0x27 0x13, self)
          else
            let level := sub_function / 2 in
            let provided_key := int_from_bytes (slice 2 6 request) in
            match current_seed self with
            | None => (_negative_response 0x27 0x24, self)
            | Some seed =>
                let expected_key := Z.lxor seed 0x12345678 in
                if provided_key =? expected_key then
                  match SecurityLevel_of level with
                  | Raise e => (Raise e, self)
                  | Ok l =>
                      (respond [0x67; sub_function], set_security l None 0 self)
                  end
                else
                  (_negative_response 0x27 0x35,
                   set_security (security_level self) None
                                (security_attempts self + 1) self)
            end
        else (_negative_response 0x27 0x12, self)
    end.

(* UDSServiceHandler._service_28_communication_control *)
Definition _service_28_communication_control (self : UDSServiceHandler)
    (request : bytes) : result (option bytes) :=
  if len request <? 3 then _negative_response 0x28 0x13
  else
    let* control_type := at_ request 1 in
    let* communication_type := at_ request 2 in
    respond [0x68; control_type].

(* UDSServiceHandler._service_2E_write_data_by_id *)
Definition _service_2E_write_data_by_id (self : UDSServiceHandler)
    (request : bytes) : result (option bytes) * UDSServiceHandler :=
  if len request <? 4 then (_negative_response 0x2E 0x13, self)
  else if SecurityLevel_eqb (security_level self) LOCKED then
    (_negative_response 0x2E 0x33, self)
  else
    match (let* r1 := at_ request 1 in let* r2 := at_ request 2 in Ok (r1, r2)) with
    | Raise e => (Raise e, self)
    | Ok (r1, r2) =>
        let did := Z.lor (Z.shiftl r1 8) r2 in
        let d := drop 3 request in
        match dids self !! did with
        | None => (_negative_response 0x2E 0x31, self)
        | Some _ =>
            (respond [0x6E; r1; r2],
             set_tables (dtc_manager self) (io_controls self)
                        (active_routines self) (<[did := d]> (dids self)) self)
        end
    end.

(* UDSServiceHandler._service_2F_io_control *)
Definition _service_2F_io_control (self : UDSServiceHandler) (request : bytes)
  : result (option bytes) * UDSServiceHandler :=
  if len request <? 4 then (_negative_response 0x2F 0x13, self)
  else if negb (DiagnosticSession_eqb (current_session self) EXTENDED) then
    (_negative_response 0x2F 0x7F, self)
  else
    match (let* r1 := at_ request 1 in let* r2 := at_ request 2 in
           let* r3 := at_ request 3 in Ok (r1, r2, r3)) with
    | Raise e => (Raise e, self)
    | Ok (r1, r2, control_param) =>
        let did := Z.lor (Z.shiftl r1 8) r2 in
        let io :=
          if control_param =? 0x00 then delete did (io_controls self)
          else
            let control_state :=
              if len request >? 4 then
                match at_ request 4 with Ok v => v | Raise _ => 0 end
              else 0 in
            <[did := negb (control_state =? 0)]> (io_controls self) in
        (respond [0x6F; r1; r2; control_param],
         set_tables (dtc_manager self) io (active_routines self) (dids self) self)
    end.

(* UDSServiceHandler._service_31_routine_control *)
Definition _service_31_routine_control (self : UDSServiceHandler) (request : bytes)
  : result (option bytes) * UDSServiceHandler :=
  if len request <? 4 then (_negative_response 0x31 0x13, self)
  else
    match (let* r1 := at_ request 1 in let* r2 := at_ request 2 in
           let* r3 := at_ request 3 in Ok (r1, r2, r3)) with
    | Raise e => (Raise e, self)
    | Ok (sub_function, r2, r3) =>
        let routine_id := Z.lor (Z.shiftl r2 8) r3 in
        if sub_function =? 0x01 then
          if DiagnosticSession_eqb (current_session self) DEFAULT then
            (_negative_response 0x31 0x7F, self)
          else
            (respond [0x71; 0x01; r2; r3; 0x00],
             set_tables (dtc_manager self) (io_controls self)
                        (<[routine_id := "running"%string]> (active_routines self))
                        (dids self) self)
        else if sub_function =? 0x02 then
          let routines :=
            match active_routines self !! routine_id with
            | Some _ => <[routine_id := "stopped"%string]> (active_routines self)
            | None => active_routines self
            end in
          (respond [0x71; 0x02; r2; r3; 0x00],
           set_tables (dtc_manager self) (io_controls self) routines
                      (dids self) self)
        else if sub_function =? 0x03 then
          let status :=
            match active_routines self !! routine_id with
            | Some _ => 0x00
            | None => 0x01
            end in
          (respond [0x71; 0x03; r2; r3; status], self)
        else (_negative_response 0x31 0x12, self)
    end.

(* UDSServiceHandler._service_34_request_download *)
Definition _service_34_request_download (self : UDSServiceHandler)
    (request : bytes) : result (option bytes) :=
  if negb (DiagnosticSession_eqb (current_session self) PROGRAMMING) then
    _negative_response 0x34 0x7F
  else if SecurityLevel_eqb (security_level self) LOCKED then
    _negative_response 0x34 0x33
  else respond [0x74; 0x20; 0x10; 0x00].

(* UDSServiceHandler._service_36_transfer_data *)
Definition _service_36_transfer_data (self : UDSServiceHandler) (request : bytes)
  : result (option bytes) :=
  if len request <? 2 then _negative_response 0x36 0x13
  else let* block_seq := at_ request 1 in respond [0x76; block_seq].

(* UDSServiceHandler._service_37_transfer_exit *)
Definition _service_37_transfer_exit (self : UDSServiceHandler) (request : bytes)
  : result (option bytes) :=
  respond [0x77].

(* UDSServiceHandler._service_3E_tester_present *)
Definition _service_3E_tester_present (self : UDSServiceHandler) (request : bytes)
    (now : Z) : result (option bytes) * UDSServiceHandler :=
  if len request <? 2 then (_negative_response 0x3E 0x13, self)
  else
    match at_ request 1 with
    | Raise e => (Raise e, self)
    | Ok sub_function =>
        let self1 := set_session (current_session self) now
                                 (security_level self) self in
        if sub_function =? 0x00 then (respond [0x7E; 0x00], self1)
        else (Ok None, self1)
    end.

(* UDSServiceHandler._service_85_control_dtc_setting *)
Definition _service_85_control_dtc_setting (self : UDSServiceHandler)
    (request : bytes) : result (option bytes) :=
  if len request <? 2 then _negative_response 0x85 0x13
  else if negb (DiagnosticSession_eqb (current_session self) EXTENDED) then
    _negative_response 0x85 0x7F
  else let* control_type := at_ request 1 in respond [0xC5; control_type].

(* the session-timeout check at the head of UDSServiceHandler.process *)
Definition check_session_timeout (self : UDSServiceHandler) (service now : Z)
  : UDSServiceHandler :=
  if negb (service =? 0x3E) then
    if negb (DiagnosticSession_eqb (current_session self) DEFAULT) then
      if now - session_start_time self >? session_timeout self then
        set_session DEFAULT (session_start_time self) LOCKED self
      else self
    else self
  else self.

(* UDSServiceHandler.process: now is the reading of time.time() during the
   call, rnd the entropy available to random.randint.  The result is the
   response (`Ok None` is Python's None, `Raise` an exception that leaves
   process) and the handler afterwards. *)
Definition process (self : UDSServiceHandler) (request : bytes) (now rnd : Z)
  : result (option bytes) * UDSServiceHandler :=
  if len request <? 1 then (Ok None, self)
  else
    match at_ request 0 with
    | Raise e => (Raise e, self)
    | Ok service =>
        let self := check_session_timeout self service now in
        if service =? 0x10 then _service_10_diagnostic_session self request now
        else if service =? 0x11 then (_service_11_ecu_reset self request, self)
        else if service =? 0x14 then _service_14_clear_dtc self request
        else if service =? 0x19 then (_service_19_read_dtc_info self request, self)
        else if service =? 0x22 then
          (_service_22_read_data_by_id self request, self)
        else if service =? 0x27 then _service_27_security_access self request rnd
        else if service =? 0x28 then
          (_service_28_communication_control self request, self)
        else if service =? 0x2E then _service_2E_write_data_by_id self request
        else if service =? 0x2F then _service_2F_io_control self request
        else if service =? 0x31 then _service_31_routine_control self request
        else if service =? 0x34 then
          (_service_34_request_download self request, self)
        else if service =? 0x36 then (_service_36_transfer_data self request, self)
        else if service =? 0x37 then (_service_37_transfer_exit self request, self)
        else if service =? 0x3E then _service_3E_tester_present self request now
        else if service =? 0x85 then
          (_service_85_control_dtc_setting self request, self)
        else (_negative_response service 0x11, self)
    end.

End UDS.

(* ===================================================================== *)
(*  Vocabulary of the statements                                         *)
(* ===================================================================== *)

Module ISOTPSpec.
Import ISOTP.

(* every frame on the wire carries 8 data bytes *)
Definition frame8 (m : Message) : Prop := length (data m) = 8%nat.

(* the peer of `sender` while it reassembles `payload`, after the First
   frame and k Consecutive frames *)
Definition peer_at (sender : ISOTPSender) (rc : ISOTPConfig) (at_ : nat -> Z)
    (payload : bytes) (k : nat) : ISOTPReceiver :=
  {| r_tx_id := s_rx_id sender; r_rx_id := s_tx_id sender; r_config := rc;
     receiving := true; expected_length := len payload;
     received_data := take (6 + 7 * k) payload;
     next_seq_num := Z.of_nat (1 + k) mod 16;
     last_frame_time := at_ k |}.

(* the same peer with no reception under way *)
Definition peer_idle (sender : ISOTPSender) (rc : ISOTPConfig) : ISOTPReceiver :=
  new_receiver (s_rx_id sender) (s_tx_id sender) rc.

(* the link between two turns of the Consecutive-frame loop *)
Definition link_inv (sender : ISOTPSender) (rc : ISOTPConfig) (at_ : nat -> Z)
    (payload : bytes) (k : nat) (w : link) : Prop :=
  lk_peer w = peer_at sender rc at_ payload k /\
  lk_at w = at_ /\
  length (lk_wire w) = S k /\
  lk_inbox w = [] /\
  lk_delivered w = [] /\
  Forall frame8 (lk_wire w).

(* the link once the payload has been delivered *)
Definition link_done (sender : ISOTPSender) (rc : ISOTPConfig) (payload : bytes)
    (w : link) : Prop :=
  lk_peer w = peer_idle sender rc /\
  lk_inbox w = [] /\
  lk_delivered w = [payload] /\
  Forall frame8 (lk_wire w).

(* the First-frame PCI bytes of a total length n, and how the receiver
   reads them back *)
Definition ff_pci_check (n : Z) : bool :=
  let hi := Z.lor 0x10 (Z.land (Z.shiftr n 8) 0x0F) in
  let lo := Z.land n 0xFF in
  (0 <=? hi) && (hi <? 256) && (0 <=? lo) && (lo <? 256)
  && (Z.land hi 0xF0 =? 0x10)
  && (Z.lor (Z.shiftl (Z.land hi 0x0F) 8) lo =? n).

(* the Consecutive-frame PCI byte of a sequence number s *)
Definition cf_pci_check (s : Z) : bool :=
  let pci := Z.lor 0x20 (Z.land s 0x0F) in
  (0 <=? pci) && (pci <? 256) && (Z.land pci 0xF0 =? 0x20)
  && (Z.land pci 0x0F =? s).

(* an ECU-side sender and the tester-side receiver paired with it, both
   with ISOTPConfig() *)
Definition ecu_sender : ISOTPSender :=
  {| s_tx_id := 0x7E8; s_rx_id := 0x7E0; s_config := default_config |}.

Definition tester_receiver : ISOTPReceiver :=
  new_receiver 0x7E0 0x7E8 default_config.

(* the same sender configured with padding = False *)
Definition ecu_sender_unpadded : ISOTPSender :=
  {| s_tx_id := 0x7E8; s_rx_id := 0x7E0;
     s_config := {| stmin := 0; block_size := 0; timeout_ms := 1000;
                    padding := false |} |}.

(* the same receiver configured with block_size = 2 *)
Definition tester_receiver_bs2 : ISOTPReceiver :=
  new_receiver 0x7E0 0x7E8
    {| stmin := 0; block_size := 2; timeout_ms := 1000; padding := true |}.

(* the 20 bytes `49 02 01 <VIN>` of the mode 09 PID 02 answer *)
Definition vin_response : bytes :=
  [Byte.x49; Byte.x02; Byte.x01; Byte.x31; Byte.x48; Byte.x47; Byte.x42;
   Byte.x48; Byte.x34; Byte.x31; Byte.x4a; Byte.x58; Byte.x4d; Byte.x4e;
   Byte.x31; Byte.x30; Byte.x39; Byte.x31; Byte.x38; Byte.x36].

End ISOTPSpec.

Module DTCSpec.
Import Vehicle DTC.

(* DiagnosticTroubleCode(code=c, description=descr), created at `now` *)
Definition new_DTC (c descr : string) (now : Z) : DiagnosticTroubleCode :=
  {| code := c; description := descr; state := PENDING; detection_count := 0;
     first_detected := now; last_detected := now; freeze_frame := None;
     mil_illuminate := false; is_emission_related := false |}.

(* the MIL flag agrees with the stored codes *)
Definition mil_ok (m : DTCManager) : Prop :=
  mil_on m = true <->
  exists d, In d (dtcs m) /\ (state d = CONFIRMED \/ state d = PERMANENT)
            /\ mil_illuminate d = true.

(* the calls a client can make on a DTCManager *)
Inductive op : Type :=
| Inject (c : string) (sensors : SensorData) (capture_freeze_frame : bool) (now : Z)
| Clear (clear_permanent : bool)
| DriveCycleComplete (now : Z).

Definition step (m : DTCManager) (o : op) : DTCManager :=
  match o with
  | Inject c s cap now => snd (inject_dtc m c s cap now)
  | Clear b => snd (clear_dtcs m b)
  | DriveCycleComplete now => drive_cycle_complete m now
  end.

(* n injections of the same code, the k-th one at the clock reading now k *)
Fixpoint inject_n (n : nat) (m : DTCManager) (c : string) (s : SensorData)
    (cap : bool) (now : nat -> Z) : DTCManager :=
  match n with
  | O => m
  | S k => snd (inject_dtc (inject_n k m c s cap now) c s cap (now k))
  end.

(* the lifecycle state of the entry stored under c *)
Definition state_of (m : DTCManager) (c : string) : option DTCState :=
  option_map state (lookup_code (dtcs m) c).

(* no two entries share a code: `self.dtcs` is a dict *)
Definition unique_codes (l : list DiagnosticTroubleCode) : Prop :=
  List.NoDup (map code l).

(* the codes with decimal digits and a first digit 0..3 *)
Definition letters : list ascii := ["P"; "C"; "B"; "U"]%char.

Definition decimals : list Z := [0; 1; 2; 3; 4; 5; 6; 7; 8; 9].

Definition digit_char (d : Z) : ascii := ascii_of_N (Z.to_N (48 + d)).

Definition code_of (l : ascii) (d1 d2 d3 d4 : Z) : string :=
  String l (String (digit_char d1) (String (digit_char d2)
    (String (digit_char d3) (String (digit_char d4) EmptyString)))).

(* to_bytes on such a code yields the two bytes of the packing, and the
   decoder gives the code back *)
Definition roundtrip_check (l : ascii) (d1 d2 d3 d4 : Z) : bool :=
  match to_bytes (new_DTC (code_of l d1 d2 d3 d4) "" 0) with
  | Ok [b1; b2] =>
      (b2z b1 =? Z.lor (Z.lor (Z.shiftl (type_map_get l) 6) (Z.shiftl d1 4)) d2)
      && (b2z b2 =? Z.lor (Z.shiftl d3 4) d4)
      && String.eqb (decode_dtc (b2z b1) (b2z b2)) (code_of l d1 d2 d3 d4)
  | _ => false
  end.

End DTCSpec.

Module OBDSpec.
Import Vehicle DTC OBD.

(* all ten readiness monitors read incomplete *)
Definition monitors_incomplete (dc : DriveCycle) : Prop :=
  misfire_monitor_complete dc = false /\
  fuel_system_monitor_complete dc = false /\
  component_monitor_complete dc = false /\
  catalyst_monitor_complete dc = false /\
  heated_catalyst_monitor_complete dc = false /\
  evap_system_monitor_complete dc = false /\
  secondary_air_monitor_complete dc = false /\
  oxygen_sensor_monitor_complete dc = false /\
  oxygen_sensor_heater_complete dc = false /\
  egr_system_monitor_complete dc = false.

(* the part of VehicleSimulator() the handlers see *)
Definition new_vehicle : VehicleSimulator :=
  {| engine_state := OFF; sensors := new_SensorData;
     drive_cycle := new_DriveCycle |}.

End OBDSpec.

Module UDSSpec.
Import DTC UDS.

(* the request byte of a session *)
Definition session_byte (s : DiagnosticSession) : byte :=
  match s with
  | DEFAULT => Byte.x01
  | PROGRAMMING => Byte.x02
  | EXTENDED => Byte.x03
  | SAFETY_SYSTEM => Byte.x04
  end.

(* the requests that restart the session timer: session control with a
   session byte 01..04, and Tester Present of two bytes or more *)
Definition refreshes (request : bytes) : bool :=
  match request with
  | sid :: b :: _ =>
      ((b2z sid =? 0x10) && (1 <=? b2z b) && (b2z b <=? 4))
      || (b2z sid =? 0x3E)
  | _ => false
  end.

(* the session timeout has run out at the clock reading now *)
Definition expired (self : UDSServiceHandler) (now : Z) : bool :=
  negb (DiagnosticSession_eqb (current_session self) DEFAULT)
  && (now - session_start_time self >? session_timeout self).

(* the handler once the timeout has struck *)
Definition relocked (self : UDSServiceHandler) : UDSServiceHandler :=
  set_session DEFAULT (session_start_time self) LOCKED self.

(* the attempts are used up and no seed is outstanding, as after the last
   wrong key *)
Definition locked_out (self : UDSServiceHandler) : Prop :=
  security_attempts self >= max_security_attempts self
  /\ current_seed self = None.

(* a sequence of calls of process, each with its request, clock reading and
   entropy *)
Definition run (self : UDSServiceHandler) (calls : list (bytes * Z * Z))
  : UDSServiceHandler :=
  fold_left (fun h c => match c with
                        | (request, now, rnd) => snd (process h request now rnd)
                        end) calls self.

(* a handler fresh from __init__, with an empty identifier table *)
Definition blank_handler : UDSServiceHandler :=
  {| dtc_manager := new_DTCManager;
     current_session := DEFAULT;
     security_level := LOCKED;
     session_start_time := 0;
     session_timeout := 5000;
     current_seed := None;
     security_attempts := 0;
     max_security_attempts := 3;
     io_controls := ∅;
     active_routines := ∅;
     dids := ∅ |}.

End UDSSpec.

(* ===================================================================== *)
(*  Further code and vocabulary                                          *)
(* ===================================================================== *)

Module ISOTPTape.
Import ISOTP.

(* A bus seen from one end only: `tp_inbox` is what `bus.recv` will return,
   poll by poll (`None` is a poll of 0.1 s in which nothing arrived),
   `tp_sent` what has been sent, `tp_now` the clock.  A poll that returns
   nothing takes 100 ms; `time.sleep` takes what it is asked for. *)
Record tape : Type := {
  tp_now : Z;
  tp_inbox : list (option Message);
  tp_sent : list Message
}.

Definition tape_recv (w : tape) : option Message * tape :=
  match tp_inbox w with
  | [] => (None, {| tp_now := tp_now w + 100; tp_inbox := []; tp_sent := tp_sent w |})
  | None :: q =>
      (None, {| tp_now := tp_now w + 100; tp_inbox := q; tp_sent := tp_sent w |})
  | Some m :: q =>
      (Some m, {| tp_now := tp_now w; tp_inbox := q; tp_sent := tp_sent w |})
  end.

#[export] Instance tape_Env : Env tape := {
  bus_send m w :=
    (Ok tt, {| tp_now := tp_now w; tp_inbox := tp_inbox w;
               tp_sent := tp_sent w ++ [m] |});
  bus_recv := tape_recv;
  time_time w := (tp_now w, w);
  time_sleep d w :=
    {| tp_now := tp_now w + d; tp_inbox := tp_inbox w; tp_sent := tp_sent w |}
}.

(* the First frame of a payload of 8..4095 bytes, as data bytes *)
Definition ff_data (payload : bytes) : result bytes :=
  create_first_frame (len payload) (take 6 payload) true.

(* the k-th Consecutive frame (k = 0, 1, ...) of a payload, as data bytes *)
Definition cf_data (payload : bytes) (k : nat) : result bytes :=
  create_consecutive_frame (Z.of_nat (1 + k) mod 16)
    (take 7 (drop (6 + 7 * k) payload)) true.

(* the number of Consecutive frames of a payload of n bytes *)
Definition cf_count (n : nat) : nat := (n - 6 + 6) / 7.

End ISOTPTape.

(* --------------------------------------------------------------------- *)
(*  Vocabulary of the lifecycle theorems                                 *)
(* --------------------------------------------------------------------- *)

Module DTCLife.
Import Vehicle DTC DTCSpec.

(* a manager a client can have in hand: DTCManager() after some calls *)
Definition reachable (m : DTCManager) : Prop :=
  exists ops, m = fold_left step ops new_DTCManager.

(* what every stored entry looks like: it is a cataloged code carrying the
   catalog's description and flags, it has been detected at least once, and
   its state fits its detection count and its emission flag *)
Definition entry_ok (d : DiagnosticTroubleCode) : Prop :=
  definition_of (code d)
  = Some (description d, mil_illuminate d, is_emission_related d)
  /\ 1 <= detection_count d
  /\ (state d = PENDING -> detection_count d = 1)
  /\ (state d = CONFIRMED ->
      is_emission_related d = false /\ 2 <= detection_count d)
  /\ (state d = PERMANENT ->
      is_emission_related d = true /\ 2 <= detection_count d).

(* every emission-related entry of the catalog lights the MIL *)
Definition emission_lights_mil (defs : list (string * (string * bool * bool)))
  : bool :=
  forallb (fun kv => match kv with
                     | (_, (_, mil, emis)) => implb emis mil
                     end) defs.

(* a manager holding the first thirteen codes of the catalog, injected one
   after the other *)
Definition busy_manager : DTCManager :=
  fold_left step
    (imap (fun i c => Inject c new_SensorData true (Z.of_nat i))
          (take 13 (map fst DTC_DEFINITIONS)))
    new_DTCManager.

(* to_bytes gives two bytes for the code c, and the decoder of the test
   client reads c back from them *)
Definition encodes_ok (c : string) : bool :=
  match to_bytes (new_DTC c "" 0) with
  | Ok [b1; b2] => String.eqb (decode_dtc (b2z b1) (b2z b2)) c
  | _ => false
  end.

(* the healing test of drive_cycle_complete *)
Definition healed (m : DTCManager) (now : Z) (d : DiagnosticTroubleCode) : bool :=
  DTCState_eqb (state d) PENDING
  && (now - last_detected d >? healing_drive_cycles m * 600 * 1000).

End DTCLife.

Module UDSShape.
Import UDS.

(* the two shapes of a UDS answer to service sid: the negative response
   7F sid nrc, or a positive response that starts with sid + 0x40 *)
Definition well_shaped (sid : Z) (resp : bytes) : Prop :=
  (exists s n, resp = [Byte.x7f; s; n] /\ b2z s = sid)
  \/ (exists p tail, resp = p :: tail /\ b2z p = sid + 0x40).

(* no session timeout is due at the clock reading now *)
Definition session_alive (self : UDSServiceHandler) (now : Z) : Prop :=
  current_session self = DEFAULT
  \/ now - session_start_time self <= session_timeout self.

End UDSShape.

Module OBDRange.
Import Vehicle.

(* VehicleSimulator() with two sensors at given readings: the mass air flow
   (g/s) and the engine runtime (s) *)
Definition vehicle_reading (maf_ runtime : float) : VehicleSimulator :=
  {| engine_state := RUNNING;
     sensors :=
       {| rpm := 0; engine_load := 0; coolant_temp := 20;
          intake_air_temp := 25; maf := maf_; timing_advance := 0;
          throttle_position := 0; fuel_level := 75; fuel_pressure := 380;
          fuel_rate := 0; vehicle_speed := 0; distance_traveled := 0;
          distance_with_mil := 0; distance_since_clear := 0;
          battery_voltage := 12.6; o2_voltage := 0.45;
          short_term_fuel_trim := 0; long_term_fuel_trim := 0;
          catalyst_temp := 400; evap_vapor_pressure := 0;
          barometric_pressure := 101.3; engine_runtime := runtime;
          warmups_since_clear := 0; mil_status := false |};
     drive_cycle := new_DriveCycle |}.

End OBDRange.

(* --------------------------------------------------------------------- *)
(*  mock_ecu_v2.py                                                       *)
(* --------------------------------------------------------------------- *)

Module ECU.
Import ISOTP Vehicle DTC.

(* MockECU.  `isotp` is kept as its sender and its receiver.  Both service
   handlers were given the one DTCManager object `self.dtc_manager`: what
   one of them writes to it the other reads.  Each handler record carries
   the manager in its own field, and `_process_service` copies it across
   after the call that may have written it. *)
Record MockECU : Type := {
  isotp_sender : ISOTPSender;
  isotp_receiver : ISOTPReceiver;
  obd_handler : OBD.OBDServiceHandler;
  uds_handler : UDS.UDSServiceHandler
}.

(* MockECU.__init__ with the default configuration *)
Definition new_MockECU (request_id response_id : Z) : result MockECU :=
  let m := new_DTCManager in
  let* u := UDS.new_UDSServiceHandler m in
  Ok {| isotp_sender := {| s_tx_id := response_id; s_rx_id := request_id;
                           s_config := default_config |};
        isotp_receiver := new_receiver response_id request_id default_config;
        obd_handler := OBD.new_OBDServiceHandler OBDSpec.new_vehicle m;
        uds_handler := u |}.

(* the manager as the OBD handler sees it after a UDS call *)
Definition obd_sees (m : DTCManager) (h : OBD.OBDServiceHandler)
  : OBD.OBDServiceHandler :=
  {| OBD.vehicle := OBD.vehicle h; OBD.dtc_manager := m; OBD.vin := OBD.vin h;
     OBD.calibration_id := OBD.calibration_id h;
     OBD.ecu_name := OBD.ecu_name h |}.

(* the manager as the UDS handler sees it after an OBD call *)
Definition uds_sees (m : DTCManager) (u : UDS.UDSServiceHandler)
  : UDS.UDSServiceHandler :=
  UDS.set_tables m (UDS.io_controls u) (UDS.active_routines u) (UDS.dids u) u.

(* MockECU._process_service; now and rnd are the clock reading and the
   entropy the UDS handler uses during the call *)
Definition _process_service (self : MockECU) (payload : bytes) (now rnd : Z)
  : result (option bytes) * MockECU :=
  if len payload <? 1 then (Ok None, self)
  else
    match index payload 0 with
    | Raise e => (Raise e, self)
    | Ok service =>
        if (0x01 <=? service) && (service <=? 0x0A) then
          let '(r, h) := OBD.process (obd_handler self) payload in
          (r, {| isotp_sender := isotp_sender self;
                 isotp_receiver := isotp_receiver self;
                 obd_handler := h;
                 uds_handler := uds_sees (OBD.dtc_manager h) (uds_handler self) |})
        else if service >=? 0x10 then
          let '(r, u) := UDS.process (uds_handler self) payload now rnd in
          (r, {| isotp_sender := isotp_sender self;
                 isotp_receiver := isotp_receiver self;
                 obd_handler := obd_sees (UDS.dtc_manager u) (obd_handler self);
                 uds_handler := u |})
        else
          (let* b := bytes_of [0x7F; service; 0x11] in Ok (Some b), self)
    end.

Section Handle.
Context {W : Type} `{Env W}.

(* MockECU._send_response: the outcome of send is only logged *)
Definition _send_response (fuel : nat) (self : MockECU) (response_data : bytes)
    (w : W) : option W :=
  match send fuel (isotp_sender self) response_data w with
  | None => None
  | Some (_, w1) => Some w1
  end.

(* MockECU._handle_request: an exception of the handlers is caught and
   logged, and `if response:` skips None and the empty answer *)
Definition _handle_request (fuel : nat) (self : MockECU) (msg : Message)
    (now rnd : Z) (w : W) : option (MockECU * W) :=
  let '(payload, rcv, w1) := receive_frame (isotp_receiver self) msg w in
  let self1 := {| isotp_sender := isotp_sender self; isotp_receiver := rcv;
                  obd_handler := obd_handler self;
                  uds_handler := uds_handler self |} in
  match payload with
  | None => Some (self1, w1)
  | Some p =>
      let '(r, self2) := _process_service self1 p now rnd in
      match r with
      | Ok (Some response) =>
          if len response =? 0 then Some (self2, w1)
          else
            match _send_response fuel self2 response w1 with
            | None => None
            | Some w2 => Some (self2, w2)
            end
      | Ok None => Some (self2, w1)
      | Raise _ => Some (self2, w1)
      end
  end.

End Handle.

(* the two handlers hold the same manager *)
Definition shared (self : MockECU) : Prop :=
  OBD.dtc_manager (obd_handler self) = UDS.dtc_manager (uds_handler self).

End ECU.


(* ===================================================================== *)
(*  Facts about bytes and ints                                           *)
(* ===================================================================== *)

Module PyFacts.

Lemma b2z_range (b : byte) : 0 <= b2z b < 256.
Proof.
  unfold b2z. pose proof (Byte.to_N_bounded b) as Hb. lia.
Qed.

Lemma z2b_ok (i : Z) : 0 <= i < 256 -> exists b, z2b i = Ok b /\ b2z b = i.
Proof.
  intros Hi. unfold z2b.
  destruct (Z.ltb_spec i 0) as [?|_]; [lia|].
  destruct (Byte.of_N (Z.to_N i)) as [b|] eqn:E.
  - exists b. split; [reflexivity|].
    unfold b2z. apply Byte.to_of_N in E. rewrite E. lia.
  - apply Byte.of_N_None_iff in E. lia.
Qed.

Lemma z2b_b2z (b : byte) : z2b (b2z b) = Ok b.
Proof.
  unfold z2b, b2z.
  destruct (Z.ltb_spec (Z.of_N (Byte.to_N b)) 0) as [?|_]; [lia|].
  rewrite N2Z.id, Byte.of_to_N. reflexivity.
Qed.

Lemma bytes_of_b2z (l : bytes) : bytes_of (map b2z l) = Ok l.
Proof.
  induction l as [|b l IH]; cbn; [reflexivity|].
  rewrite z2b_b2z. cbn. rewrite IH. reflexivity.
Qed.

Lemma len_ge {A} (l : list A) (n : Z) (k : nat) :
  (k <= length l)%nat -> n <= Z.of_nat k -> (len l <? n) = false.
Proof. intros. apply Z.ltb_ge. unfold len. lia. Qed.

Lemma land_255_range x : 0 <= Z.land x 0xFF < 256.
Proof.
  change 0xFF with (Z.ones 8). rewrite Z.land_ones by lia.
  apply Z.mod_pos_bound. lia.
Qed.

End PyFacts.

(* ===================================================================== *)
(*  ISO-TP                                                               *)
(* ===================================================================== *)

Module ISOTPProofs.
Import PyFacts ISOTP ISOTPSpec.
Import Byte.



Lemma ff_pci_all : forallb ff_pci_check (map Z.of_nat (seq 0 4096)) = true.
Proof. vm_compute. reflexivity. Qed.

Lemma ff_pci n : 0 <= n <= 4095 -> ff_pci_check n = true.
Proof.
  intros Hn. pose proof ff_pci_all as H. rewrite forallb_forall in H.
  apply H. apply in_map_iff. exists (Z.to_nat n). split; [lia|].
  apply in_seq. lia.
Qed.

Lemma cf_pci s : 0 <= s < 16 -> cf_pci_check s = true.
Proof.
  intros Hs.
  assert (H : forallb cf_pci_check (map Z.of_nat (seq 0 16)) = true)
    by (vm_compute; reflexivity).
  rewrite forallb_forall in H. apply H. apply in_map_iff.
  exists (Z.to_nat s). split; [lia|]. apply in_seq. lia.
Qed.

Ltac unpack_check H :=
  repeat (apply andb_true_iff in H as [H ?]);
  repeat match goal with
         | H' : (_ <=? _) = true |- _ => apply Z.leb_le in H'
         | H' : (_ <? _) = true |- _ => apply Z.ltb_lt in H'
         | H' : (_ =? _) = true |- _ => apply Z.eqb_eq in H'
         end.

Lemma pad_true_app (frame : bytes) :
  (length frame <= 8)%nat -> pad true frame = frame ++ zeros (8 - length frame).
Proof.
  intros H. unfold pad, len. cbn [andb].
  destruct (Z.ltb_spec (Z.of_nat (length frame)) 8).
  - f_equal. f_equal. lia.
  - replace (8 - length frame)%nat with 0%nat by lia. cbn.
    rewrite app_nil_r. reflexivity.
Qed.

Lemma create_first_frame_ok (payload : bytes) :
  (8 <= length payload <= 4095)%nat ->
  exists hi lo,
    create_first_frame (len payload) (take 6 payload) true
    = Ok (hi :: lo :: take 6 payload)
    /\ Z.land (b2z hi) 0xF0 = 0x10
    /\ Z.lor (Z.shiftl (Z.land (b2z hi) 0x0F) 8) (b2z lo) = len payload.
Proof.
  intros Hn. unfold create_first_frame.
  destruct (Z.gtb_spec (len payload) 4095) as [H|_]; [unfold len in H; lia|].
  pose proof (ff_pci (len payload)) as Hc. unfold len in Hc at 1 2.
  specialize (Hc ltac:(lia)). unfold ff_pci_check in Hc. cbv zeta in Hc.
  unpack_check Hc.
  destruct (z2b_ok (Z.lor 16 (Z.land (Z.shiftr (len payload) 8) 15)))
    as [hi [Ehi Bhi]]; [lia|].
  destruct (z2b_ok (Z.land (len payload) 255)) as [lo [Elo Blo]]; [lia|].
  exists hi, lo. cbn [bytes_of]. rewrite Ehi, Elo. cbn [rbind].
  rewrite take_idemp. split; [|rewrite Bhi, Blo; auto].
  f_equal. unfold pad, len. cbn [andb length app].
  rewrite length_take_le by lia.
  reflexivity.
Qed.

Lemma create_consecutive_frame_ok (s : Z) (chunk : bytes) :
  0 <= s < 16 -> (length chunk <= 7)%nat ->
  exists pci,
    create_consecutive_frame s chunk true
    = Ok (pci :: chunk ++ zeros (7 - length chunk))
    /\ Z.land (b2z pci) 0xF0 = 0x20
    /\ Z.land (b2z pci) 0x0F = s.
Proof.
  intros Hs Hl. unfold create_consecutive_frame.
  pose proof (cf_pci s Hs) as Hc. unfold cf_pci_check in Hc. cbv zeta in Hc.
  unpack_check Hc.
  destruct (z2b_ok (Z.lor 32 (Z.land s 15))) as [pci [Epci Bpci]]; [lia|].
  exists pci. cbn [bytes_of]. rewrite Epci. cbn [rbind].
  rewrite take_ge by lia. split; [|rewrite Bpci; auto].
  f_equal. rewrite pad_true_app by (cbn; lia). reflexivity.
Qed.

Lemma create_flow_control_ok (bs st : Z) (p : bool) :
  Z.land bs 0xFF = 0 ->
  exists s tail_,
    create_flow_control CONTINUE_TO_SEND bs st p = Ok (x30 :: x00 :: s :: tail_).
Proof.
  intros Hbs. unfold create_flow_control. cbn [FlowStatus_value Z.lor bytes_of].
  rewrite Hbs.
  destruct (z2b_ok (Z.land st 255) (land_255_range st)) as [s [Es _]].
  change (z2b 48) with (@Ok byte x30). change (z2b 0) with (@Ok byte x00).
  rewrite Es. cbn [rbind].
  destruct p; cbn; eauto.
Qed.

Lemma parse_cf pci rest :
  Z.land (b2z pci) 0xF0 = 0x20 ->
  parse (pci :: rest) = Ok (CONSECUTIVE_FRAME, rest).
Proof.
  intros H. unfold parse.
  replace (len (pci :: rest) =? 0) with false
    by (symmetry; apply Z.eqb_neq; unfold len; cbn [length]; lia).
  cbn [index lookup list_lookup rbind]. cbv zeta. rewrite H. reflexivity.
Qed.

Lemma parse_ff hi lo rest :
  Z.land (b2z hi) 0xF0 = 0x10 ->
  parse (hi :: lo :: rest) = Ok (FIRST_FRAME, rest).
Proof.
  intros H. unfold parse.
  replace (len (hi :: lo :: rest) =? 0) with false
    by (symmetry; apply Z.eqb_neq; unfold len; cbn [length]; lia).
  cbn [index lookup list_lookup rbind]. cbv zeta. rewrite H. reflexivity.
Qed.

Lemma receive_cf (sender : ISOTPSender) (rc : ISOTPConfig) (at_ : nat -> Z)
    (payload : bytes) (k : nat) (pci : byte) :
  (forall i, at_ (S i) - at_ i < timeout_ms rc) ->
  (6 + 7 * k < length payload)%nat ->
  Z.land (b2z pci) 0xF0 = 0x20 ->
  Z.land (b2z pci) 0x0F = Z.of_nat (1 + k) mod 16 ->
  let chunk := take 7 (drop (6 + 7 * k) payload) in
  let e := {| pe_now := at_ (S k); pe_sent := [] |} in
  receive_frame (peer_at sender rc at_ payload k)
    {| arbitration_id := s_tx_id sender;
       data := pci :: chunk ++ zeros (7 - length chunk);
       is_extended_id := false |} e
  = (if (length payload <=? 6 + 7 * S k)%nat
     then (Some payload, peer_idle sender rc)
     else (None, peer_at sender rc at_ payload (S k)), e).
Proof.
  intros Hgap Hk Hty Hseq chunk e. unfold receive_frame.
  cbn [arbitration_id data r_rx_id peer_at]. rewrite Z.eqb_refl. cbn [negb].
  rewrite parse_cf by exact Hty.
  unfold _handle_consecutive_frame.
  cbn [receiving peer_at negb time_time peer_Env pe_now e last_frame_time r_config].
  destruct (Z.gtb_spec (at_ (S k) - at_ k) (timeout_ms rc)) as [Hgt|_];
    [specialize (Hgap k); lia|].
  cbn [index lookup list_lookup]. rewrite Hseq.
  cbn [next_seq_num]. rewrite Z.eqb_refl. cbn [negb].
  cbn [expected_length received_data r_tx_id r_rx_id r_config receiving
       next_seq_num peer_at].
  assert (Hlen_recv : len (take (6 + 7 * k) payload) = Z.of_nat (6 + 7 * k)).
  { unfold len. rewrite length_take_le; [reflexivity|]. lia. }
  rewrite Hlen_recv.
  assert (Hchunk : length chunk
                   = Z.to_nat (Z.min 7 (len payload - Z.of_nat (6 + 7 * k)))).
  { unfold chunk. rewrite length_take, length_drop. unfold len. lia. }
  assert (Hupto : upto (Z.min 7 (len payload - Z.of_nat (6 + 7 * k)))
                       (chunk ++ zeros (7 - length chunk)) = chunk).
  { unfold upto.
    destruct (Z.ltb_spec (Z.min 7 (len payload - Z.of_nat (6 + 7 * k))) 0)
      as [Hneg|_].
    - unfold len in Hneg. lia.
    - apply take_app_length'. symmetry. exact Hchunk. }
  rewrite Hupto.
  assert (Hrecv : take (6 + 7 * k) payload ++ chunk = take (6 + 7 * S k) payload).
  { unfold chunk. rewrite take_take_drop. f_equal. lia. }
  rewrite Hrecv.
  assert (Hlen' : len (take (6 + 7 * S k) payload)
                  = Z.of_nat (Nat.min (6 + 7 * S k) (length payload))).
  { unfold len. rewrite length_take. reflexivity. }
  rewrite Hlen'.
  destruct (Nat.leb_spec (length payload) (6 + 7 * S k)) as [Hdone|Hmore].
  - destruct (Z.geb_spec (Z.of_nat (Nat.min (6 + 7 * S k) (length payload)))
                         (len payload)) as [_|Hlt];
      [|unfold len in Hlt; lia].
    unfold upto.
    destruct (Z.ltb_spec (len payload) 0) as [Hneg|_]; [unfold len in Hneg; lia|].
    unfold len. rewrite Nat2Z.id. rewrite take_take.
    rewrite take_ge by lia.
    reflexivity.
  - destruct (Z.geb_spec (Z.of_nat (Nat.min (6 + 7 * S k) (length payload)))
                         (len payload)) as [Hge|_];
      [unfold len in Hge; lia|].
    unfold peer_at. do 2 f_equal. f_equal.
    rewrite Zplus_mod_idemp_l. f_equal. lia.
Qed.

Lemma cf_loop_eq (sender : ISOTPSender) (fuel : nat) (remaining : bytes)
    (seq_num offset : Z) (w : link) :
  cf_loop fuel sender remaining seq_num offset w =
  if offset <? len remaining then
    match fuel with
    | O => None
    | S fuel' =>
        let chunk := slice offset (offset + 7) remaining in
        match create_consecutive_frame seq_num chunk (padding (s_config sender)) with
        | Raise _ => Some (false, w)
        | Ok cf_data =>
            let msg := {| arbitration_id := s_tx_id sender; data := cf_data;
                          is_extended_id := false |} in
            match bus_send msg w with
            | (Raise _, w1) => Some (false, w1)
            | (Ok _, w1) =>
                let seq_num' := (seq_num + 1) mod 16 in
                let offset' := offset + 7 in
                let w2 := if stmin (s_config sender) >? 0
                          then time_sleep (stmin (s_config sender)) w1 else w1 in
                cf_loop fuel' sender remaining seq_num' offset' w2
            end
        end
    end
  else Some (true, w).
Proof. destruct fuel; reflexivity. Qed.

Lemma slice_chunk (payload : bytes) (k : nat) :
  slice (Z.of_nat (7 * k)) (Z.of_nat (7 * k) + 7) (drop 6 payload)
  = take 7 (drop (6 + 7 * k) payload).
Proof.
  unfold slice. rewrite drop_drop. f_equal; [lia|]. f_equal. lia.
Qed.

(* The Consecutive-frame loop, by induction on the fuel: with the peer k
   frames into the reassembly, the loop ends, the peer has delivered the
   payload and is idle again. *)
Lemma cf_loop_correct (sender : ISOTPSender) (rc : ISOTPConfig) (at_ : nat -> Z)
    (payload : bytes) (fuel : nat) :
  padding (s_config sender) = true ->
  (forall i, at_ (S i) - at_ i < timeout_ms rc) ->
  forall (k : nat) (w : link),
    link_inv sender rc at_ payload k w ->
    (6 + 7 * k < length payload)%nat ->
    (length payload - 6 - 7 * k <= fuel)%nat ->
    exists w', cf_loop fuel sender (drop 6 payload) (Z.of_nat (1 + k) mod 16)
                 (Z.of_nat (7 * k)) w = Some (true, w')
               /\ link_done sender rc payload w'.
Proof.
  intros Hpad Hgap.
  induction fuel as [|fuel IH]; intros k w Hinv Hk Hfuel; [lia|].
  destruct Hinv as (Hpeer & Hat & Hwire & Hin & Hdel & H8).
  rewrite cf_loop_eq.
  assert (Hlt : (Z.of_nat (7 * k) <? len (drop 6 payload)) = true).
  { apply Z.ltb_lt. unfold len. rewrite length_drop. lia. }
  rewrite Hlt. cbv zeta. rewrite slice_chunk. rewrite Hpad.
  set (chunk := take 7 (drop (6 + 7 * k) payload)).
  assert (Hcl : (length chunk <= 7)%nat).
  { unfold chunk. rewrite length_take. lia. }
  destruct (create_consecutive_frame_ok (Z.of_nat (1 + k) mod 16) chunk)
    as (pci & Ecf & Hty & Hseq); [apply Z.mod_pos_bound; lia|exact Hcl|].
  rewrite Ecf.
  cbn [bus_send link_Env]. unfold link_send.
  rewrite Hpeer, Hat, Hwire.
  pose proof (receive_cf sender rc at_ payload k pci Hgap Hk Hty Hseq) as Hrx.
  cbv zeta in Hrx. fold chunk in Hrx. rewrite Hrx. clear Hrx.
  assert (Hsleep : forall w1 : link,
             (if stmin (s_config sender) >? 0
              then time_sleep (stmin (s_config sender)) w1 else w1) = w1).
  { intros w1. destruct (_ >? _); reflexivity. }
  assert (H8' : Forall frame8
            (lk_wire w ++ [{| arbitration_id := s_tx_id sender;
                              data := pci :: chunk ++ zeros (7 - length chunk);
                              is_extended_id := false |}])).
  { apply Forall_app. split; [exact H8|]. constructor; [|constructor].
    unfold frame8. cbn [data length]. rewrite length_app. unfold zeros.
    rewrite repeat_length. lia. }
  destruct (Nat.leb_spec (length payload) (6 + 7 * S k)) as [Hdone|Hmore].
  - rewrite Hsleep. rewrite cf_loop_eq.
    assert (Hge : (Z.of_nat (7 * k) + 7 <? len (drop 6 payload)) = false).
    { apply Z.ltb_ge. unfold len. rewrite length_drop. lia. }
    rewrite Hge. eexists. split; [reflexivity|].
    unfold link_done. cbn [lk_peer lk_inbox lk_delivered lk_wire pe_sent].
    rewrite Hin, Hdel. auto.
  - rewrite Hsleep.
    replace ((Z.of_nat (1 + k) mod 16 + 1) mod 16) with (Z.of_nat (1 + S k) mod 16)
      by (rewrite Zplus_mod_idemp_l; f_equal; lia).
    replace (Z.of_nat (7 * k) + 7) with (Z.of_nat (7 * S k)) by lia.
    apply IH; [|lia|lia].
    unfold link_inv. cbn [lk_peer lk_at lk_inbox lk_delivered lk_wire pe_sent].
    rewrite Hin, Hdel, length_app, Hwire. cbn [length]. repeat split; auto. lia.
Qed.

Lemma reset_is_idle sender peer :
  r_rx_id peer = s_tx_id sender -> r_tx_id peer = s_rx_id sender ->
  _reset_reception peer = peer_idle sender (r_config peer).
Proof.
  intros H1 H2. unfold _reset_reception, peer_idle, new_receiver.
  rewrite H1, H2. reflexivity.
Qed.

(* a payload of at most 7 bytes: one Single frame, delivered at once *)
Lemma send_single (sender : ISOTPSender) (peer : ISOTPReceiver) (at_ : nat -> Z)
    (payload : bytes) (fuel : nat) :
  padding (s_config sender) = true ->
  r_rx_id peer = s_tx_id sender ->
  (length payload <= 7)%nat ->
  exists w, send fuel sender payload (new_link peer at_) = Some (true, w)
            /\ lk_peer w = _reset_reception peer
            /\ lk_inbox w = []
            /\ lk_delivered w = [payload]
            /\ Forall frame8 (lk_wire w).
Proof.
  intros Hpad Hrx Hlen.
  do 8 (try destruct payload as [|? payload]); cbn [length] in Hlen; try lia;
    (unfold send, _send_single_frame, create_single_frame;
     rewrite Hpad; unfold len, pad, zeros; simpl;
     unfold link_send;
     cbn [new_link lk_peer lk_wire lk_at length lk_inbox lk_delivered];
     unfold receive_frame; cbn [arbitration_id];
     rewrite Hrx, Z.eqb_refl; simpl;
     eexists; split; [reflexivity|]; simpl;
     repeat split; auto; repeat constructor).
Qed.

(* the peer's answer to the First frame *)
Lemma receive_ff (sender : ISOTPSender) (peer : ISOTPReceiver) (at_ : nat -> Z)
    (payload : bytes) hi lo :
  r_rx_id peer = s_tx_id sender ->
  r_tx_id peer = s_rx_id sender ->
  Z.land (block_size (r_config peer)) 0xFF = 0 ->
  Z.land (b2z hi) 0xF0 = 0x10 ->
  Z.lor (Z.shiftl (Z.land (b2z hi) 0x0F) 8) (b2z lo) = len payload ->
  exists fc,
    receive_frame peer
      {| arbitration_id := s_tx_id sender; data := hi :: lo :: take 6 payload;
         is_extended_id := false |}
      {| pe_now := at_ 0%nat; pe_sent := [] |}
    = (None, peer_at sender (r_config peer) at_ payload 0,
       {| pe_now := at_ 0%nat; pe_sent := [fc] |})
    /\ arbitration_id fc = s_rx_id sender
    /\ exists s tl, data fc = x30 :: x00 :: s :: tl.
Proof.
  intros Hrx Htx Hbs Hty Hlen'.
  destruct (create_flow_control_ok (block_size (r_config peer))
              (stmin (r_config peer)) (padding (r_config peer)) Hbs)
    as (s & tl & Efc).
  eexists. split; [|split].
  - unfold receive_frame. cbn [arbitration_id data]. rewrite Hrx, Z.eqb_refl.
    cbn [negb]. rewrite parse_ff by exact Hty.
    unfold _handle_first_frame. cbn [index lookup list_lookup rbind].
    cbn [time_time peer_Env pe_now]. rewrite Hlen'.
    unfold _send_flow_control. cbn [r_config r_tx_id]. rewrite Efc.
    cbn [bus_send peer_Env snd pe_now pe_sent app].
    rewrite take_idemp. unfold peer_at. rewrite Htx, Hrx. reflexivity.
  - reflexivity.
  - cbn. eauto.
Qed.

(* a payload of 8 to 4095 bytes *)
Lemma send_multi (sender : ISOTPSender) (peer : ISOTPReceiver) (at_ : nat -> Z)
    (payload : bytes) (fuel : nat) :
  padding (s_config sender) = true ->
  r_rx_id peer = s_tx_id sender ->
  r_tx_id peer = s_rx_id sender ->
  Z.land (block_size (r_config peer)) 0xFF = 0 ->
  0 < timeout_ms (s_config sender) ->
  (8 <= length payload <= 4095)%nat ->
  (forall i, at_ (S i) - at_ i < timeout_ms (r_config peer)) ->
  (length payload <= fuel)%nat ->
  exists w, send fuel sender payload (new_link peer at_) = Some (true, w)
            /\ link_done sender (r_config peer) payload w.
Proof.
  intros Hpad Hrx Htx Hbs Hto Hlen Hgap Hfuel. unfold send.
  replace (len payload <=? 7) with false
    by (symmetry; apply Z.leb_gt; unfold len; lia).
  unfold _send_multi_frame. rewrite Hpad.
  destruct (create_first_frame_ok payload Hlen) as (hi & lo & Eff & Hty & Hl).
  rewrite Eff.
  cbn [bus_send link_Env]. unfold link_send at 1.
  cbn [new_link lk_wire lk_peer lk_at lk_inbox lk_delivered length].
  destruct (receive_ff sender peer at_ payload hi lo Hrx Htx Hbs Hty Hl)
    as (fc & Erx & Hid & s & tl & Hdata).
  rewrite Erx. cbn [pe_sent app].
  unfold _wait_for_flow_control. cbn [time_time link_Env lk_wire length].
  destruct fuel as [|fuel']; [lia|].
  cbn [wait_loop time_time link_Env lk_wire length].
  cbn [bus_recv link_Env link_recv lk_inbox lk_peer lk_at lk_wire lk_delivered].
  rewrite Hid, Z.eqb_refl. rewrite Hdata.
  change (parse (x30 :: x00 :: s :: tl))
    with (@Ok (FrameType * bytes) (FLOW_CONTROL, [x00; s])).
  cbv iota beta.
  change (len [x00; s] >? 0) with true. cbv iota.
  change (index [x00; s] 0) with (@Ok Z 0). cbv iota.
  change (0 =? FlowStatus_value CONTINUE_TO_SEND) with true. cbv iota.
  assert (Hnow : (at_ 1%nat - at_ 1%nat <? timeout_ms (s_config sender)) = true)
    by (apply Z.ltb_lt; lia).
  rewrite Hnow.
  apply (cf_loop_correct sender (r_config peer) at_ payload (S fuel') Hpad Hgap
           0%nat).
  - unfold link_inv. cbn. repeat split; auto.
    constructor; [|constructor]. unfold frame8. cbn [data length].
    rewrite length_take_le by lia. reflexivity.
  - lia.
  - lia.
Qed.




(* The sender takes its flow status from the byte after the PCI byte, which
   is the receiver's block size.  With block_size = 2 on the receiving side
   the Continue-to-send answer is taken for an overflow: send gives up after
   the First frame and nothing is delivered. *)
Example nonzero_block_size_aborts_sender :
  exists w, send 20 ecu_sender vin_response
              (new_link tester_receiver_bs2 (fun i => 10 * Z.of_nat i))
            = Some (false, w)
            /\ length (lk_wire w) = 1%nat
            /\ lk_delivered w = [].
Proof. eexists. split; [vm_compute; reflexivity|]. split; reflexivity. Qed.

End ISOTPProofs.

(* ===================================================================== *)
(*  Fault registry                                                       *)
(* ===================================================================== *)

Module DTCProofs.
Import PyFacts Vehicle DTC DTCSpec.

(** C2.  The claim covers codes with hexadecimal digits; to_bytes converts
    each digit with int(), which raises ValueError on A-F.  At the code P000A
    to_bytes raises, although the two bytes the packing prescribes are 00 0A
    and the decoder of the test client maps them back to P000A. *)
Theorem to_bytes_hex_digit_raises :
  to_bytes (new_DTC "P000A" "" 0) = Raise ValueError /\
  decode_dtc 0x00 0x0A = "P000A"%string.
Proof. split; reflexivity. Qed.

(* any code of five characters with a digit outside 0-9 raises *)
Lemma to_bytes_rejects_non_decimal (d : DiagnosticTroubleCode)
    (l c1 c2 c3 c4 : ascii) :
  code d = String l (String c1 (String c2 (String c3 (String c4 EmptyString)))) ->
  (exists c, In c [c1; c2; c3; c4] /\ int_of_char c = Raise ValueError) ->
  to_bytes d = Raise ValueError.
Proof.
  intros Hc [c [Hin Hbad]]. unfold to_bytes. rewrite Hc.
  cbn [str_index String.get rbind str_tail String.length Nat.eqb negb].
  unfold pack_digits. cbn [str_index String.get rbind].
  assert (Hk : forall x, int_of_char x = Raise ValueError
                         \/ exists v, int_of_char x = Ok v).
  { intros x. unfold int_of_char. destruct (_ && _); eauto. }
  destruct (Hk c1) as [E1|[v1 E1]]; rewrite E1; cbn [rbind]; [reflexivity|].
  destruct (Hk c2) as [E2|[v2 E2]]; rewrite E2; cbn [rbind]; [reflexivity|].
  destruct (Hk c3) as [E3|[v3 E3]]; rewrite E3; cbn [rbind]; [reflexivity|].
  destruct (Hk c4) as [E4|[v4 E4]]; rewrite E4; cbn [rbind]; [reflexivity|].
  cbn in Hin. destruct Hin as [<-|[<-|[<-|[<-|[]]]]]; congruence.
Qed.

Lemma roundtrip_all :
  forallb (fun l => forallb (fun d1 => forallb (fun d2 => forallb (fun d3 =>
    forallb (fun d4 => roundtrip_check l d1 d2 d3 d4) decimals) decimals)
    decimals) [0; 1; 2; 3]) letters = true.
Proof. vm_compute. reflexivity. Qed.

(* on the codes with decimal digits and a first digit 0..3 the codec is as
   the packing describes, and decoding gives the code back *)
Lemma to_bytes_decimal_roundtrip (l : ascii) (d1 d2 d3 d4 : Z) :
  In l letters -> 0 <= d1 <= 3 -> 0 <= d2 <= 9 -> 0 <= d3 <= 9 -> 0 <= d4 <= 9 ->
  exists b1 b2,
    to_bytes (new_DTC (code_of l d1 d2 d3 d4) "" 0) = Ok [b1; b2]
    /\ b2z b1 = Z.lor (Z.lor (Z.shiftl (type_map_get l) 6) (Z.shiftl d1 4)) d2
    /\ b2z b2 = Z.lor (Z.shiftl d3 4) d4
    /\ decode_dtc (b2z b1) (b2z b2) = code_of l d1 d2 d3 d4.
Proof.
  intros Hl H1 H2 H3 H4.
  pose proof roundtrip_all as H. rewrite forallb_forall in H.
  specialize (H l Hl). rewrite forallb_forall in H.
  assert (Hd : forall d, 0 <= d <= 9 -> In d decimals).
  { intros d Hdr. unfold decimals.
    assert (d = 0 \/ d = 1 \/ d = 2 \/ d = 3 \/ d = 4 \/ d = 5 \/ d = 6
            \/ d = 7 \/ d = 8 \/ d = 9) as Hcases by lia.
    cbn. intuition. }
  assert (Hd1 : In d1 [0; 1; 2; 3]).
  { assert (d1 = 0 \/ d1 = 1 \/ d1 = 2 \/ d1 = 3) as Hcases by lia.
    cbn. intuition. }
  specialize (H d1 Hd1). rewrite forallb_forall in H.
  specialize (H d2 (Hd d2 H2)). rewrite forallb_forall in H.
  specialize (H d3 (Hd d3 H3)). rewrite forallb_forall in H.
  specialize (H d4 (Hd d4 H4)).
  unfold roundtrip_check in H.
  destruct (to_bytes (new_DTC (code_of l d1 d2 d3 d4) "" 0)) as [bs|e];
    [|discriminate].
  destruct bs as [|b1 [|b2 [|? ?]]]; try discriminate.
  apply andb_true_iff in H as [H Hs]. apply andb_true_iff in H as [Ha Hb].
  apply Z.eqb_eq in Ha, Hb. apply String.eqb_eq in Hs.
  exists b1, b2. auto.
Qed.

Lemma DTCState_eqb_eq a b : DTCState_eqb a b = true <-> a = b.
Proof. destruct a, b; cbn; split; congruence. Qed.

Lemma confirmed_or_permanent_spec s :
  confirmed_or_permanent s = true <-> s = CONFIRMED \/ s = PERMANENT.
Proof. destruct s; cbn; intuition congruence. Qed.

Lemma update_mil_ok m : mil_ok (_update_mil m).
Proof.
  unfold mil_ok, _update_mil; cbn. rewrite existsb_exists.
  split; intros [d [Hin H]]; exists d; split; auto.
  - apply andb_true_iff in H as [H1 H2].
    apply confirmed_or_permanent_spec in H2. auto.
  - destruct H as [H1 H2]. apply andb_true_iff. split; auto.
    apply confirmed_or_permanent_spec; auto.
Qed.

Lemma inject_mil_ok m c s cap now :
  mil_ok m -> mil_ok (snd (inject_dtc m c s cap now)).
Proof.
  intros Hm. unfold inject_dtc.
  destruct (definition_of c) as [[[descr mil] emis]|]; cbn [snd].
  - apply update_mil_ok.
  - exact Hm.
Qed.

Lemma clear_mil_ok m b : mil_ok (snd (clear_dtcs m b)).
Proof. unfold clear_dtcs. cbn [snd]. apply update_mil_ok. Qed.

Lemma drive_cycle_mil_ok m now : mil_ok (drive_cycle_complete m now).
Proof. unfold drive_cycle_complete. apply update_mil_ok. Qed.

Lemma step_mil_ok m o : mil_ok m -> mil_ok (step m o).
Proof.
  intros Hm. destruct o; unfold step.
  - apply inject_mil_ok, Hm.
  - apply clear_mil_ok.
  - apply drive_cycle_mil_ok.
Qed.

Lemma new_mil_ok : mil_ok new_DTCManager.
Proof.
  unfold mil_ok. cbn. split; [discriminate|]. intros [d [[] _]].
Qed.

Lemma run_mil_ok (ops : list op) (m : DTCManager) :
  mil_ok m -> mil_ok (fold_left step ops m).
Proof.
  revert m. induction ops as [|o ops IH]; cbn; intros m Hm; auto using step_mil_ok.
Qed.

(** C3.  After every sequence of DTCManager operations (inject_dtc,
    clear_dtcs, drive_cycle_complete, with any arguments) on a fresh manager,
    mil_on is true if and only if a stored code in state CONFIRMED or
    PERMANENT has mil_illuminate set. *)
Theorem mil_invariant (ops : list op) :
  mil_ok (fold_left step ops new_DTCManager).
Proof. apply run_mil_ok, new_mil_ok. Qed.

Lemma lookup_app_new l c d :
  contains l c = false -> code d = c -> lookup_code (l ++ [d]) c = Some d.
Proof.
  unfold contains, lookup_code. induction l as [|x l IH]; cbn; intros Hc Hd.
  - rewrite Hd, String.eqb_refl. reflexivity.
  - destruct (String.eqb (code x) c); cbn in *; [discriminate|auto].
Qed.

Lemma contains_lookup l c :
  contains l c = true <-> exists d, lookup_code l c = Some d.
Proof.
  unfold contains, lookup_code. induction l as [|x l IH]; cbn.
  - split; [discriminate|intros [d H]; discriminate].
  - destruct (String.eqb (code x) c); cbn; [split; eauto|auto].
Qed.

Lemma lookup_update l c f d :
  (forall x, code (f x) = code x) ->
  lookup_code l c = Some d -> lookup_code (update_code c f l) c = Some (f d).
Proof.
  intros Hf. unfold lookup_code, update_code.
  induction l as [|x l IH]; cbn; [discriminate|].
  destruct (String.eqb (code x) c) eqn:E.
  - intros [= ->]. rewrite Hf, E. reflexivity.
  - rewrite E. auto.
Qed.

Lemma inject_new m c s cap now descr mil emis :
  definition_of c = Some (descr, mil, emis) ->
  contains (dtcs m) c = false ->
  let m1 := snd (inject_dtc m c s cap now) in
  lookup_code (dtcs m1) c =
    Some {| code := c; description := descr; state := PENDING;
            detection_count := 1; first_detected := now; last_detected := now;
            freeze_frame := if cap then Some (capture s now) else None;
            mil_illuminate := mil; is_emission_related := emis |}
  /\ pending_to_confirmed_threshold m1 = pending_to_confirmed_threshold m.
Proof.
  intros Hd Hc. unfold inject_dtc. rewrite Hd, Hc. cbn.
  split; [|reflexivity]. apply lookup_app_new; auto.
Qed.

Lemma inject_existing m c s cap now d v :
  definition_of c = Some v ->
  lookup_code (dtcs m) c = Some d ->
  let m1 := snd (inject_dtc m c s cap now) in
  lookup_code (dtcs m1) c
  = Some (redetect (pending_to_confirmed_threshold m) now d)
  /\ pending_to_confirmed_threshold m1 = pending_to_confirmed_threshold m.
Proof.
  intros Hd Hl. unfold inject_dtc. rewrite Hd. destruct v as [[descr mil] emis].
  assert (Hc : contains (dtcs m) c = true) by (apply contains_lookup; eauto).
  rewrite Hc. cbn. split; [|reflexivity].
  apply lookup_update; auto.
Qed.

(** C4.  With confirmation threshold 2, a cataloged code that is not yet
    stored is PENDING after the first inject_dtc, and after the second (and
    every later) one it is CONFIRMED, or PERMANENT when the catalog marks it
    emission-related. *)
Theorem lifecycle (m : DTCManager) (c : string) (s : SensorData) (cap : bool)
    (now : nat -> Z) (descr : string) (mil emis : bool) :
  definition_of c = Some (descr, mil, emis) ->
  contains (dtcs m) c = false ->
  pending_to_confirmed_threshold m = 2 ->
  state_of (inject_n 1 m c s cap now) c = Some PENDING /\
  forall n, (2 <= n)%nat ->
    state_of (inject_n n m c s cap now) c
    = Some (if emis then PERMANENT else CONFIRMED).
Proof.
  intros Hd Hc Ht.
  pose proof (inject_new m c s cap (now 0%nat) _ _ _ Hd Hc) as [H1 T1].
  cbn zeta in H1, T1.
  split.
  - unfold state_of. cbn [inject_n]. rewrite H1. reflexivity.
  - assert (H2 : forall k, exists d,
        lookup_code (dtcs (inject_n (2 + k) m c s cap now)) c = Some d
        /\ state d = (if emis then PERMANENT else CONFIRMED)
        /\ is_emission_related d = emis
        /\ pending_to_confirmed_threshold (inject_n (2 + k) m c s cap now) = 2).
    { induction k as [|k IH].
      - change (inject_n (2 + 0) m c s cap now)
          with (snd (inject_dtc (inject_n 1 m c s cap now) c s cap (now 1%nat))).
        cbn [inject_n].
        pose proof (inject_existing _ c s cap (now 1%nat) _ _ Hd H1) as [H2 T2].
        cbn zeta in H2, T2. rewrite T1, Ht in H2. rewrite T1, Ht in T2.
        eexists. split; [exact H2|]. cbn. destruct emis; auto.
      - destruct IH as [d [Hl [Hs [He Hth]]]].
        change (inject_n (2 + S k) m c s cap now)
          with (snd (inject_dtc (inject_n (2 + k) m c s cap now) c s cap
                                (now (2 + k)%nat))).
        pose proof (inject_existing _ c s cap (now (2 + k)%nat) _ _ Hd Hl)
          as [H2 T2].
        cbn zeta in H2, T2. rewrite Hth in H2, T2.
        eexists. split; [exact H2|]. cbn. rewrite Hs, He.
        destruct emis; cbn; auto. }
    intros n Hn. destruct (H2 (n - 2)%nat) as [d [Hl [Hs _]]].
    replace (2 + (n - 2))%nat with n in Hl by lia.
    unfold state_of. rewrite Hl. cbn. rewrite Hs. reflexivity.
Qed.

Lemma lifecycle_witness :
  (definition_of "P0420"
   = Some ("Catalyst System Efficiency Below Threshold (Bank 1)"%string,
           true, true)) /\
  contains (dtcs new_DTCManager) "P0420" = false /\
  pending_to_confirmed_threshold new_DTCManager = 2 /\
  state_of (inject_n 1 new_DTCManager "P0420" new_SensorData true (fun _ => 0))
           "P0420" = Some PENDING /\
  state_of (inject_n 2 new_DTCManager "P0420" new_SensorData true (fun _ => 0))
           "P0420" = Some PERMANENT.
Proof.
  pose proof (lifecycle new_DTCManager "P0420" new_SensorData true (fun _ => 0)
                _ _ _ eq_refl eq_refl eq_refl) as [H1 H2].
  split; [reflexivity|]. split; [reflexivity|]. split; [reflexivity|].
  split; [exact H1|exact (H2 2%nat (le_n 2))].
Defined.

(* a code that is not emission-related stops at CONFIRMED *)
Example non_emission_code_stops_at_confirmed :
  state_of (inject_n 2 new_DTCManager "P0100" new_SensorData true (fun _ => 0))
           "P0100" = Some CONFIRMED.
Proof. reflexivity. Qed.

(* ordinary clear *)

Lemma in_del x c l : In x (del c l) <-> In x l /\ code x <> c.
Proof.
  unfold del. rewrite filter_In, negb_true_iff, String.eqb_neq. tauto.
Qed.

Lemma in_fold_del x ks l :
  In x (fold_left (fun l dtc => del (code dtc) l) ks l)
  <-> In x l /\ forall k, In k ks -> code x <> code k.
Proof.
  revert l. induction ks as [|k ks IH]; intros l; cbn.
  - split; [intros H; split; [exact H|intros k []]|tauto].
  - rewrite IH, in_del. split.
    + intros [[H1 H2] H3]. split; [exact H1|]. intros k' [<-|Hk]; auto.
    + intros [H1 H2]. repeat split; auto.
Qed.

Lemma in_insert_by_last x y l : In x (insert_by_last y l) <-> x = y \/ In x l.
Proof.
  induction l as [|z l IH]; cbn.
  - intuition congruence.
  - destruct (last_detected y <=? last_detected z); cbn; [intuition congruence|].
    rewrite IH. intuition congruence.
Qed.

Lemma in_sort_by_last x l : In x (sort_by_last l) <-> In x l.
Proof.
  unfold sort_by_last. induction l as [|y l IH]; cbn; [tauto|].
  rewrite in_insert_by_last, IH. intuition congruence.
Qed.

Lemma in_upto {A} (x : A) k l : In x (upto k l) -> In x l.
Proof.
  assert (G : forall n, In x (take n l) -> In x l).
  { intros n H. rewrite <- (firstn_skipn n l). apply in_or_app. left. exact H. }
  unfold upto. destruct (k <? 0); apply G.
Qed.

Lemma in_history m x :
  In x (get_dtcs_by_state m HISTORY) <-> In x (dtcs m) /\ state x = HISTORY.
Proof.
  unfold get_dtcs_by_state. rewrite filter_In, DTCState_eqb_eq. tauto.
Qed.

Lemma cleanup_subset m k x : In x (dtcs (_cleanup_history m k)) -> In x (dtcs m).
Proof.
  unfold _cleanup_history. destruct (_ >? _); cbn; [|auto].
  rewrite in_fold_del. tauto.
Qed.

Lemma unique_codes_inj l a b :
  unique_codes l -> In a l -> In b l -> code a = code b -> a = b.
Proof.
  unfold unique_codes. induction l as [|x l IH]; cbn; [tauto|].
  intros Hnd Ha Hb Hc. inversion Hnd as [|? ? Hx Hl]; subst.
  destruct Ha as [<-|Ha], Hb as [<-|Hb]; auto.
  - exfalso. apply Hx. rewrite Hc. apply in_map. exact Hb.
  - exfalso. apply Hx. rewrite <- Hc. apply in_map. exact Ha.
Qed.

Lemma cleanup_keeps m k x :
  unique_codes (dtcs m) -> In x (dtcs m) -> state x <> HISTORY ->
  In x (dtcs (_cleanup_history m k)).
Proof.
  intros Hu Hx Hs. unfold _cleanup_history. destruct (_ >? _); cbn; [|auto].
  apply in_fold_del. split; [exact Hx|].
  intros y Hy Hc. apply in_upto, in_sort_by_last, in_history in Hy as [Hy1 Hy2].
  assert (x = y) by (eapply unique_codes_inj; eauto). congruence.
Qed.

Lemma clear_one_state d :
  state (fst (clear_one false d)) <> PENDING
  /\ state (fst (clear_one false d)) <> CONFIRMED.
Proof.
  unfold clear_one. destruct (state d) eqn:E; cbn; rewrite ?E; split; congruence.
Qed.

Lemma clear_one_permanent d : state d = PERMANENT -> fst (clear_one false d) = d.
Proof. intros E. unfold clear_one. rewrite E. reflexivity. Qed.

Lemma clear_one_code b d : code (fst (clear_one b d)) = code d.
Proof. unfold clear_one. destruct (state d), b; reflexivity. Qed.

Lemma map_code_clear b l : map code (map fst (map (clear_one b) l)) = map code l.
Proof.
  rewrite !map_map. apply map_ext. intros d. apply clear_one_code.
Qed.

Lemma clear_dtcs_dtcs m b :
  dtcs (snd (clear_dtcs m b))
  = dtcs (_cleanup_history
            (with_dtcs (map fst (map (clear_one b) (dtcs m))) m) 10).
Proof. reflexivity. Qed.

Lemma clear_no_pending_confirmed m d :
  In d (dtcs (snd (clear_dtcs m false))) ->
  state d <> PENDING /\ state d <> CONFIRMED.
Proof.
  rewrite clear_dtcs_dtcs. intros H. apply cleanup_subset in H. cbn in H.
  rewrite map_map in H. apply in_map_iff in H as [x [<- _]]. apply clear_one_state.
Qed.

Lemma clear_keeps_permanent m d :
  unique_codes (dtcs m) -> In d (dtcs m) -> state d = PERMANENT ->
  In d (dtcs (snd (clear_dtcs m false))).
Proof.
  intros Hu Hd Hs. rewrite clear_dtcs_dtcs. apply cleanup_keeps.
  - unfold unique_codes. cbn. rewrite map_code_clear. exact Hu.
  - cbn. rewrite map_map. apply in_map_iff. exists d. split; [|exact Hd].
    apply clear_one_permanent, Hs.
  - congruence.
Qed.

(* codes stay unique under every operation *)

Lemma contains_false_notin l c : contains l c = false -> ~ In c (map code l).
Proof.
  unfold contains. intros H Hin. apply in_map_iff in Hin as [d [Hd Hin]].
  assert (existsb (fun d => String.eqb (code d) c) l = true).
  { apply existsb_exists. exists d. split; auto. apply String.eqb_eq; auto. }
  congruence.
Qed.

Lemma unique_del c l : unique_codes l -> unique_codes (del c l).
Proof.
  unfold unique_codes, del. induction l as [|x l IH]; cbn; auto.
  intros H. inversion H as [|? ? Hx Hl]; subst.
  destruct (negb _); cbn; auto. constructor; auto.
  intros Hin. apply Hx. apply in_map_iff in Hin as [y [Hy Hin]].
  apply filter_In in Hin as [Hin _]. rewrite <- Hy. apply in_map; auto.
Qed.

Lemma unique_fold_del (P : DiagnosticTroubleCode -> bool) ks l :
  unique_codes l ->
  unique_codes (fold_left (fun l dtc => if P dtc then del (code dtc) l else l)
                          ks l).
Proof.
  revert l. induction ks as [|k ks IH]; cbn; auto.
  intros l H. apply IH. destruct (P k); auto using unique_del.
Qed.

Lemma unique_cleanup m k :
  unique_codes (dtcs m) -> unique_codes (dtcs (_cleanup_history m k)).
Proof.
  intros H. unfold _cleanup_history. destruct (_ >? _); cbn; auto.
  apply (unique_fold_del (fun _ => true)). exact H.
Qed.

Lemma map_code_update c f l :
  (forall x, code (f x) = code x) -> map code (update_code c f l) = map code l.
Proof.
  intros Hf. unfold update_code. rewrite map_map. apply map_ext.
  intros d. destruct (String.eqb _ _); auto.
Qed.

Lemma NoDup_snoc {A} (l : list A) (c : A) :
  List.NoDup l -> ~ In c l -> List.NoDup (l ++ [c]).
Proof.
  induction l as [|x l IH]; cbn; intros Hn Hc.
  - constructor; [intros []|constructor].
  - inversion Hn as [|? ? Hx Hl]; subst. constructor.
    + rewrite in_app_iff. cbn. intuition congruence.
    + apply IH; auto.
Qed.

Lemma step_unique m o : unique_codes (dtcs m) -> unique_codes (dtcs (step m o)).
Proof.
  intros H. destruct o as [c s cap now|b|now]; unfold step.
  - unfold inject_dtc.
    destruct (definition_of c) as [[[descr mil] emis]|]; cbn [snd]; auto.
    destruct (contains (dtcs m) c) eqn:Ec; cbn.
    + unfold unique_codes. rewrite map_code_update; auto.
    + unfold unique_codes. rewrite map_app. cbn.
      apply NoDup_snoc; [exact H|]. apply contains_false_notin, Ec.
  - rewrite clear_dtcs_dtcs. apply unique_cleanup. unfold unique_codes. cbn.
    rewrite map_code_clear. exact H.
  - unfold drive_cycle_complete. cbn. apply unique_fold_del. exact H.
Qed.

(* every manager a client can reach has unique codes *)
Lemma reachable_unique (ops : list op) :
  unique_codes (dtcs (fold_left step ops new_DTCManager)).
Proof.
  assert (G : forall m, unique_codes (dtcs m) ->
                        unique_codes (dtcs (fold_left step ops m))).
  { induction ops as [|o ops IH]; cbn; auto using step_unique. }
  apply G. constructor.
Qed.

End DTCProofs.

(* ===================================================================== *)
(*  OBD dispatcher                                                       *)
(* ===================================================================== *)

Module OBDProofs.
Import PyFacts Vehicle DTC DTCSpec OBD OBDSpec DTCProofs.

(** C5.  After mode 04 (clear_dtcs with clear_permanent = false, the
    drive-cycle reset and the counter resets) no stored code is PENDING or
    CONFIRMED, every code that was PERMANENT is still stored unchanged,
    distance-since-clear, distance-with-MIL and the warmup counter are 0, and
    the ten readiness monitors are all incomplete. *)
Theorem ordinary_clear (self : OBDServiceHandler) (request : bytes) :
  unique_codes (dtcs (dtc_manager self)) ->
  let r := _mode_04_clear_dtcs self request in
  let self1 := snd r in
  fst r = Ok [Byte.x44] /\
  dtc_manager self1 = snd (clear_dtcs (dtc_manager self) false) /\
  (forall d, In d (dtcs (dtc_manager self1)) ->
             state d <> PENDING /\ state d <> CONFIRMED) /\
  (forall d, In d (dtcs (dtc_manager self)) -> state d = PERMANENT ->
             In d (dtcs (dtc_manager self1))) /\
  distance_since_clear (get_sensor_data (vehicle self1)) = 0%float /\
  distance_with_mil (get_sensor_data (vehicle self1)) = 0%float /\
  warmups_since_clear (get_sensor_data (vehicle self1)) = 0 /\
  monitors_incomplete (get_drive_cycle (vehicle self1)) /\
  get_completion_mask (get_drive_cycle (vehicle self1)) = 0.
Proof.
  intros Hu r self1. subst r self1. unfold _mode_04_clear_dtcs.
  destruct (clear_dtcs (dtc_manager self) false) as [cl m1] eqn:E.
  assert (Hm : m1 = snd (clear_dtcs (dtc_manager self) false))
    by (rewrite E; reflexivity).
  cbn. repeat split; auto.
  - subst m1. eapply clear_no_pending_confirmed; eauto.
  - subst m1. eapply clear_no_pending_confirmed; eauto.
  - intros d Hd Hs. subst m1. apply clear_keeps_permanent; auto.
Qed.

Lemma ordinary_clear_witness :
  let m := fold_left step
             [Inject "P0420" new_SensorData true 0;
              Inject "P0420" new_SensorData true 1;
              Inject "P0100" new_SensorData true 2;
              Inject "P0700" new_SensorData true 3;
              Inject "P0100" new_SensorData true 4] new_DTCManager in
  let self := new_OBDServiceHandler new_vehicle m in
  let self1 := snd (_mode_04_clear_dtcs self [Byte.x04]) in
  unique_codes (dtcs (dtc_manager self)) /\
  map (fun d => (code d, state d)) (dtcs m)
  = [("P0420"%string, PERMANENT); ("P0100"%string, CONFIRMED);
     ("P0700"%string, PENDING)] /\
  (forall d, In d (dtcs (dtc_manager self1)) ->
             state d <> PENDING /\ state d <> CONFIRMED) /\
  (forall d, In d (dtcs (dtc_manager self)) -> state d = PERMANENT ->
             In d (dtcs (dtc_manager self1))) /\
  distance_since_clear (get_sensor_data (vehicle self1)) = 0%float.
Proof.
  intros m self self1.
  assert (Hu : unique_codes (dtcs (dtc_manager self)))
    by (apply reachable_unique).
  pose proof (ordinary_clear self [Byte.x04] Hu) as H. cbv zeta in H.
  destruct H as (_ & _ & H1 & H2 & H3 & _).
  split; [exact Hu|]. split; [reflexivity|]. split; [exact H1|].
  split; [exact H2|exact H3].
Defined.

(** C9.  The claim wants 43 00 for the one-byte request 03.  The dispatcher
    returns None for every request shorter than two bytes, so no response is
    produced, whatever codes are stored. *)
Theorem process_single_byte_03 (self : OBDServiceHandler) :
  process self [Byte.x03] = (Ok None, self).
Proof. reflexivity. Qed.

(* the mode 03 handler itself answers 43 00 when nothing is stored ... *)
Lemma mode_03_no_dtcs (self : OBDServiceHandler) (request : bytes) :
  get_confirmed_dtcs (dtc_manager self) = [] ->
  get_permanent_dtcs (dtc_manager self) = [] ->
  _mode_03_read_dtcs self request = Ok [Byte.x43; Byte.x00].
Proof.
  intros H1 H2. unfold _mode_03_read_dtcs. rewrite H1, H2. reflexivity.
Qed.

(* ... and so does the dispatcher once the request has a second byte *)
Lemma process_03_two_bytes (self : OBDServiceHandler) (b : byte) (rest : bytes) :
  get_confirmed_dtcs (dtc_manager self) = [] ->
  get_permanent_dtcs (dtc_manager self) = [] ->
  process self (Byte.x03 :: b :: rest) = (Ok (Some [Byte.x43; Byte.x00]), self).
Proof.
  intros H1 H2. unfold process.
  replace (len (Byte.x03 :: b :: rest) <? 2) with false
    by (symmetry; apply Z.ltb_ge; unfold len; cbn [length]; lia).
  cbn -[_mode_03_read_dtcs]. rewrite (mode_03_no_dtcs _ _ H1 H2). reflexivity.
Qed.

End OBDProofs.

(* ===================================================================== *)
(*  UDS engine                                                           *)
(* ===================================================================== *)

Module UDSProofs.
Import PyFacts DTC UDS UDSSpec.
Import Byte.

Ltac split_branches :=
  repeat match goal with
         | |- context [if ?b then _ else _] => destruct b
         | |- context [match ?x with _ => _ end] => destruct x
         end.

Ltac case_services :=
  repeat match goal with
         | |- context [?a =? ?b] => destruct (Z.eqb_spec a b)
         end.

Lemma respond_bytes (l : bytes) : respond (map b2z l) = Ok (Some l).
Proof. unfold respond. rewrite bytes_of_b2z. reflexivity. Qed.

Lemma service_10_accepted (self : UDSServiceHandler) (s : DiagnosticSession)
    (rest : bytes) (now : Z) :
  _service_10_diagnostic_session self (x10 :: session_byte s :: rest) now
  = (Ok (Some [x50; session_byte s; x00; x32; x01; xf4]),
     set_session s now
       (match s with EXTENDED => security_level self | _ => LOCKED end) self).
Proof.
  unfold _service_10_diagnostic_session.
  rewrite (len_ge _ 2 2) by (cbn; lia).
  destruct s; reflexivity.
Qed.

(* what each state-changing handler leaves alone *)

Lemma check_timeout_frame self service now :
  session_start_time (check_session_timeout self service now)
  = session_start_time self
  /\ security_attempts (check_session_timeout self service now)
     = security_attempts self
  /\ max_security_attempts (check_session_timeout self service now)
     = max_security_attempts self.
Proof. unfold check_session_timeout. split_branches; auto. Qed.

Lemma service_14_frame self request :
  session_start_time (snd (_service_14_clear_dtc self request))
  = session_start_time self
  /\ security_attempts (snd (_service_14_clear_dtc self request))
     = security_attempts self
  /\ current_session (snd (_service_14_clear_dtc self request))
     = current_session self.
Proof. unfold _service_14_clear_dtc. split_branches; auto. Qed.

Lemma service_27_frame self request rnd :
  session_start_time (snd (_service_27_security_access self request rnd))
  = session_start_time self
  /\ current_session (snd (_service_27_security_access self request rnd))
     = current_session self.
Proof. unfold _service_27_security_access. split_branches; auto. Qed.

Lemma service_2E_frame self request :
  session_start_time (snd (_service_2E_write_data_by_id self request))
  = session_start_time self
  /\ security_attempts (snd (_service_2E_write_data_by_id self request))
     = security_attempts self
  /\ current_session (snd (_service_2E_write_data_by_id self request))
     = current_session self.
Proof. unfold _service_2E_write_data_by_id. split_branches; auto. Qed.

Lemma service_2F_frame self request :
  session_start_time (snd (_service_2F_io_control self request))
  = session_start_time self
  /\ security_attempts (snd (_service_2F_io_control self request))
     = security_attempts self
  /\ current_session (snd (_service_2F_io_control self request))
     = current_session self.
Proof. unfold _service_2F_io_control. split_branches; auto. Qed.

Lemma service_31_frame self request :
  session_start_time (snd (_service_31_routine_control self request))
  = session_start_time self
  /\ security_attempts (snd (_service_31_routine_control self request))
     = security_attempts self
  /\ current_session (snd (_service_31_routine_control self request))
     = current_session self.
Proof. unfold _service_31_routine_control. split_branches; auto. Qed.

Lemma service_10_frame self request now :
  security_attempts (snd (_service_10_diagnostic_session self request now))
  = security_attempts self
  /\ max_security_attempts (snd (_service_10_diagnostic_session self request now))
     = max_security_attempts self.
Proof. unfold _service_10_diagnostic_session. split_branches; auto. Qed.

Lemma service_3E_frame self request now :
  security_attempts (snd (_service_3E_tester_present self request now))
  = security_attempts self
  /\ current_session (snd (_service_3E_tester_present self request now))
     = current_session self.
Proof. unfold _service_3E_tester_present. split_branches; auto. Qed.

(* process on a request that has a service byte *)
Lemma process_cons self service rest now rnd :
  process self (service :: rest) now rnd =
  let self := check_session_timeout self (b2z service) now in
  let request := service :: rest in
  let service := b2z service in
        if service =? 0x10 then _service_10_diagnostic_session self request now
        else if service =? 0x11 then (_service_11_ecu_reset self request, self)
        else if service =? 0x14 then _service_14_clear_dtc self request
        else if service =? 0x19 then (_service_19_read_dtc_info self request, self)
        else if service =? 0x22 then
          (_service_22_read_data_by_id self request, self)
        else if service =? 0x27 then _service_27_security_access self request rnd
        else if service =? 0x28 then
          (_service_28_communication_control self request, self)
        else if service =? 0x2E then _service_2E_write_data_by_id self request
        else if service =? 0x2F then _service_2F_io_control self request
        else if service =? 0x31 then _service_31_routine_control self request
        else if service =? 0x34 then
          (_service_34_request_download self request, self)
        else if service =? 0x36 then (_service_36_transfer_data self request, self)
        else if service =? 0x37 then (_service_37_transfer_exit self request, self)
        else if service =? 0x3E then _service_3E_tester_present self request now
        else if service =? 0x85 then
          (_service_85_control_dtc_setting self request, self)
        else (_negative_response service 0x11, self).
Proof.
  unfold process. rewrite (len_ge _ 1 1) by (cbn; lia). reflexivity.
Qed.

(** C10.  Service 0x10 with a sub-function among 01, 02, 03, 04 answers
    50 sub 00 32 01 F4, sets the current session to the requested one and
    the session timestamp to the current time; the security level is kept
    for 03 (EXTENDED) and reset to LOCKED for 01, 02 and 04.  Through
    process the same handler runs after the session-timeout check. *)
Theorem session_control (self : UDSServiceHandler) (s : DiagnosticSession)
    (rest : bytes) (now rnd : Z) :
  _service_10_diagnostic_session self (x10 :: session_byte s :: rest) now
  = (Ok (Some [x50; session_byte s; x00; x32; x01; xf4]),
     {| dtc_manager := dtc_manager self;
        current_session := s;
        security_level :=
          match s with EXTENDED => security_level self | _ => LOCKED end;
        session_start_time := now;
        session_timeout := session_timeout self;
        current_seed := current_seed self;
        security_attempts := security_attempts self;
        max_security_attempts := max_security_attempts self;
        io_controls := io_controls self;
        active_routines := active_routines self;
        dids := dids self |})
  /\ process self (x10 :: session_byte s :: rest) now rnd
     = _service_10_diagnostic_session (check_session_timeout self 0x10 now)
         (x10 :: session_byte s :: rest) now.
Proof.
  split.
  - rewrite service_10_accepted. reflexivity.
  - rewrite process_cons. reflexivity.
Qed.

Lemma land_shiftl_byte (x b : Z) : 0 <= b < 256 -> Z.land (Z.shiftl x 8) b = 0.
Proof.
  intros Hb. apply Z.bits_inj'. intros n Hn.
  rewrite Z.land_spec, Z.bits_0.
  destruct (Z.lt_ge_cases n 8) as [Hlt|Hge].
  - rewrite Z.shiftl_spec_low by lia. reflexivity.
  - replace b with (b mod 2 ^ 8) by (apply Z.mod_small; lia).
    rewrite Z.mod_pow2_bits_high by lia. apply andb_false_r.
Qed.

Lemma lor_shiftl_byte (x b : Z) :
  0 <= b < 256 -> Z.lor (Z.shiftl x 8) b = 256 * x + b.
Proof.
  intros Hb. pose proof (Z.add_lor_land (Z.shiftl x 8) b) as H.
  rewrite (land_shiftl_byte x b Hb) in H.
  rewrite Z.shiftl_mul_pow2 in H |- * by lia. change (2 ^ 8) with 256 in *. lia.
Qed.

Lemma int_from_bytes4 (a b c d : byte) :
  int_from_bytes [a; b; c; d]
  = ((b2z a * 256 + b2z b) * 256 + b2z c) * 256 + b2z d.
Proof.
  unfold int_from_bytes. cbn [fold_left].
  pose proof (b2z_range a). pose proof (b2z_range b).
  pose proof (b2z_range c). pose proof (b2z_range d).
  rewrite !lor_shiftl_byte by lia. lia.
Qed.

(* i.to_bytes(4, 'big') and int.from_bytes(.., 'big') are inverse on the
   32-bit range *)
Lemma int_to_bytes4_roundtrip (i : Z) :
  0 <= i < 2 ^ 32 ->
  exists a b c d, int_to_bytes4 i = Ok [a; b; c; d]
                  /\ int_from_bytes [a; b; c; d] = i.
Proof.
  intros Hi. unfold int_to_bytes4.
  destruct (Z.ltb_spec i 0) as [?|_]; [lia|].
  destruct (Z.geb_spec i (2 ^ 32)) as [?|_]; [lia|]. cbn [orb].
  destruct (z2b_ok _ (land_255_range (Z.shiftr i 24))) as [a [Ea Ba]].
  destruct (z2b_ok _ (land_255_range (Z.shiftr i 16))) as [b [Eb Bb]].
  destruct (z2b_ok _ (land_255_range (Z.shiftr i 8))) as [c [Ec Bc]].
  destruct (z2b_ok _ (land_255_range i)) as [d [Ed Bd]].
  cbn [bytes_of]. rewrite Ea, Eb, Ec, Ed. cbn [rbind].
  exists a, b, c, d. split; [reflexivity|].
  rewrite int_from_bytes4, Ba, Bb, Bc, Bd.
  change 255 with (Z.ones 8). rewrite !Z.land_ones by lia.
  rewrite !Z.shiftr_div_pow2 by lia.
  change (2 ^ 8) with 256. change (2 ^ 16) with 65536.
  change (2 ^ 24) with 16777216. change (2 ^ 32) with 4294967296 in Hi.
  Z.div_mod_to_equations. lia.
Qed.

Lemma check_timeout_tables self service now :
  current_seed (check_session_timeout self service now) = current_seed self
  /\ dids (check_session_timeout self service now) = dids self
  /\ io_controls (check_session_timeout self service now) = io_controls self
  /\ active_routines (check_session_timeout self service now)
     = active_routines self
  /\ dtc_manager (check_session_timeout self service now) = dtc_manager self
  /\ session_timeout (check_session_timeout self service now)
     = session_timeout self.
Proof. unfold check_session_timeout. split_branches; repeat split. Qed.

Lemma check_timeout_locked self service now :
  security_level self = LOCKED ->
  security_level (check_session_timeout self service now) = LOCKED.
Proof. intros H. unfold check_session_timeout. split_branches; auto. Qed.

Lemma randint_range (a b rnd : Z) : a <= b -> a <= randint a b rnd <= b.
Proof.
  intros H. unfold randint.
  pose proof (Z.mod_pos_bound rnd (b - a + 1) ltac:(lia)). lia.
Qed.

Lemma process_timestamp_frame self service rest now rnd :
  b2z service <> 0x10 -> b2z service <> 0x3E ->
  session_start_time (snd (process self (service :: rest) now rnd))
  = session_start_time self.
Proof.
  intros H10 H3E. rewrite process_cons. cbv zeta.
  pose proof (check_timeout_frame self (b2z service) now) as [Ht _].
  set (h := check_session_timeout self (b2z service) now) in *.
  case_services; try congruence; cbn [snd]; try exact Ht.
  - rewrite (proj1 (service_14_frame _ _)); exact Ht.
  - rewrite (proj1 (service_27_frame _ _ _)); exact Ht.
  - rewrite (proj1 (service_2E_frame _ _)); exact Ht.
  - rewrite (proj1 (service_2F_frame _ _)); exact Ht.
  - rewrite (proj1 (service_31_frame _ _)); exact Ht.
Qed.

Lemma process_attempts_frame self service rest now rnd :
  b2z service <> 0x27 ->
  security_attempts (snd (process self (service :: rest) now rnd))
  = security_attempts self.
Proof.
  intros H27. rewrite process_cons. cbv zeta.
  pose proof (check_timeout_frame self (b2z service) now) as [_ [Ht _]].
  set (h := check_session_timeout self (b2z service) now) in *.
  case_services; try congruence; cbn [snd]; try exact Ht.
  - rewrite (proj1 (service_10_frame _ _ _)); exact Ht.
  - rewrite (proj1 (proj2 (service_14_frame _ _))); exact Ht.
  - rewrite (proj1 (proj2 (service_2E_frame _ _))); exact Ht.
  - rewrite (proj1 (proj2 (service_2F_frame _ _))); exact Ht.
  - rewrite (proj1 (proj2 (service_31_frame _ _))); exact Ht.
  - rewrite (proj1 (service_3E_frame _ _ _)); exact Ht.
Qed.

Lemma check_timeout_expires self service now :
  service <> 0x3E -> current_session self <> DEFAULT ->
  now - session_start_time self > session_timeout self ->
  current_session (check_session_timeout self service now) = DEFAULT
  /\ security_level (check_session_timeout self service now) = LOCKED.
Proof.
  intros Hs Hd Ht. unfold check_session_timeout.
  destruct (Z.eqb_spec service 0x3E); [congruence|]. cbn [negb].
  destruct (current_session self) eqn:E; try congruence; cbn;
    (destruct (Z.gtb_spec (now - session_start_time self) (session_timeout self));
     [cbn; auto | lia]).
Qed.

Lemma process_expiry self service rest now rnd :
  b2z service <> 0x10 -> b2z service <> 0x3E ->
  current_session self <> DEFAULT ->
  now - session_start_time self > session_timeout self ->
  current_session (snd (process self (service :: rest) now rnd)) = DEFAULT.
Proof.
  intros H10 H3E Hd Hto. rewrite process_cons. cbv zeta.
  pose proof (check_timeout_expires self (b2z service) now H3E Hd Hto) as [Ht _].
  set (h := check_session_timeout self (b2z service) now) in *.
  case_services; try congruence; cbn [snd]; try exact Ht.
  - rewrite (proj2 (proj2 (service_14_frame _ _))); exact Ht.
  - rewrite (proj2 (service_27_frame _ _ _)); exact Ht.
  - rewrite (proj2 (proj2 (service_2E_frame _ _))); exact Ht.
  - rewrite (proj2 (proj2 (service_2F_frame _ _))); exact Ht.
  - rewrite (proj2 (proj2 (service_31_frame _ _))); exact Ht.
Qed.

Lemma process_3E_timestamp self sub rest now rnd :
  session_start_time (snd (process self (x3e :: sub :: rest) now rnd)) = now.
Proof.
  rewrite process_cons. cbv zeta.
  change (b2z x3e) with 0x3E. cbn [Z.eqb Pos.eqb].
  unfold _service_3E_tester_present. rewrite (len_ge _ 2 2) by (cbn; lia).
  cbn. destruct (b2z sub =? 0); reflexivity.
Qed.

Lemma process_10_timestamp self s rest now rnd :
  session_start_time
    (snd (process self (x10 :: session_byte s :: rest) now rnd)) = now.
Proof.
  rewrite process_cons. cbv zeta.
  change (b2z x10) with 0x10. cbn [Z.eqb Pos.eqb].
  rewrite service_10_accepted. reflexivity.
Qed.

Lemma session_of_valid (v : Z) :
  (exists d, DiagnosticSession_of v = Ok d) <-> 1 <= v <= 4.
Proof.
  unfold DiagnosticSession_of. split.
  - intros [d H]. revert H. case_services; intros; try lia; discriminate.
  - intros H. case_services; eauto. lia.
Qed.

Lemma service_10_timestamp self request now :
  session_start_time (snd (_service_10_diagnostic_session self request now))
  = if match request with
       | _ :: b :: _ => (1 <=? b2z b) && (b2z b <=? 4)
       | _ => false
       end
    then now else session_start_time self.
Proof.
  unfold _service_10_diagnostic_session.
  destruct request as [|sid [|b rest]]; try reflexivity.
  replace (len (sid :: b :: rest) <? 2) with false
    by (symmetry; apply Z.ltb_ge; unfold len; cbn [length]; lia).
  change (at_ (sid :: b :: rest) 1) with (@Ok Z (b2z b)). cbv iota.
  destruct (DiagnosticSession_of (b2z b)) as [d|e] eqn:E.
  - assert (H : 1 <= b2z b <= 4) by (apply session_of_valid; eauto).
    replace ((1 <=? b2z b) && (b2z b <=? 4)) with true
      by (symmetry; apply andb_true_iff; split; apply Z.leb_le; lia).
    reflexivity.
  - assert (H : ~ 1 <= b2z b <= 4).
    { intros H. apply session_of_valid in H as [d H]. congruence. }
    replace ((1 <=? b2z b) && (b2z b <=? 4)) with false; [reflexivity|].
    symmetry. apply andb_false_iff.
    destruct (Z.leb_spec 1 (b2z b)); [right; apply Z.leb_gt; lia|left; reflexivity].
Qed.

(* the timestamp after any request *)
Lemma process_timestamp self request now rnd :
  session_start_time (snd (process self request now rnd))
  = if refreshes request then now else session_start_time self.
Proof.
  destruct request as [|sid rest]; [reflexivity|].
  destruct (Z.eq_dec (b2z sid) 0x10) as [E10|N10].
  - rewrite process_cons. cbv zeta. rewrite E10. cbn [Z.eqb Pos.eqb].
    rewrite service_10_timestamp.
    destruct (check_timeout_frame self 16 now) as (-> & _).
    destruct rest as [|b rest].
    + reflexivity.
    + cbn [refreshes]. rewrite E10. cbn [Z.eqb Pos.eqb andb].
      rewrite orb_false_r. reflexivity.
  - destruct (Z.eq_dec (b2z sid) 0x3E) as [E3E|N3E].
    + rewrite process_cons. cbv zeta. rewrite E3E. cbn [Z.eqb Pos.eqb].
      unfold check_session_timeout. cbn [Z.eqb Pos.eqb negb].
      unfold _service_3E_tester_present.
      destruct rest as [|b rest].
      * reflexivity.
      * rewrite (len_ge _ 2 2) by (cbn; lia).
        change (at_ (sid :: b :: rest) 1) with (@Ok Z (b2z b)). cbv iota.
        cbn [refreshes]. rewrite E3E. cbn [Z.eqb Pos.eqb andb orb].
        destruct (b2z b =? 0); reflexivity.
    + rewrite (process_timestamp_frame self sid rest now rnd N10 N3E).
      replace (refreshes (sid :: rest)) with false; [reflexivity|].
      destruct rest as [|b rest]; [reflexivity|]. cbn [refreshes].
      apply Z.eqb_neq in N10, N3E. rewrite N10, N3E. reflexivity.
Qed.

Lemma check_timeout_cases self service now :
  check_session_timeout self service now
  = if negb (service =? 0x3E) && expired self now then relocked self else self.
Proof.
  unfold check_session_timeout, expired, relocked.
  destruct (negb (service =? 62)); [|reflexivity]. cbn [andb].
  destruct (negb (DiagnosticSession_eqb (current_session self) DEFAULT));
    [|reflexivity]. cbn [andb].
  destruct (now - session_start_time self >? session_timeout self); reflexivity.
Qed.

Lemma relocked_not_expired self now : expired (relocked self) now = false.
Proof. reflexivity. Qed.

(* what the handlers of the services other than 0x10 and 0x27 leave alone *)
Lemma process_session_frame self service rest now rnd :
  b2z service <> 0x10 ->
  current_session (snd (process self (service :: rest) now rnd))
  = current_session (check_session_timeout self (b2z service) now).
Proof.
  intros H10. rewrite process_cons. cbv zeta.
  set (h := check_session_timeout self (b2z service) now).
  case_services; try congruence; cbn [snd]; try reflexivity.
  - apply service_14_frame.
  - apply service_27_frame.
  - apply service_2E_frame.
  - apply service_2F_frame.
  - apply service_31_frame.
  - apply service_3E_frame.
Qed.

Lemma process_level_frame self service rest now rnd :
  b2z service <> 0x27 ->
  let h := check_session_timeout self (b2z service) now in
  let self1 := snd (process self (service :: rest) now rnd) in
  security_level self1 = security_level h
  \/ (b2z service = 0x10 /\ security_level self1 = LOCKED).
Proof.
  intros H27 h self1. subst self1. rewrite process_cons. cbv zeta. fold h.
  case_services; try congruence; cbn [snd]; try (left; reflexivity).
  - unfold _service_10_diagnostic_session.
    destruct (len (service :: rest) <? 2); [left; reflexivity|].
    destruct (at_ (service :: rest) 1) as [st|]; [|left; reflexivity].
    destruct (DiagnosticSession_of st); [|left; reflexivity].
    cbn [snd security_level set_session].
    destruct (negb (st =? DiagnosticSession_value EXTENDED));
      [right; split; [assumption|reflexivity]|left; reflexivity].
  - left. unfold _service_14_clear_dtc. split_branches; reflexivity.
  - left. unfold _service_2E_write_data_by_id. split_branches; reflexivity.
  - left. unfold _service_2F_io_control. split_branches; reflexivity.
  - left. unfold _service_31_routine_control. split_branches; reflexivity.
  - left. unfold _service_3E_tester_present. split_branches; reflexivity.
Qed.

(** C7 (as amended).  The session timestamp is set to the time of the call
    by exactly two kinds of request: session control (0x10) with a session
    byte 01..04, and Tester Present (0x3E) of two bytes or more, whatever
    its sub-function.  Every other request leaves the timestamp as it was:
    any other service, answered positively or not, a rejected 0x10, a
    one-byte 0x3E, the empty request.  So when a request other than 0x3E
    arrives in a non-DEFAULT session more than session_timeout after the
    timestamp, process first puts the handler in the DEFAULT session with
    security LOCKED and handles the request in that state, whatever
    requests were accepted in between: afterwards the session is DEFAULT
    unless the request is a 0x10, and security is LOCKED unless the request
    is a 0x27.  A 0x3E request, and any request that arrives before the
    timeout has run out, is handled in the session and at the security
    level the handler has, and leaves the session as it is unless it is a
    0x10. *)
Theorem session_activity (self : UDSServiceHandler) (request : bytes)
    (now rnd : Z) :
  let self1 := snd (process self request now rnd) in
  session_start_time self1
  = (if refreshes request then now else session_start_time self)
  /\ (forall service rest,
        request = service :: rest ->
        b2z service <> 0x3E -> expired self now = true ->
        process self request now rnd = process (relocked self) request now rnd
        /\ (b2z service <> 0x10 -> current_session self1 = DEFAULT)
        /\ (b2z service <> 0x27 -> security_level self1 = LOCKED))
  /\ (forall service rest,
        request = service :: rest ->
        b2z service = 0x3E \/ expired self now = false ->
        check_session_timeout self (b2z service) now = self
        /\ (b2z service <> 0x10 -> current_session self1 = current_session self)).
Proof.
  intros self1. subst self1. split; [apply process_timestamp|]. split.
  - intros service rest -> H3E Hexp.
    assert (Hc : check_session_timeout self (b2z service) now = relocked self).
    { rewrite check_timeout_cases, Hexp.
      apply Z.eqb_neq in H3E. rewrite H3E. reflexivity. }
    assert (Hr : check_session_timeout (relocked self) (b2z service) now
                 = relocked self).
    { rewrite check_timeout_cases, relocked_not_expired, andb_false_r.
      reflexivity. }
    split; [|split].
    + rewrite !process_cons. cbv zeta. rewrite Hc, Hr. reflexivity.
    + intros H10. rewrite (process_session_frame _ _ _ _ _ H10), Hc.
      reflexivity.
    + intros H27.
      destruct (process_level_frame self service rest now rnd H27) as [H|[_ H]].
      * rewrite H, Hc. reflexivity.
      * exact H.
  - intros service rest -> Hcase.
    assert (Hc : check_session_timeout self (b2z service) now = self).
    { rewrite check_timeout_cases. destruct Hcase as [-> | ->].
      - reflexivity.
      - rewrite andb_false_r. reflexivity. }
    split; [exact Hc|].
    intros H10. rewrite (process_session_frame _ _ _ _ _ H10), Hc.
    reflexivity.
Qed.

Lemma session_activity_witness :
  let self := set_session EXTENDED 0 LEVEL_1 blank_handler in
  let self1 := snd (process self [x22; xf1; x90] 6000 0) in
  let seeded := set_security LEVEL_1 (Some 0x10000000) 0 self in
  let keyed := process seeded [x27; x04; x02; x34; x56; x78] 6000 0 in
  expired self 6000 = true /\
  session_start_time self1 = 0 /\
  current_session self1 = DEFAULT /\
  security_level self1 = LOCKED /\
  keyed = process (relocked seeded) [x27; x04; x02; x34; x56; x78] 6000 0 /\
  fst keyed = Ok (Some [x67; x04]) /\
  current_session (snd keyed) = DEFAULT /\
  security_level (snd keyed) = LEVEL_2.
Proof.
  intros self self1 seeded keyed.
  pose proof (session_activity self [x22; xf1; x90] 6000 0) as H.
  cbv zeta in H. destruct H as (Ht & Hexp & _).
  destruct (Hexp x22 [xf1; x90] eq_refl ltac:(vm_compute; congruence) eq_refl)
    as (_ & Hs & Hl).
  pose proof (session_activity seeded [x27; x04; x02; x34; x56; x78] 6000 0) as K.
  cbv zeta in K. destruct K as (_ & Kexp & _).
  destruct (Kexp x27 [x04; x02; x34; x56; x78] eq_refl
              ltac:(vm_compute; congruence) eq_refl) as (Ke & Ks & _).
  split; [reflexivity|]. split; [exact Ht|]. split.
  { apply Hs. vm_compute. congruence. }
  split.
  { apply Hl. vm_compute. congruence. }
  split; [exact Ke|]. split; [reflexivity|]. split.
  { apply Ks. vm_compute. congruence. }
  reflexivity.
Defined.

(* C7 as stated fails: in an EXTENDED session opened at time 0, a read of
   DID F18E at 3 s is answered positively and leaves the timestamp at 0; the
   same read at 6 s, 3 s after the previous accepted request, is answered in
   the DEFAULT session. *)
Lemma accepted_request_does_not_refresh :
  exists h0, new_UDSServiceHandler new_DTCManager = Ok h0 /\
  let h1 := snd (process h0 [x10; x03] 0 0) in
  let r2 := process h1 [x22; xf1; x8e] 3000 0 in
  let r3 := process (snd r2) [x22; xf1; x8e] 6000 0 in
  current_session h1 = EXTENDED /\
  fst r2 = Ok (Some [x62; xf1; x8e; x76; x32; x2e; x30; x2e; x30]) /\
  session_start_time (snd r2) = 0 /\
  current_session (snd r2) = EXTENDED /\
  fst r3 = Ok (Some [x62; xf1; x8e; x76; x32; x2e; x30; x2e; x30]) /\
  current_session (snd r3) = DEFAULT.
Proof.
  eexists. split; [vm_compute; reflexivity|]. vm_compute. repeat split.
Qed.

(* a key request, once a seed is outstanding and the sub-function is even *)
Lemma key_request_shape self sub k1 k2 k3 k4 rest rnd s :
  current_seed self = Some s -> b2z sub mod 2 = 0 ->
  _service_27_security_access self (x27 :: sub :: k1 :: k2 :: k3 :: k4 :: rest) rnd
  = if int_from_bytes [k1; k2; k3; k4] =? Z.lxor s 0x12345678 then
      match SecurityLevel_of (b2z sub / 2) with
      | Raise e => (Raise e, self)
      | Ok l => (Ok (Some [x67; sub]), set_security l None 0 self)
      end
    else (Ok (Some [x7f; x27; x35]),
          set_security (security_level self) None (security_attempts self + 1)
                       self).
Proof.
  intros Hs Hsub. unfold _service_27_security_access.
  rewrite (len_ge _ 2 6) by (cbn; lia).
  change (at_ (x27 :: sub :: k1 :: k2 :: k3 :: k4 :: rest) 1) with (@Ok Z (b2z sub)).
  cbv iota. rewrite Hsub. cbn [Z.eqb].
  rewrite (len_ge _ 6 6) by (cbn; lia).
  rewrite Hs.
  change (slice 2 6 (x27 :: sub :: k1 :: k2 :: k3 :: k4 :: rest))
    with [k1; k2; k3; k4].
  change [103; b2z sub] with (map b2z [x67; sub]). rewrite respond_bytes.
  reflexivity.
Qed.

(* a key request in full: no seed, a matching key, a wrong key *)
Lemma key_request_cases self sub k1 k2 k3 k4 rest rnd :
  b2z sub mod 2 = 0 ->
  _service_27_security_access self (x27 :: sub :: k1 :: k2 :: k3 :: k4 :: rest) rnd
  = match current_seed self with
    | None => (Ok (Some [x7f; x27; x24]), self)
    | Some s =>
        if int_from_bytes [k1; k2; k3; k4] =? Z.lxor s 0x12345678 then
          match SecurityLevel_of (b2z sub / 2) with
          | Raise e => (Raise e, self)
          | Ok l => (Ok (Some [x67; sub]), set_security l None 0 self)
          end
        else (Ok (Some [x7f; x27; x35]),
              set_security (security_level self) None
                           (security_attempts self + 1) self)
    end.
Proof.
  intros Hsub. destruct (current_seed self) as [s|] eqn:Hs.
  - apply key_request_shape; assumption.
  - unfold _service_27_security_access.
    rewrite (len_ge _ 2 6) by (cbn; lia).
    change (at_ (x27 :: sub :: k1 :: k2 :: k3 :: k4 :: rest) 1)
      with (@Ok Z (b2z sub)).
    cbv iota. rewrite Hsub. cbn [Z.eqb].
    rewrite (len_ge _ 6 6) by (cbn; lia). rewrite Hs. reflexivity.
Qed.

(* a request too short to carry a sub-function, or a key *)
Lemma short_request_cases self rnd :
  (forall request, (length request < 2)%nat ->
     _service_27_security_access self request rnd
     = (Ok (Some [x7f; x27; x13]), self))
  /\ (forall sid sub tail, b2z sub mod 2 = 0 -> (length tail < 4)%nat ->
        _service_27_security_access self (sid :: sub :: tail) rnd
        = (Ok (Some [x7f; x27; x13]), self)).
Proof.
  split.
  - intros request Hl. unfold _service_27_security_access.
    replace (len request <? 2) with true
      by (symmetry; apply Z.ltb_lt; unfold len; lia).
    reflexivity.
  - intros sid sub tail Hsub Hl. unfold _service_27_security_access.
    rewrite (len_ge _ 2 2) by (cbn; lia).
    change (at_ (sid :: sub :: tail) 1) with (@Ok Z (b2z sub)).
    cbv iota. rewrite Hsub. cbn [Z.eqb].
    replace (len (sid :: sub :: tail) <? 6) with true
      by (symmetry; apply Z.ltb_lt; unfold len; cbn [length]; lia).
    reflexivity.
Qed.

(* a seed request in full: already unlocked, refused, or a fresh seed *)
Lemma seed_request_cases self odd rest rnd :
  b2z odd mod 2 = 1 ->
  let r := _service_27_security_access self (x27 :: odd :: rest) rnd in
  let seed := randint 0x10000000 0xFFFFFFFF rnd in
  if SecurityLevel_value (security_level self) >=? (b2z odd + 1) / 2 then
    r = (Ok (Some [x67; odd; x00; x00; x00; x00]), self)
  else if security_attempts self >=? max_security_attempts self then
    r = (Ok (Some [x7f; x27; x36]), self)
  else
    exists s1 s2 s3 s4,
      int_from_bytes [s1; s2; s3; s4] = seed
      /\ 0x10000000 <= seed <= 0xFFFFFFFF
      /\ r = (Ok (Some [x67; odd; s1; s2; s3; s4]),
              set_security (security_level self) (Some seed)
                           (security_attempts self) self).
Proof.
  intros Hodd r seed. subst r. unfold _service_27_security_access.
  rewrite (len_ge _ 2 2) by (cbn; lia).
  change (at_ (x27 :: odd :: rest) 1) with (@Ok Z (b2z odd)).
  cbv iota. rewrite Hodd. cbn [Z.eqb Pos.eqb].
  destruct (SecurityLevel_value (security_level self) >=? (b2z odd + 1) / 2).
  { change [103; b2z odd; 0; 0; 0; 0]
      with (map b2z [x67; odd; x00; x00; x00; x00]).
    rewrite respond_bytes. reflexivity. }
  destruct (security_attempts self >=? max_security_attempts self);
    [reflexivity|].
  fold seed.
  pose proof (randint_range 0x10000000 0xFFFFFFFF rnd ltac:(lia)) as Hr.
  fold seed in Hr.
  destruct (int_to_bytes4_roundtrip seed) as [s1 [s2 [s3 [s4 [Eb Ei]]]]].
  { change (2 ^ 32) with 4294967296. lia. }
  exists s1, s2, s3, s4. split; [exact Ei|]. split; [exact Hr|].
  rewrite Eb. cbn [rbind bytes_of].
  change (z2b 103) with (@Ok byte x67). rewrite z2b_b2z. reflexivity.
Qed.

(* service 0x27 changes nothing on a handler that is locked out *)
Lemma service_27_locked_out self request rnd :
  locked_out self ->
  snd (_service_27_security_access self request rnd) = self.
Proof.
  intros [Ha Hs]. unfold _service_27_security_access.
  destruct (len request <? 2); [reflexivity|].
  destruct (at_ request 1) as [sub|]; [|reflexivity].
  destruct (sub mod 2 =? 1).
  - destruct (SecurityLevel_value (security_level self) >=? (sub + 1) / 2);
      [reflexivity|].
    destruct (Z.geb_spec (security_attempts self) (max_security_attempts self));
      [reflexivity|lia].
  - destruct (sub mod 2 =? 0); [|reflexivity].
    destruct (len request <? 6); [reflexivity|].
    rewrite Hs. reflexivity.
Qed.

(* what the other services leave alone *)
Lemma process_security_frame self service rest now rnd :
  b2z service <> 0x27 ->
  let self1 := snd (process self (service :: rest) now rnd) in
  current_seed self1 = current_seed self
  /\ security_attempts self1 = security_attempts self
  /\ max_security_attempts self1 = max_security_attempts self.
Proof.
  intros H27 self1. subst self1. rewrite process_cons. cbv zeta.
  destruct (check_timeout_tables self (b2z service) now) as (Hs & _).
  destruct (check_timeout_frame self (b2z service) now) as (_ & Ha & Hm).
  set (h := check_session_timeout self (b2z service) now) in *.
  rewrite <- Hs, <- Ha, <- Hm.
  case_services; try congruence; cbn [snd]; try (repeat split; reflexivity).
  - unfold _service_10_diagnostic_session. split_branches; repeat split.
  - unfold _service_14_clear_dtc. split_branches; repeat split.
  - unfold _service_2E_write_data_by_id. split_branches; repeat split.
  - unfold _service_2F_io_control. split_branches; repeat split.
  - unfold _service_31_routine_control. split_branches; repeat split.
  - unfold _service_3E_tester_present. split_branches; repeat split.
Qed.

Lemma check_timeout_level self service now :
  SecurityLevel_value (security_level (check_session_timeout self service now))
  <= SecurityLevel_value (security_level self).
Proof.
  rewrite check_timeout_cases.
  destruct (negb (service =? 62) && expired self now); [|lia].
  cbn. destruct (security_level self); cbn; lia.
Qed.

(* one call of process on a handler that is locked out *)
Lemma locked_out_step self request now rnd :
  locked_out self ->
  let self1 := snd (process self request now rnd) in
  locked_out self1
  /\ max_security_attempts self1 = max_security_attempts self
  /\ SecurityLevel_value (security_level self1)
     <= SecurityLevel_value (security_level self).
Proof.
  intros Hlo self1. subst self1.
  destruct request as [|service rest].
  { change (snd (process self [] now rnd)) with self.
    split; [exact Hlo|]. split; [reflexivity|lia]. }
  pose proof (check_timeout_level self (b2z service) now) as Hlv.
  destruct (Z.eq_dec (b2z service) 0x27) as [E|N].
  - rewrite process_cons. cbv zeta. rewrite E. cbn [Z.eqb Pos.eqb].
    rewrite E in Hlv.
    assert (Hh : locked_out (check_session_timeout self 39 now)).
    { destruct Hlo as [Ha Hs].
      destruct (check_timeout_tables self 39 now) as (Hs' & _).
      destruct (check_timeout_frame self 39 now) as (_ & Ha' & Hm').
      split; [rewrite Ha', Hm'; exact Ha|rewrite Hs'; exact Hs]. }
    rewrite (service_27_locked_out _ _ _ Hh).
    split; [exact Hh|]. split; [apply check_timeout_frame|exact Hlv].
  - destruct (process_security_frame self service rest now rnd N)
      as (Hs & Ha & Hm).
    destruct Hlo as [Ha0 Hs0].
    split; [split; [rewrite Ha, Hm; exact Ha0|rewrite Hs; exact Hs0]|].
    split; [exact Hm|].
    destruct (process_level_frame self service rest now rnd N) as [H|[_ H]];
      rewrite H; [exact Hlv|].
    cbn. destruct (security_level self); cbn; lia.
Qed.

Lemma locked_out_run (calls : list (bytes * Z * Z)) :
  forall self, locked_out self ->
    locked_out (run self calls)
    /\ max_security_attempts (run self calls) = max_security_attempts self
    /\ SecurityLevel_value (security_level (run self calls))
       <= SecurityLevel_value (security_level self).
Proof.
  induction calls as [|[[request now] rnd] calls IH]; intros self Hlo.
  - cbn. split; [exact Hlo|]. split; [reflexivity|lia].
  - unfold run. cbn [fold_left].
    destruct (locked_out_step self request now rnd Hlo) as (H1 & H2 & H3).
    destruct (IH _ H1) as (I1 & I2 & I3). unfold run in I1, I2, I3.
    split; [exact I1|]. split; [rewrite I2; exact H2|lia].
Qed.

(** C6 (as amended).  Service 0x27.  A request shorter than two bytes, or an
    even sub-function with fewer than four key bytes, is answered 7F 27 13.
    A key request (even sub-function, four key bytes): with no seed
    outstanding the answer is 7F 27 24 and nothing changes; with a seed s,
    a key equal to s XOR 0x12345678 under sub-function 00, 02 or 04 is
    answered 67 sub, the level becomes sub/2, the attempt counter is reset
    to 0 and the seed is used up; the same key under a higher even
    sub-function raises and changes nothing; any other key is answered
    7F 27 35, the counter is incremented and the seed is used up, which
    leaves the handler locked out when the counter reaches the maximum.  A
    seed request (odd sub-function, level (sub+1)/2): at a level already reached
    the answer is the zero seed and nothing changes; otherwise, with the
    counter at the maximum, the answer is 7F 27 36 and nothing changes;
    otherwise a seed between 0x10000000 and 0xFFFFFFFF is stored and sent.
    No other service changes the counter, its maximum or the seed.  Once
    the counter has reached the maximum with no seed outstanding, as after
    the last wrong key, the lockout is permanent: whatever requests follow,
    session control included, the handler stays locked out, service 0x27
    changes nothing, the level never rises, a seed request above the level
    is answered 7F 27 36 and every key 7F 27 24. *)
Theorem seed_key_exchange (self : UDSServiceHandler) (rnd : Z) :
  (forall request, (length request < 2)%nat ->
     _service_27_security_access self request rnd
     = (Ok (Some [x7f; x27; x13]), self))
  /\ (forall sid sub tail, b2z sub mod 2 = 0 -> (length tail < 4)%nat ->
        _service_27_security_access self (sid :: sub :: tail) rnd
        = (Ok (Some [x7f; x27; x13]), self))
  /\ (forall sub k1 k2 k3 k4 rest, b2z sub mod 2 = 0 ->
        _service_27_security_access self
          (x27 :: sub :: k1 :: k2 :: k3 :: k4 :: rest) rnd
        = match current_seed self with
          | None => (Ok (Some [x7f; x27; x24]), self)
          | Some s =>
              if int_from_bytes [k1; k2; k3; k4] =? Z.lxor s 0x12345678 then
                match SecurityLevel_of (b2z sub / 2) with
                | Raise e => (Raise e, self)
                | Ok l => (Ok (Some [x67; sub]), set_security l None 0 self)
                end
              else (Ok (Some [x7f; x27; x35]),
                    set_security (security_level self) None
                                 (security_attempts self + 1) self)
          end)
  /\ (forall sub, b2z sub mod 2 = 0 ->
        (exists l, SecurityLevel_of (b2z sub / 2) = Ok l
                   /\ SecurityLevel_value l = b2z sub / 2)
        <-> In (b2z sub) [0; 2; 4])
  /\ (forall sub k1 k2 k3 k4 rest s, b2z sub mod 2 = 0 ->
        current_seed self = Some s ->
        int_from_bytes [k1; k2; k3; k4] <> Z.lxor s 0x12345678 ->
        security_attempts self + 1 >= max_security_attempts self ->
        locked_out (snd (_service_27_security_access self
                           (x27 :: sub :: k1 :: k2 :: k3 :: k4 :: rest) rnd)))
  /\ (forall odd rest, b2z odd mod 2 = 1 ->
        let r := _service_27_security_access self (x27 :: odd :: rest) rnd in
        let seed := randint 0x10000000 0xFFFFFFFF rnd in
        if SecurityLevel_value (security_level self) >=? (b2z odd + 1) / 2 then
          r = (Ok (Some [x67; odd; x00; x00; x00; x00]), self)
        else if security_attempts self >=? max_security_attempts self then
          r = (Ok (Some [x7f; x27; x36]), self)
        else
          exists s1 s2 s3 s4,
            int_from_bytes [s1; s2; s3; s4] = seed
            /\ 0x10000000 <= seed <= 0xFFFFFFFF
            /\ r = (Ok (Some [x67; odd; s1; s2; s3; s4]),
                    set_security (security_level self) (Some seed)
                                 (security_attempts self) self))
  /\ (forall service rest now,
        b2z service <> 0x27 ->
        let self1 := snd (process self (service :: rest) now rnd) in
        current_seed self1 = current_seed self
        /\ security_attempts self1 = security_attempts self
        /\ max_security_attempts self1 = max_security_attempts self)
  /\ (locked_out self ->
      forall calls,
        let h := run self calls in
        locked_out h
        /\ SecurityLevel_value (security_level h)
           <= SecurityLevel_value (security_level self)
        /\ (forall request rnd',
              snd (_service_27_security_access h request rnd') = h)
        /\ (forall odd rest rnd', b2z odd mod 2 = 1 ->
              SecurityLevel_value (security_level h) < (b2z odd + 1) / 2 ->
              _service_27_security_access h (x27 :: odd :: rest) rnd'
              = (Ok (Some [x7f; x27; x36]), h))
        /\ (forall sub k1 k2 k3 k4 rest rnd', b2z sub mod 2 = 0 ->
              _service_27_security_access h
                (x27 :: sub :: k1 :: k2 :: k3 :: k4 :: rest) rnd'
              = (Ok (Some [x7f; x27; x24]), h))).
Proof.
  destruct (short_request_cases self rnd) as [Hs1 Hs2].
  split; [exact Hs1|]. split; [exact Hs2|].
  split; [intros; apply key_request_cases; assumption|].
  split.
  { intros sub Hsub. pose proof (b2z_range sub) as Hr. split.
    - intros [l [Hl Hv]]. unfold SecurityLevel_of in Hl.
      assert (Hq : 0 <= b2z sub / 2 <= 2).
      { revert Hl. case_services; intros; try discriminate; lia. }
      apply Z.div_exact in Hsub; [|lia]. cbn [In]. lia.
    - cbn [In]. intros [H|[H|[H|[]]]]; rewrite <- H.
      + exists LOCKED. split; reflexivity.
      + exists LEVEL_1. split; reflexivity.
      + exists LEVEL_2. split; reflexivity. }
  split.
  { intros sub k1 k2 k3 k4 rest s Hsub Hs Hk Ha.
    rewrite (key_request_cases self sub k1 k2 k3 k4 rest rnd Hsub), Hs.
    apply Z.eqb_neq in Hk. rewrite Hk. split; [exact Ha|reflexivity]. }
  split; [intros; apply seed_request_cases; assumption|].
  split; [intros; apply process_security_frame; assumption|].
  intros Hlo calls h.
  destruct (locked_out_run calls self Hlo) as (H1 & H2 & H3). fold h in H1, H2, H3.
  split; [exact H1|]. split; [exact H3|]. split; [|split].
  - intros request rnd'. apply service_27_locked_out. exact H1.
  - intros odd rest rnd' Hodd Hlv.
    pose proof (seed_request_cases h odd rest rnd' Hodd) as Hc. cbv zeta in Hc.
    destruct (Z.geb_spec (SecurityLevel_value (security_level h))
                ((b2z odd + 1) / 2)); [lia|].
    destruct H1 as [Ha _].
    destruct (Z.geb_spec (security_attempts h) (max_security_attempts h));
      [exact Hc|lia].
  - intros sub k1 k2 k3 k4 rest rnd' Hsub.
    rewrite (key_request_cases h sub k1 k2 k3 k4 rest rnd' Hsub).
    destruct H1 as [_ ->]. reflexivity.
Qed.

Lemma seed_key_exchange_witness :
  let self := set_security LOCKED None 3 blank_handler in
  let h := run self [([x10; x03], 10, 0); ([x27; x01], 20, 0);
                     ([x27; x02; x02; x34; x56; x78], 30, 0)] in
  locked_out self /\
  locked_out h /\
  _service_27_security_access h [x27; x01] 0 = (Ok (Some [x7f; x27; x36]), h) /\
  _service_27_security_access h [x27; x02; x02; x34; x56; x78] 0
  = (Ok (Some [x7f; x27; x24]), h).
Proof.
  intros self h.
  assert (Hlo : locked_out self) by (split; [vm_compute; discriminate|reflexivity]).
  pose proof (proj2 (proj2 (proj2 (proj2 (proj2 (proj2 (proj2
                (seed_key_exchange self 0))))))) Hlo
                [([x10; x03], 10, 0); ([x27; x01], 20, 0);
                 ([x27; x02; x02; x34; x56; x78], 30, 0)]) as H.
  cbv zeta in H. fold h in H. destruct H as (H1 & _ & _ & H4 & H5).
  split; [exact Hlo|]. split; [exact H1|]. split.
  - apply H4; [reflexivity|]. vm_compute. reflexivity.
  - apply H5. reflexivity.
Defined.

(* C6 as stated fails in three places. *)
Lemma lockout_counterexample :
  exists h0, new_UDSServiceHandler new_DTCManager = Ok h0 /\
  (* a matching key under sub-function 06 is not accepted: sub/2 = 3 is no
     security level, the handler raises and changes nothing *)
  (let h1 := snd (process h0 [x27; x05] 0 0) in
   let r := process h1 [x27; x06; x02; x34; x56; x78] 0 0 in
   current_seed h1 = Some 0x10000000 /\
   int_from_bytes [x02; x34; x56; x78] = Z.lxor 0x10000000 0x12345678 /\
   fst r = Raise ValueError /\
   current_seed (snd r) = Some 0x10000000 /\
   security_level (snd r) = LOCKED) /\
  (* three wrong keys in a row, then a change of session: the seed request
     is refused before the change and after it *)
  (let wrong := [x27; x02; x00; x00; x00; x00] in
   let round h := snd (process (snd (process h [x27; x01] 0 0)) wrong 0 0) in
   let h3 := round (round (round h0)) in
   let r10 := process h3 [x10; x03] 0 0 in
   security_attempts h3 = 3 /\
   fst (process h3 [x27; x01] 0 0) = Ok (Some [x7f; x27; x36]) /\
   fst r10 = Ok (Some [x50; x03; x00; x32; x01; xf4]) /\
   current_session (snd r10) = EXTENDED /\
   fst (process (snd r10) [x27; x01] 0 0) = Ok (Some [x7f; x27; x36])) /\
  (* with level 1 unlocked and three wrong keys for level 2, a seed request
     for level 1 is still answered positively *)
  (let h1 := snd (process (snd (process h0 [x27; x01] 0 0))
                          [x27; x02; x02; x34; x56; x78] 0 0) in
   let wrong := [x27; x04; x00; x00; x00; x00] in
   let round h := snd (process (snd (process h [x27; x03] 0 0)) wrong 0 0) in
   let h4 := round (round (round h1)) in
   security_level h1 = LEVEL_1 /\
   security_attempts h4 = 3 /\
   fst (process h4 [x27; x01] 0 0) = Ok (Some [x67; x01; x00; x00; x00; x00])).
Proof.
  eexists. split; [vm_compute; reflexivity|]. vm_compute. repeat split.
Qed.

End UDSProofs.

(* --------------------------------------------------------------------- *)
(*  lib/isotp.py: frames on the wire, timeouts, the receiver             *)
(* --------------------------------------------------------------------- *)

Module ISOTPMore.
Import PyFacts ISOTP ISOTPSpec ISOTPTape ISOTPProofs.
Import Byte.

(* a payload of at most 7 bytes makes one frame, and parse reads it back *)
Lemma create_single_frame_ok (d : bytes) (p : bool) :
  (length d <= 7)%nat ->
  exists f, create_single_frame d p = Ok f
            /\ parse f = Ok (SINGLE_FRAME, d)
            /\ length f = (if p then 8 else 1 + length d)%nat.
Proof.
  intros Hle.
  do 8 (try destruct d as [|? d]); cbn [length] in Hle; try lia;
    destruct p; (eexists; split; [reflexivity|]; split; reflexivity).
Qed.

(** X1.  create_single_frame accepts exactly the payloads of at most 7 bytes;
    the frame it builds is parsed back to the same payload, and has 8 bytes
    when padded and 1 + len(payload) bytes otherwise. *)
Theorem single_frame_codec (d : bytes) (p : bool) :
  if (length d <=? 7)%nat then
    exists f, create_single_frame d p = Ok f
              /\ parse f = Ok (SINGLE_FRAME, d)
              /\ length f = (if p then 8 else 1 + length d)%nat
  else create_single_frame d p = Raise ValueError.
Proof.
  destruct (Nat.leb_spec (length d) 7) as [Hle|Hgt].
  - apply create_single_frame_ok. exact Hle.
  - unfold create_single_frame.
    replace (len d >? 7) with true; [reflexivity|].
    symmetry. apply Z.gtb_lt. unfold len. lia.
Qed.

(** X2.  A payload of more than 4095 bytes is not sent: send returns False
    and nothing at all is put on the bus. *)
Theorem send_oversize {W : Type} `{Env W} (fuel : nat) (sender : ISOTPSender)
    (payload : bytes) (w : W) :
  (4095 < length payload)%nat ->
  send fuel sender payload w = Some (false, w).
Proof.
  intros Hlen. unfold send.
  replace (len payload <=? 7) with false
    by (symmetry; apply Z.leb_gt; unfold len; lia).
  unfold _send_multi_frame, create_first_frame.
  replace (len payload >? 4095) with true
    by (symmetry; apply Z.gtb_lt; unfold len; lia).
  reflexivity.
Qed.

Lemma send_oversize_witness :
  (4095 < length (repeat x00 4096))%nat /\
  send 10 ecu_sender (repeat x00 4096)
       {| tp_now := 0; tp_inbox := []; tp_sent := [] |}
  = Some (false, {| tp_now := 0; tp_inbox := []; tp_sent := [] |}).
Proof.
  assert (Hl : (4095 < length (repeat x00 4096))%nat)
    by (rewrite repeat_length; lia).
  split; [exact Hl|]. apply send_oversize. exact Hl.
Defined.

Lemma parse_fc pci rest :
  Z.land (b2z pci) 0xF0 = 0x30 ->
  parse (pci :: rest) = Ok (FLOW_CONTROL, slice 1 3 (pci :: rest)).
Proof.
  intros H. unfold parse.
  replace (len (pci :: rest) =? 0) with false
    by (symmetry; apply Z.eqb_neq; unfold len; cbn [length]; lia).
  cbn [index lookup list_lookup rbind]. cbv zeta. rewrite H. reflexivity.
Qed.

(* one poll of the wait loop that finds a Flow Control frame *)
Lemma wait_fc_step (fuel : nat) (sender : ISOTPSender)
    (w : tape) (pci bsb : byte) (rest : bytes) (ext : bool)
    (q : list (option Message)) :
  tp_inbox w = Some {| arbitration_id := s_rx_id sender;
                       data := pci :: bsb :: rest;
                       is_extended_id := ext |} :: q ->
  Z.land (b2z pci) 0xF0 = 0x30 ->
  0 < timeout_ms (s_config sender) ->
  let w' := {| tp_now := tp_now w; tp_inbox := q; tp_sent := tp_sent w |} in
  _wait_for_flow_control (S fuel) sender w =
    if b2z bsb =? 0 then Some (true, w')
    else if b2z bsb =? 1 then wait_loop fuel sender (tp_now w) w'
    else Some (false, w').
Proof.
  intros Hin Hpci Ht w'.
  unfold _wait_for_flow_control.
  cbn [time_time tape_Env wait_loop bus_recv].
  replace (tp_now w - tp_now w <? timeout_ms (s_config sender)) with true
    by (symmetry; apply Z.ltb_lt; lia).
  unfold tape_recv. rewrite Hin. cbn [arbitration_id data].
  rewrite Z.eqb_refl, (parse_fc _ _ Hpci).
  unfold slice. cbn [Z.sub Z.to_nat Pos.to_nat Pos.iter_op Nat.add drop take].
  change (Z.to_nat (3 - 1)) with 2%nat. change (Z.to_nat 1) with 1%nat.
  cbn [drop take len length index lookup list_lookup FlowStatus_value].
  replace (Z.of_nat (S (length (take 1 rest))) >? 0) with true
    by (symmetry; apply Z.gtb_lt; lia).
  reflexivity.
Qed.

(** X3.  While it waits for flow control the sender takes the byte after the
    PCI byte (the peer's block size) for the flow status, and ignores the
    status nibble of the PCI byte: the wait ends with True when that byte is
    0, goes on when it is 1, and ends with False for any other value. *)
Theorem flow_status_read_from_block_size_byte (fuel : nat) (sender : ISOTPSender)
    (w : tape) (pci bsb : byte) (rest : bytes) (ext : bool)
    (q : list (option Message)) :
  tp_inbox w = Some {| arbitration_id := s_rx_id sender;
                       data := pci :: bsb :: rest;
                       is_extended_id := ext |} :: q ->
  Z.land (b2z pci) 0xF0 = 0x30 ->
  0 < timeout_ms (s_config sender) ->
  let w' := {| tp_now := tp_now w; tp_inbox := q; tp_sent := tp_sent w |} in
  _wait_for_flow_control (S fuel) sender w =
    if b2z bsb =? 0 then Some (true, w')
    else if b2z bsb =? 1 then wait_loop fuel sender (tp_now w) w'
    else Some (false, w').
Proof. exact (wait_fc_step fuel sender w pci bsb rest ext q). Qed.

Lemma flow_status_read_from_block_size_byte_witness :
  _wait_for_flow_control 1 ecu_sender
    {| tp_now := 0;
       tp_inbox := [Some {| arbitration_id := 0x7E0;
                            data := [x32; x00; x00; x00; x00; x00; x00; x00];
                            is_extended_id := false |}];
       tp_sent := [] |}
  = Some (true, {| tp_now := 0; tp_inbox := []; tp_sent := [] |}).
Proof.
  exact (flow_status_read_from_block_size_byte 0 ecu_sender
           {| tp_now := 0;
              tp_inbox := [Some {| arbitration_id := 0x7E0;
                                   data := [x32; x00; x00; x00; x00; x00; x00; x00];
                                   is_extended_id := false |}];
              tp_sent := [] |}
           x32 x00 [x00; x00; x00; x00; x00; x00] false []
           eq_refl eq_refl eq_refl).
Defined.

(* the wait loop on a silent bus: every poll costs 100 ms of the clock *)
Lemma wait_loop_silent (sender : ISOTPSender) (start : Z) (fuel : nat) :
  forall w : tape,
    tp_inbox w = [] ->
    start <= tp_now w ->
    (1 <= fuel)%nat ->
    timeout_ms (s_config sender) - (tp_now w - start) <= 100 * (Z.of_nat fuel - 1) ->
    exists t,
      wait_loop fuel sender start w
      = Some (false, {| tp_now := t; tp_inbox := []; tp_sent := tp_sent w |})
      /\ tp_now w <= t
      /\ timeout_ms (s_config sender) <= t - start
      /\ (t - start < timeout_ms (s_config sender) + 100 \/ t = tp_now w).
Proof.
  induction fuel as [|fuel IH]; intros w Hin Hs H1f Hf; [lia|].
  cbn [wait_loop time_time tape_Env bus_recv].
  destruct (Z.ltb_spec (tp_now w - start) (timeout_ms (s_config sender))) as [Hlt|Hge].
  - unfold tape_recv. rewrite Hin.
      destruct (IH {| tp_now := tp_now w + 100; tp_inbox := []; tp_sent := tp_sent w |})
        as [t [E [H1 [H2 H3]]]]; cbn [tp_now tp_inbox tp_sent]; try reflexivity; try lia.
      exists t. cbn [tp_sent] in E. rewrite E. split; [reflexivity|].
      cbn [tp_now] in H1, H3. repeat split; try lia.
  - exists (tp_now w). destruct w as [n i s]. cbn in *. subst i.
      repeat split; try lia.
Qed.

Lemma create_first_frame_total (n : Z) (d : bytes) (p : bool) :
  0 <= n <= 4095 -> exists f, create_first_frame n d p = Ok f.
Proof.
  intros Hn. unfold create_first_frame.
  destruct (Z.gtb_spec n 4095) as [H|_]; [lia|].
  pose proof (ff_pci n Hn) as Hc. unfold ff_pci_check in Hc. cbv zeta in Hc.
  unpack_check Hc.
  destruct (z2b_ok (Z.lor 16 (Z.land (Z.shiftr n 8) 15))) as [hi [Ehi _]]; [lia|].
  destruct (z2b_ok (Z.land n 255)) as [lo [Elo _]]; [lia|].
  cbn [bytes_of]. rewrite Ehi, Elo. cbn [rbind]. eauto.
Qed.

(** X4.  When no frame arrives after the First frame, send gives up: it
    returns False once the configured timeout has run out (and within one
    100 ms poll of it), and the First frame is the only frame it has put on
    the bus. *)
Theorem send_without_flow_control_times_out (fuel : nat) (sender : ISOTPSender)
    (payload : bytes) (w : tape) :
  (8 <= length payload <= 4095)%nat ->
  tp_inbox w = [] ->
  0 <= timeout_ms (s_config sender) <= 100 * (Z.of_nat fuel - 1) ->
  exists ff t,
    create_first_frame (len payload) (take 6 payload) (padding (s_config sender))
    = Ok ff
    /\ send fuel sender payload w
       = Some (false,
               {| tp_now := t; tp_inbox := [];
                  tp_sent := tp_sent w ++
                    [{| arbitration_id := s_tx_id sender; data := ff;
                        is_extended_id := false |}] |})
    /\ tp_now w + timeout_ms (s_config sender) <= t
       < tp_now w + timeout_ms (s_config sender) + 100.
Proof.
  intros Hlen Hin Ht.
  destruct (create_first_frame_total (len payload) (take 6 payload)
              (padding (s_config sender))) as [ff Eff]; [unfold len; lia|].
  unfold send.
  replace (len payload <=? 7) with false
    by (symmetry; apply Z.leb_gt; unfold len; lia).
  unfold _send_multi_frame. rewrite Eff.
  cbn [bus_send tape_Env]. unfold _wait_for_flow_control.
  cbn [time_time tape_Env tp_now].
  set (w1 := {| tp_now := tp_now w; tp_inbox := tp_inbox w;
                tp_sent := tp_sent w ++ _ |}).
  destruct (wait_loop_silent sender (tp_now w) fuel w1)
    as [t [E [H1 [H2 H3]]]]; subst w1; cbn [tp_now tp_inbox tp_sent];
    try assumption; try lia.
  cbn [tp_now tp_sent] in *. rewrite E.
  exists ff, t. split; [reflexivity|]. split; [reflexivity|]. lia.
Qed.

Lemma send_without_flow_control_times_out_witness :
  exists ff t,
    create_first_frame (len vin_response) (take 6 vin_response)
      (padding (s_config ecu_sender)) = Ok ff
    /\ send 11 ecu_sender vin_response
         {| tp_now := 0; tp_inbox := []; tp_sent := [] |}
       = Some (false,
               {| tp_now := t; tp_inbox := [];
                  tp_sent := [] ++
                    [{| arbitration_id := s_tx_id ecu_sender; data := ff;
                        is_extended_id := false |}] |})
    /\ 0 + timeout_ms (s_config ecu_sender) <= t
       < 0 + timeout_ms (s_config ecu_sender) + 100.
Proof.
  apply (send_without_flow_control_times_out 11 ecu_sender vin_response
           {| tp_now := 0; tp_inbox := []; tp_sent := [] |}).
  - cbn. lia.
  - reflexivity.
  - cbn. lia.
Defined.

(* the frames still to send after k Consecutive frames of an n-byte payload *)
Lemma frames_left_step (n k : nat) :
  (6 + 7 * k < n)%nat ->
  ((n - 6 - 7 * k + 6) / 7 = S ((n - 6 - 7 * S k + 6) / 7))%nat.
Proof.
  intros H.
  destruct (Nat.le_gt_cases 7 (n - 6 - 7 * k)) as [Hge|Hlt].
  - replace (n - 6 - 7 * k + 6)%nat with ((n - 6 - 7 * S k + 6) + 1 * 7)%nat by lia.
    rewrite Nat.div_add by lia. lia.
  - replace (n - 6 - 7 * S k + 6)%nat with 6%nat by lia.
    change (6 / 7)%nat with 0%nat.
    symmetry. apply (Nat.div_unique _ _ _ (n - 6 - 7 * k - 1)%nat); lia.
Qed.

Lemma frames_left_zero (n k : nat) :
  (n <= 6 + 7 * k)%nat -> ((n - 6 - 7 * k + 6) / 7 = 0)%nat.
Proof.
  intros H. replace (n - 6 - 7 * k + 6)%nat with 6%nat by lia. reflexivity.
Qed.

Lemma byte_nibbles (b : byte) :
  b2z b = Z.land (b2z b) 0xF0 + Z.land (b2z b) 0x0F.
Proof. destruct b; reflexivity. Qed.

(* the k-th Consecutive frame of a payload *)
Lemma cf_data_ok (payload : bytes) (k : nat) :
  exists pci rest,
    cf_data payload k = Ok (pci :: rest)
    /\ b2z pci = 0x20 + Z.of_nat (S k) mod 16
    /\ length rest = 7%nat
    /\ take (length (take 7 (drop (6 + 7 * k) payload))) rest
       = take 7 (drop (6 + 7 * k) payload).
Proof.
  unfold cf_data.
  set (chunk := take 7 (drop (6 + 7 * k) payload)).
  assert (Hc : (length chunk <= 7)%nat) by (subst chunk; rewrite length_take; lia).
  destruct (create_consecutive_frame_ok (Z.of_nat (1 + k) mod 16) chunk)
    as [pci [E [H1 H2]]]; [apply Z.mod_pos_bound; lia|exact Hc|].
  exists pci, (chunk ++ zeros (7 - length chunk)).
  split; [exact E|]. split.
  - rewrite (byte_nibbles pci), H1, H2. reflexivity.
  - split.
    + rewrite length_app. unfold zeros. rewrite repeat_length. lia.
    + rewrite take_app_length. reflexivity.
Qed.

(* the Consecutive-frame loop on the tape: frames k, k+1, ... go out in
   this order, and nothing is read *)
Lemma cf_loop_tape (sender : ISOTPSender) (payload : bytes) (fuel : nat) :
  padding (s_config sender) = true ->
  forall (k : nat) (w : tape),
    ((length payload - 6 - 7 * k + 6) / 7 <= fuel)%nat ->
    exists cfs t,
      cf_loop fuel sender (drop 6 payload) (Z.of_nat (1 + k) mod 16)
        (Z.of_nat (7 * k)) w
      = Some (true,
              {| tp_now := t; tp_inbox := tp_inbox w;
                 tp_sent := tp_sent w ++
                   map (fun c => {| arbitration_id := s_tx_id sender; data := c;
                                    is_extended_id := false |}) cfs |})
      /\ Forall2 (fun i c => cf_data payload i = Ok c)
           (seq k ((length payload - 6 - 7 * k + 6) / 7)) cfs.
Proof.
  intros Hpad. induction fuel as [|fuel IH]; intros k w Hf.
  - assert (Hk : (length payload <= 6 + 7 * k)%nat).
    { destruct (Nat.le_gt_cases (length payload) (6 + 7 * k)) as [?|Hlt]; [assumption|].
      rewrite (frames_left_step _ _ Hlt) in Hf. lia. }
    rewrite (frames_left_zero _ _ Hk).
    exists [], (tp_now w). cbn [cf_loop map seq].
    replace (Z.of_nat (7 * k) <? len (drop 6 payload)) with false
      by (symmetry; apply Z.ltb_ge; unfold len; rewrite length_drop; lia).
    rewrite app_nil_r. destruct w; cbn. split; [reflexivity|constructor].
  - destruct (Nat.le_gt_cases (length payload) (6 + 7 * k)) as [Hk|Hlt].
    + rewrite (frames_left_zero _ _ Hk).
      exists [], (tp_now w). cbn [cf_loop map seq].
      replace (Z.of_nat (7 * k) <? len (drop 6 payload)) with false
        by (symmetry; apply Z.ltb_ge; unfold len; rewrite length_drop; lia).
      rewrite app_nil_r. destruct w; cbn. split; [reflexivity|constructor].
    + rewrite (frames_left_step _ _ Hlt) in Hf |- *.
      cbn [cf_loop].
      replace (Z.of_nat (7 * k) <? len (drop 6 payload)) with true
        by (symmetry; apply Z.ltb_lt; unfold len; rewrite length_drop; lia).
      cbv zeta. rewrite slice_chunk, Hpad.
      destruct (cf_data_ok payload k) as [pci [rest [E _]]].
      unfold cf_data in E. rewrite E.
      cbn [bus_send tape_Env time_sleep].
      set (w2 := if stmin (s_config sender) >? 0 then _ else _).
      replace ((Z.of_nat (1 + k) mod 16 + 1) mod 16)
        with (Z.of_nat (1 + S k) mod 16)
        by (rewrite Zplus_mod_idemp_l; f_equal; lia).
      replace (Z.of_nat (7 * k) + 7) with (Z.of_nat (7 * S k)) by lia.
      destruct (IH (S k) w2) as [cfs [t [E2 F2]]]; [lia|].
      assert (Hw2 : tp_inbox w2 = tp_inbox w /\
                    tp_sent w2 = tp_sent w ++
                      [{| arbitration_id := s_tx_id sender; data := pci :: rest;
                          is_extended_id := false |}]).
      { subst w2. destruct (stmin (s_config sender) >? 0); cbn; split; reflexivity. }
      destruct Hw2 as [Hi Hs]. rewrite Hi, Hs in E2.
      exists ((pci :: rest) :: cfs), t. split.
      * rewrite E2. cbn [map]. rewrite <- app_assoc. reflexivity.
      * cbn [seq]. constructor; [exact E|exact F2].
Qed.

(** X5.  The wire format of a multi-frame message.  Once the peer's flow
    control lets the sender go on (block-size byte 0), send returns True
    having put on the bus the First frame and then ceil((n - 6) / 7)
    Consecutive frames, the k-th (from 0) carrying payload[6+7k : 13+7k]
    under the sequence number (k + 1) mod 16; nothing else is sent and
    nothing else is read. *)
Theorem multi_frame_wire_format (fuel : nat) (sender : ISOTPSender)
    (payload : bytes) (w : tape) (pci bsb : byte) (rest : bytes) (ext : bool)
    (q : list (option Message)) :
  padding (s_config sender) = true ->
  0 < timeout_ms (s_config sender) ->
  (8 <= length payload <= 4095)%nat ->
  tp_inbox w = Some {| arbitration_id := s_rx_id sender;
                       data := pci :: bsb :: rest;
                       is_extended_id := ext |} :: q ->
  Z.land (b2z pci) 0xF0 = 0x30 ->
  b2z bsb = 0 ->
  (cf_count (length payload) <= fuel)%nat ->
  exists ff cfs t,
    send fuel sender payload w
    = Some (true,
            {| tp_now := t; tp_inbox := q;
               tp_sent := tp_sent w ++
                 map (fun c => {| arbitration_id := s_tx_id sender; data := c;
                                  is_extended_id := false |}) (ff :: cfs) |})
    /\ ff_data payload = Ok ff
    /\ Forall2 (fun k c =>
                  cf_data payload k = Ok c /\
                  exists p r, c = p :: r /\ length r = 7%nat
                              /\ b2z p = 0x20 + Z.of_nat (S k) mod 16)
         (seq 0 (cf_count (length payload))) cfs.
Proof.
  intros Hpad Ht Hlen Hin Hpci Hbs Hf.
  destruct (create_first_frame_ok payload Hlen) as [hi [lo [Eff _]]].
  assert (H1 : (1 <= cf_count (length payload))%nat).
  { unfold cf_count.
    pose proof (frames_left_step (length payload) 0 ltac:(lia)) as Hs.
    replace (length payload - 6 - 7 * 0 + 6)%nat
      with (length payload - 6 + 6)%nat in Hs by lia.
    rewrite Hs. lia. }
  destruct fuel as [|fuel]; [lia|].
  unfold send.
  replace (len payload <=? 7) with false
    by (symmetry; apply Z.leb_gt; unfold len; lia).
  unfold _send_multi_frame. rewrite Hpad, Eff.
  cbn [bus_send tape_Env].
  set (w1 := {| tp_now := tp_now w; tp_inbox := tp_inbox w; tp_sent := _ |}).
  rewrite (wait_fc_step fuel sender w1 pci bsb rest ext q Hin Hpci Ht).
  rewrite Hbs. cbn [Z.eqb]. cbv zeta.
  set (w2 := {| tp_now := tp_now w1; tp_inbox := q; tp_sent := tp_sent w1 |}).
  destruct (cf_loop_tape sender payload (S fuel) Hpad 0 w2) as [cfs [t [E F]]].
  { unfold cf_count in Hf.
    replace (length payload - 6 - 7 * 0 + 6)%nat
      with (length payload - 6 + 6)%nat by lia. exact Hf. }
  change (Z.of_nat (1 + 0) mod 16) with 1 in E.
  change (Z.of_nat (7 * 0)) with 0 in E. rewrite E.
  exists (hi :: lo :: take 6 payload), cfs, t.
  split; [|split].
  - subst w2 w1. cbn [tp_inbox tp_sent map]. rewrite <- app_assoc. reflexivity.
  - exact Eff.
  - replace (length payload - 6 - 7 * 0 + 6)%nat
      with (length payload - 6 + 6)%nat in F by lia.
    unfold cf_count. eapply Forall2_impl; [exact F|]. intros k c Hk. cbv beta in Hk.
    split; [exact Hk|].
    destruct (cf_data_ok payload k) as [p [r [E' [Hp [Hr _]]]]].
    rewrite E' in Hk. injection Hk as <-. eauto.
Qed.

Lemma multi_frame_wire_format_witness :
  exists ff cfs t,
    send 2 ecu_sender vin_response
      {| tp_now := 0;
         tp_inbox := [Some {| arbitration_id := s_rx_id ecu_sender;
                              data := [x30; x00; x00; x00; x00; x00; x00; x00];
                              is_extended_id := false |}];
         tp_sent := [] |}
    = Some (true,
            {| tp_now := t; tp_inbox := [];
               tp_sent := [] ++
                 map (fun c => {| arbitration_id := s_tx_id ecu_sender; data := c;
                                  is_extended_id := false |}) (ff :: cfs) |})
    /\ ff_data vin_response = Ok ff
    /\ Forall2 (fun k c =>
                  cf_data vin_response k = Ok c /\
                  exists p r, c = p :: r /\ length r = 7%nat
                              /\ b2z p = 0x20 + Z.of_nat (S k) mod 16)
         (seq 0 (cf_count (length vin_response))) cfs.
Proof.
  apply (multi_frame_wire_format 2 ecu_sender vin_response
           {| tp_now := 0;
              tp_inbox := [Some {| arbitration_id := s_rx_id ecu_sender;
                                   data := [x30; x00; x00; x00; x00; x00; x00; x00];
                                   is_extended_id := false |}];
              tp_sent := [] |}
           x30 x00 [x00; x00; x00; x00; x00; x00] false []).
  - reflexivity.
  - reflexivity.
  - cbn. lia.
  - reflexivity.
  - reflexivity.
  - reflexivity.
  - vm_compute. lia.
Defined.

(** X6.  A reassembly is abandoned by a Consecutive frame that comes later
    than the timeout after the previous frame, or whose sequence number is
    not the expected one: nothing is delivered and nothing is sent, the
    receiver is reset, and the Consecutive frames that follow are ignored
    until a new First frame. *)
Theorem consecutive_frame_abort (self : ISOTPReceiver) (pci : byte)
    (rest : bytes) (ext : bool) (e : peer_env) :
  receiving self = true ->
  Z.land (b2z pci) 0xF0 = 0x20 ->
  pe_now e - last_frame_time self > timeout_ms (r_config self)
  \/ Z.land (b2z pci) 0x0F <> next_seq_num self ->
  receive_frame self {| arbitration_id := r_rx_id self; data := pci :: rest;
                        is_extended_id := ext |} e
  = (None, _reset_reception self, e)
  /\ forall (pci' : byte) (rest' : bytes) (ext' : bool) (e' : peer_env),
       Z.land (b2z pci') 0xF0 = 0x20 ->
       receive_frame (_reset_reception self)
         {| arbitration_id := r_rx_id self; data := pci' :: rest';
            is_extended_id := ext' |} e'
       = (None, _reset_reception self, e').
Proof.
  intros Hrec Hpci Hbad. split.
  - unfold receive_frame. cbn [arbitration_id data].
    rewrite Z.eqb_refl. cbn [negb]. rewrite (parse_cf _ _ Hpci).
    unfold _handle_consecutive_frame. rewrite Hrec. cbn [negb].
    cbn [time_time peer_Env].
    destruct (Z.gtb_spec (pe_now e - last_frame_time self)
                (timeout_ms (r_config self))) as [Hlate|Hok]; [reflexivity|].
    cbn [index lookup list_lookup].
    destruct Hbad as [Hl|Hseq]; [lia|].
    replace (Z.land (b2z pci) 15 =? next_seq_num self) with false
      by (symmetry; apply Z.eqb_neq; exact Hseq).
    reflexivity.
  - intros pci' rest' ext' e' Hpci'.
    unfold receive_frame. cbn [arbitration_id data _reset_reception r_rx_id].
    rewrite Z.eqb_refl. cbn [negb]. rewrite (parse_cf _ _ Hpci').
    unfold _handle_consecutive_frame. cbn [receiving negb]. reflexivity.
Qed.

Lemma consecutive_frame_abort_witness :
  receive_frame (peer_at ecu_sender default_config (fun _ => 0) vin_response 0)
    {| arbitration_id := 0x7E8;
       data := [x22; x00; x00; x00; x00; x00; x00; x00];
       is_extended_id := false |}
    {| pe_now := 5; pe_sent := [] |}
  = (None,
     _reset_reception (peer_at ecu_sender default_config (fun _ => 0) vin_response 0),
     {| pe_now := 5; pe_sent := [] |}).
Proof.
  refine (proj1 (consecutive_frame_abort
                   (peer_at ecu_sender default_config (fun _ => 0) vin_response 0)
                   x22 [x00; x00; x00; x00; x00; x00; x00] false
                   {| pe_now := 5; pe_sent := [] |} eq_refl eq_refl _)).
  right. vm_compute. discriminate.
Defined.

(** X7.  What makes the receiver hand over a payload.  receive_frame returns
    a payload only for a frame with the receiver's rx id that is either a
    Single frame (in any state), or a Consecutive frame with the expected
    sequence number while a reassembly is under way, and then the payload
    has the length the First frame announced; First frames and Flow Control
    frames never deliver.  After a delivery the receiver is idle. *)
Theorem delivery_cases (self self' : ISOTPReceiver) (msg : Message)
    (e e' : peer_env) (p : bytes) :
  receive_frame self msg e = (Some p, self', e') ->
  arbitration_id msg = r_rx_id self
  /\ receiving self' = false
  /\ received_data self' = []
  /\ exists pci rest,
       data msg = pci :: rest
       /\ ((Z.land (b2z pci) 0xF0 = 0x00
            /\ p = slice 1 (1 + Z.land (b2z pci) 0x0F) (data msg))
           \/ (Z.land (b2z pci) 0xF0 = 0x20
               /\ receiving self = true
               /\ Z.land (b2z pci) 0x0F = next_seq_num self
               /\ (0 <= expected_length self -> len p = expected_length self))).
Proof.
  unfold receive_frame.
  destruct (Z.eqb_spec (arbitration_id msg) (r_rx_id self)) as [Hid|Hid];
    cbn [negb]; [|discriminate].
  destruct (data msg) as [|pci rest] eqn:Ed; [cbn; discriminate|].
  unfold parse.
  replace (len (pci :: rest) =? 0) with false
    by (symmetry; apply Z.eqb_neq; unfold len; cbn [length]; lia).
  cbn [index lookup list_lookup rbind]. cbv zeta.
  destruct (Z.eqb_spec (Z.land (b2z pci) 240) 0) as [H0|H0].
  { unfold _handle_single_frame. intros E. injection E as <- <- <-.
    split; [exact Hid|]. split; [reflexivity|]. split; [reflexivity|].
    exists pci, rest. split; [reflexivity|]. left. split; [exact H0|reflexivity]. }
  destruct (Z.eqb_spec (Z.land (b2z pci) 240) 16) as [H1|H1].
  { destruct rest as [|lo rest]; cbn [rbind index lookup list_lookup].
    - discriminate.
    - unfold _handle_first_frame. cbn [index lookup list_lookup rbind].
      cbn [time_time peer_Env]. discriminate. }
  destruct (Z.eqb_spec (Z.land (b2z pci) 240) 32) as [H2|H2].
  { unfold _handle_consecutive_frame.
    destruct (receiving self) eqn:Hrec; cbn [negb]; [|discriminate].
    cbn [time_time peer_Env].
    destruct (pe_now e - last_frame_time self >? timeout_ms (r_config self));
      [discriminate|].
    cbn [index lookup list_lookup].
    destruct (Z.eqb_spec (Z.land (b2z pci) 15) (next_seq_num self)) as [Hs|Hs];
      cbn [negb]; [|discriminate].
    set (received := received_data self ++ _).
    destruct (Z.geb_spec (len received) (expected_length self)) as [Hfull|];
      [|discriminate].
    intros E. injection E as <- <- <-.
    split; [exact Hid|]. split; [reflexivity|]. split; [reflexivity|].
    exists pci, rest. split; [reflexivity|]. right.
    split; [exact H2|]. split; [reflexivity|]. split; [exact Hs|].
    intros Hpos. unfold upto, len in *.
    destruct (Z.ltb_spec (expected_length self) 0); [lia|].
    rewrite length_take. lia. }
  destruct (Z.eqb_spec (Z.land (b2z pci) 240) 48) as [H3|H3]; discriminate.
Qed.

Lemma delivery_cases_witness :
  arbitration_id {| arbitration_id := 0x7E8;
                    data := [x02; x01; x0c; x00; x00; x00; x00; x00];
                    is_extended_id := false |} = r_rx_id tester_receiver
  /\ receiving (_reset_reception tester_receiver) = false.
Proof.
  pose proof (delivery_cases tester_receiver (_reset_reception tester_receiver)
                {| arbitration_id := 0x7E8;
                   data := [x02; x01; x0c; x00; x00; x00; x00; x00];
                   is_extended_id := false |}
                {| pe_now := 0; pe_sent := [] |} {| pe_now := 0; pe_sent := [] |}
                [x01; x0c] eq_refl) as H.
  split; [exact (proj1 H)|exact (proj1 (proj2 H))].
Defined.

(** X8.  A First frame always starts a reassembly afresh: whatever the
    receiver was doing, it answers with one Flow Control frame, keeps the
    first 6 data bytes and expects sequence number 1; a reassembly that was
    under way is dropped without notice. *)
Theorem first_frame_restarts (self : ISOTPReceiver) (hi lo : byte)
    (rest : bytes) (ext : bool) (e : peer_env) :
  Z.land (b2z hi) 0xF0 = 0x10 ->
  exists fc,
    create_flow_control CONTINUE_TO_SEND (block_size (r_config self))
      (stmin (r_config self)) (padding (r_config self)) = Ok fc
    /\ receive_frame self {| arbitration_id := r_rx_id self;
                             data := hi :: lo :: rest;
                             is_extended_id := ext |} e
       = (None,
          {| r_tx_id := r_tx_id self; r_rx_id := r_rx_id self;
             r_config := r_config self;
             receiving := true;
             expected_length :=
               Z.lor (Z.shiftl (Z.land (b2z hi) 0x0F) 8) (b2z lo);
             received_data := take 6 rest;
             next_seq_num := 1;
             last_frame_time := pe_now e |},
          {| pe_now := pe_now e;
             pe_sent := pe_sent e ++
               [{| arbitration_id := r_tx_id self; data := fc;
                   is_extended_id := false |}] |}).
Proof.
  intros Hhi.
  assert (Hfc : exists fc,
             create_flow_control CONTINUE_TO_SEND (block_size (r_config self))
               (stmin (r_config self)) (padding (r_config self)) = Ok fc).
  { unfold create_flow_control. cbn [FlowStatus_value Z.lor bytes_of].
    destruct (z2b_ok _ (land_255_range (block_size (r_config self)))) as [b [Eb _]].
    destruct (z2b_ok _ (land_255_range (stmin (r_config self)))) as [s [Es _]].
    change (z2b 48) with (@Ok byte x30). rewrite Eb, Es. cbn [rbind]. eauto. }
  destruct Hfc as [fc Efc]. exists fc. split; [exact Efc|].
  unfold receive_frame. cbn [arbitration_id data].
  rewrite Z.eqb_refl. cbn [negb]. rewrite (parse_ff _ _ _ Hhi).
  unfold _handle_first_frame. cbn [index lookup list_lookup rbind].
  cbn [time_time peer_Env]. unfold _send_flow_control.
  cbn [r_config r_tx_id]. rewrite Efc. reflexivity.
Qed.

Lemma first_frame_restarts_witness :
  exists fc,
    create_flow_control CONTINUE_TO_SEND
      (block_size (r_config (peer_at ecu_sender default_config (fun _ => 0) vin_response 1)))
      (stmin (r_config (peer_at ecu_sender default_config (fun _ => 0) vin_response 1)))
      (padding (r_config (peer_at ecu_sender default_config (fun _ => 0) vin_response 1)))
    = Ok fc
    /\ receive_frame (peer_at ecu_sender default_config (fun _ => 0) vin_response 1)
         {| arbitration_id := 0x7E8;
            data := [x10; x09; x01; x02; x03; x04; x05; x06];
            is_extended_id := false |}
         {| pe_now := 7; pe_sent := [] |}
       = (None,
          {| r_tx_id := 0x7E0; r_rx_id := 0x7E8; r_config := default_config;
             receiving := true;
             expected_length := Z.lor (Z.shiftl (Z.land (b2z x10) 0x0F) 8) (b2z x09);
             received_data := take 6 [x01; x02; x03; x04; x05; x06];
             next_seq_num := 1;
             last_frame_time := 7 |},
          {| pe_now := 7;
             pe_sent := [] ++ [{| arbitration_id := 0x7E0; data := fc;
                                  is_extended_id := false |}] |}).
Proof.
  exact (first_frame_restarts
           (peer_at ecu_sender default_config (fun _ => 0) vin_response 1)
           x10 x09 [x01; x02; x03; x04; x05; x06] false
           {| pe_now := 7; pe_sent := [] |} eq_refl).
Defined.
End ISOTPMore.

(* --------------------------------------------------------------------- *)
(*  lib/dtc_manager.py: what a manager can hold                          *)
(* --------------------------------------------------------------------- *)

Module DTCMore.
Import PyFacts Vehicle DTC DTCSpec DTCLife DTCProofs.

Lemma definition_of_in_key defs c v :
  definition_of_in defs c = Some v -> In (c, v) defs.
Proof.
  induction defs as [|[k v'] r IH]; cbn; [discriminate|].
  destruct (String.eqb_spec k c) as [->|_].
  - intros [= ->]. left. reflexivity.
  - intros H. right. exact (IH H).
Qed.

Lemma entry_ok_new c descr mil emis now ff :
  definition_of c = Some (descr, mil, emis) ->
  entry_ok {| code := c; description := descr; state := PENDING;
              detection_count := 1; first_detected := now;
              last_detected := now; freeze_frame := ff;
              mil_illuminate := mil; is_emission_related := emis |}.
Proof.
  intros H. unfold entry_ok. cbn.
  split; [exact H|]. split; [lia|]. split; [reflexivity|].
  split; intros; discriminate.
Qed.

Lemma entry_ok_redetect now d :
  entry_ok d -> entry_ok (redetect 2 now d).
Proof.
  intros (Hdef & Hc & Hp & Hcf & Hpm). unfold entry_ok, redetect. cbn.
  split; [exact Hdef|]. split; [lia|].
  destruct (state d) eqn:Es; cbn.
  - replace (detection_count d + 1 >=? 2) with true
      by (symmetry; apply Z.geb_le; lia).
    destruct (is_emission_related d) eqn:Ee;
      (split; [discriminate|]); split; intros; try discriminate; split; auto; lia.
  - split; [discriminate|]. split; [|discriminate].
    intros _. destruct (Hcf eq_refl). split; [assumption|lia].
  - split; [discriminate|]. split; [discriminate|].
    intros _. destruct (Hpm eq_refl). split; [assumption|lia].
  - split; [discriminate|]. split; discriminate.
Qed.

Lemma entry_ok_clear_one b d : entry_ok d -> entry_ok (fst (clear_one b d)).
Proof.
  intros H. unfold clear_one.
  assert (Hh : entry_ok (with_state HISTORY d)).
  { destruct H as (Hdef & Hc & _). unfold entry_ok. cbn.
    split; [exact Hdef|]. split; [exact Hc|].
    split; [discriminate|]. split; discriminate. }
  destruct (DTCState_eqb (state d) PERMANENT && negb b); [exact H|].
  destruct (DTCState_eqb (state d) PENDING || DTCState_eqb (state d) CONFIRMED);
    [exact Hh|].
  destruct (b && DTCState_eqb (state d) PERMANENT); [exact Hh|exact H].
Qed.

Lemma in_fold_del_if (P : DiagnosticTroubleCode -> bool) x ks l :
  In x (fold_left (fun l dtc => if P dtc then del (code dtc) l else l) ks l)
  -> In x l.
Proof.
  revert l. induction ks as [|k ks IH]; intros l; cbn [fold_left]; [auto|].
  intros H. apply IH in H. destruct (P k); [|exact H].
  apply in_del in H. tauto.
Qed.

(* the manager's own settings never change *)
Lemma step_threshold m o :
  pending_to_confirmed_threshold (step m o) = pending_to_confirmed_threshold m.
Proof.
  destruct o as [c s cap now|b|now]; cbn [step].
  - unfold inject_dtc. destruct (definition_of c) as [[[? ?] ?]|]; [|reflexivity].
    destruct (contains (dtcs m) c); reflexivity.
  - unfold clear_dtcs. cbn [snd _update_mil pending_to_confirmed_threshold].
    unfold _cleanup_history.
    match goal with |- context [if ?b then _ else _] => destruct b end;
      reflexivity.
  - reflexivity.
Qed.

Lemma step_entry_ok m o :
  pending_to_confirmed_threshold m = 2 ->
  (forall d, In d (dtcs m) -> entry_ok d) ->
  forall d, In d (dtcs (step m o)) -> entry_ok d.
Proof.
  intros Ht Hall d. destruct o as [c s cap now|b|now]; cbn [step].
  - unfold inject_dtc.
    destruct (definition_of c) as [[[descr mil] emis]|] eqn:Edef;
      cbn [snd]; [|apply Hall].
    destruct (contains (dtcs m) c); cbn [_update_mil dtcs with_dtcs].
    + unfold update_code. rewrite in_map_iff. intros [x [<- Hx]].
      destruct (String.eqb (code x) c); [|apply Hall; exact Hx].
      rewrite Ht. apply entry_ok_redetect. apply Hall. exact Hx.
    + rewrite in_app_iff. intros [Hd|[<-|[]]]; [apply Hall; exact Hd|].
      apply entry_ok_new. exact Edef.
  - rewrite clear_dtcs_dtcs. intros Hd. apply cleanup_subset in Hd.
    cbn [dtcs with_dtcs] in Hd. rewrite map_map in Hd.
    apply in_map_iff in Hd as [x [<- Hx]].
    apply entry_ok_clear_one. apply Hall. exact Hx.
  - unfold drive_cycle_complete. cbn [_update_mil dtcs].
    intros Hd. apply in_fold_del_if in Hd. apply Hall. exact Hd.
Qed.

Lemma reachable_entry_ok_aux (ops : list op) (m : DTCManager) :
  pending_to_confirmed_threshold m = 2 ->
  (forall d, In d (dtcs m) -> entry_ok d) ->
  pending_to_confirmed_threshold (fold_left step ops m) = 2
  /\ forall d, In d (dtcs (fold_left step ops m)) -> entry_ok d.
Proof.
  revert m. induction ops as [|o ops IH]; intros m Ht Hall; cbn [fold_left].
  - split; assumption.
  - apply IH.
    + rewrite step_threshold. exact Ht.
    + apply step_entry_ok; assumption.
Qed.

Lemma reachable_ok m :
  reachable m ->
  pending_to_confirmed_threshold m = 2
  /\ unique_codes (dtcs m)
  /\ forall d, In d (dtcs m) -> entry_ok d.
Proof.
  intros [ops ->].
  destruct (reachable_entry_ok_aux ops new_DTCManager) as [H1 H2];
    [reflexivity|intros d []|].
  split; [exact H1|]. split; [apply reachable_unique|exact H2].
Qed.

(** X9.  Every entry a DTCManager ever holds is a cataloged code with the
    catalog's description and flags and a detection count of at least 1; a
    PENDING entry has been detected exactly once, a CONFIRMED entry is not
    emission-related, a PERMANENT entry is, and both have been detected at
    least twice. *)
Theorem stored_entries_well_formed (m : DTCManager) (d : DiagnosticTroubleCode) :
  reachable m -> In d (dtcs m) -> entry_ok d.
Proof.
  intros Hr Hd. destruct (reachable_ok m Hr) as (_ & _ & H). exact (H d Hd).
Qed.

Lemma stored_entries_well_formed_witness :
  entry_ok {| code := "P0420";
              description := "Catalyst System Efficiency Below Threshold (Bank 1)";
              state := PERMANENT; detection_count := 2; first_detected := 0;
              last_detected := 1; freeze_frame := Some (capture new_SensorData 0);
              mil_illuminate := true; is_emission_related := true |}.
Proof.
  apply (stored_entries_well_formed
           (fold_left step [Inject "P0420" new_SensorData true 0;
                            Inject "P0420" new_SensorData true 1] new_DTCManager)).
  - eexists. reflexivity.
  - vm_compute. left. reflexivity.
Defined.


(** X10.  A code that has been cleared is never brought back: once its entry
    is HISTORY, inject_dtc still returns True and counts the detection, but
    the entry stays HISTORY however often the code is injected again. *)
Theorem cleared_code_is_not_reactivated (m : DTCManager) (c : string)
    (s : SensorData) (cap : bool) (now : nat -> Z) (n : nat)
    (v : string * bool * bool) (d : DiagnosticTroubleCode) :
  definition_of c = Some v ->
  lookup_code (dtcs m) c = Some d ->
  state d = HISTORY ->
  let m' := inject_n n m c s cap now in
  fst (inject_dtc m' c s cap (now n)) = true
  /\ exists d', lookup_code (dtcs m') c = Some d'
                /\ state d' = HISTORY
                /\ detection_count d' = detection_count d + Z.of_nat n.
Proof.
  intros Hdef Hl Hs m'. split.
  - unfold inject_dtc. rewrite Hdef. destruct v as [[? ?] ?].
    reflexivity.
  - subst m'. induction n as [|n IH]; cbn [inject_n].
    + exists d. split; [exact Hl|]. split; [exact Hs|]. lia.
    + destruct IH as [d' [Hl' [Hs' Hc']]].
      destruct (inject_existing (inject_n n m c s cap now) c s cap (now n) d' v
                  Hdef Hl') as [E _].
      eexists. split; [exact E|]. unfold redetect. cbn [state detection_count].
      rewrite Hs'. cbn. split; [reflexivity|]. lia.
Qed.

Lemma cleared_code_is_not_reactivated_witness :
  let m := fold_left step [Inject "P0420" new_SensorData true 0; Clear true]
             new_DTCManager in
  let m' := inject_n 3 m "P0420" new_SensorData true (fun _ => 5) in
  fst (inject_dtc m' "P0420" new_SensorData true 5) = true
  /\ exists d', lookup_code (dtcs m') "P0420" = Some d'
                /\ state d' = HISTORY
                /\ detection_count d' = 1 + Z.of_nat 3.
Proof.
  intros m.
  refine (cleared_code_is_not_reactivated m "P0420" new_SensorData true
            (fun _ => 5) 3 _
            {| code := "P0420";
               description := "Catalyst System Efficiency Below Threshold (Bank 1)";
               state := HISTORY; detection_count := 1; first_detected := 0;
               last_detected := 0; freeze_frame := Some (capture new_SensorData 0);
               mil_illuminate := true; is_emission_related := true |}
            _ _ _).
  - reflexivity.
  - reflexivity.
  - reflexivity.
Defined.

Lemma length_insert_by_last x l :
  length (insert_by_last x l) = S (length l).
Proof.
  induction l as [|y r IH]; cbn; [reflexivity|].
  destruct (last_detected x <=? last_detected y); cbn; [reflexivity|].
  rewrite IH. reflexivity.
Qed.

Lemma length_sort_by_last l : length (sort_by_last l) = length l.
Proof.
  induction l as [|x r IH]; cbn; [reflexivity|].
  rewrite length_insert_by_last. unfold sort_by_last in IH. rewrite IH.
  reflexivity.
Qed.

Lemma unique_NoDup l : unique_codes l -> List.NoDup l.
Proof. unfold unique_codes. apply List.NoDup_map_inv. Qed.

(* _cleanup_history leaves at most max_history HISTORY entries; for
   max_history = 0 the slice [:-0] is empty and nothing would be removed *)
Lemma cleanup_bound m k :
  0 < k ->
  unique_codes (dtcs m) ->
  len (get_dtcs_by_state (_cleanup_history m k) HISTORY) <= k.
Proof.
  intros Hk Hu. unfold _cleanup_history.
  destruct (Z.gtb_spec (len (get_dtcs_by_state m HISTORY)) k) as [Hgt|Hle];
    [|exact Hle].
  set (H := get_dtcs_by_state m HISTORY) in *.
  set (S := sort_by_last H).
  set (ks := upto (- k) S).
  set (m' := with_dtcs _ m).
  assert (HS : length S = length H) by apply length_sort_by_last.
  assert (Eks : ks = take (length S - Z.to_nat k) S).
  { subst ks. unfold upto.
    destruct (Z.ltb_spec (- k) 0) as [_|H0]; [|lia].
    f_equal. f_equal. f_equal. lia. }
  assert (Hincl : incl (get_dtcs_by_state m' HISTORY)
                       (drop (length S - Z.to_nat k) S)).
  { intros x Hx. apply in_history in Hx as [Hx Hst].
    subst m'. cbn [dtcs with_dtcs] in Hx.
    apply in_fold_del in Hx as [Hx Hne].
    assert (HxS : In x S).
    { apply in_sort_by_last. apply in_history. split; assumption. }
    rewrite <- (take_drop (length S - Z.to_nat k) S) in HxS.
    apply in_app_iff in HxS as [Ht|Hd]; [|exact Hd].
    exfalso. apply (Hne x); [|reflexivity]. rewrite Eks. exact Ht. }
  assert (Hnd : List.NoDup (get_dtcs_by_state m' HISTORY)).
  { unfold get_dtcs_by_state. apply List.NoDup_filter. apply unique_NoDup.
    subst m'. cbn [dtcs with_dtcs].
    pose proof (unique_cleanup m k Hu) as Hc. unfold _cleanup_history in Hc.
    fold H in Hc.
    replace (len H >? k) with true in Hc
      by (symmetry; apply Z.gtb_lt; lia).
    exact Hc. }
  pose proof (List.NoDup_incl_length Hnd Hincl) as Hlen.
  rewrite length_drop in Hlen. unfold len in *. lia.
Qed.

(** X11.  The history is bounded: after clear_dtcs, whatever the manager
    held before, at most 10 HISTORY entries are left. *)
Theorem history_is_bounded (m : DTCManager) (b : bool) :
  unique_codes (dtcs m) ->
  len (get_dtcs_by_state (snd (clear_dtcs m b)) HISTORY) <= 10.
Proof.
  intros Hu.
  assert (E : get_dtcs_by_state (snd (clear_dtcs m b)) HISTORY
              = get_dtcs_by_state
                  (_cleanup_history
                     (with_dtcs (map fst (map (clear_one b) (dtcs m))) m) 10)
                  HISTORY).
  { unfold get_dtcs_by_state. rewrite clear_dtcs_dtcs. reflexivity. }
  rewrite E. apply cleanup_bound; [lia|].
  cbn [dtcs with_dtcs]. unfold unique_codes. rewrite map_code_clear. exact Hu.
Qed.

Lemma history_is_bounded_witness :
  len (dtcs busy_manager) = 13
  /\ unique_codes (dtcs busy_manager)
  /\ len (get_dtcs_by_state (snd (clear_dtcs busy_manager true)) HISTORY) <= 10
  /\ len (get_dtcs_by_state (snd (clear_dtcs busy_manager true)) HISTORY) = 10.
Proof.
  assert (Hu : unique_codes (dtcs busy_manager))
    by (unfold busy_manager; apply reachable_unique).
  split; [reflexivity|]. split; [exact Hu|].
  split; [apply history_is_bounded; exact Hu|vm_compute; reflexivity].
Defined.

Lemma clear_one_true_state d : state (fst (clear_one true d)) = HISTORY.
Proof. unfold clear_one. destruct (state d) eqn:E; cbn; auto. Qed.

(** X12.  clear_dtcs(clear_permanent=True) leaves no active code: every
    entry still stored is HISTORY, the active list is empty, the count of
    confirmed and permanent codes is 0 and the MIL is off. *)
Theorem clear_all_leaves_nothing_active (m : DTCManager) :
  let m' := snd (clear_dtcs m true) in
  (forall d, In d (dtcs m') -> state d = HISTORY)
  /\ get_all_active_dtcs m' = []
  /\ get_dtc_count m' = 0
  /\ is_mil_on m' = false.
Proof.
  intros m'.
  assert (Hall : forall d, In d (dtcs m') -> state d = HISTORY).
  { intros d Hd. subst m'. rewrite clear_dtcs_dtcs in Hd.
    apply cleanup_subset in Hd. cbn [dtcs with_dtcs] in Hd.
    rewrite map_map in Hd. apply in_map_iff in Hd as [x [<- _]].
    apply clear_one_true_state. }
  assert (Hnone : forall (P : DiagnosticTroubleCode -> bool),
             (forall d, state d = HISTORY -> P d = false) ->
             List.filter P (dtcs m') = []).
  { intros P HP. induction (dtcs m') as [|x l IH]; [reflexivity|].
    cbn [List.filter]. rewrite (HP x) by (apply Hall; left; reflexivity).
    apply IH. intros d Hd. apply Hall. right. exact Hd. }
  split; [exact Hall|]. split; [|split].
  - apply Hnone. intros d ->. reflexivity.
  - unfold get_dtc_count, get_confirmed_dtcs, get_permanent_dtcs,
      get_dtcs_by_state.
    rewrite !Hnone by (intros d ->; reflexivity). reflexivity.
  - unfold is_mil_on. destruct (mil_on m') eqn:E; [|reflexivity].
    pose proof (clear_mil_ok m true) as Hm. unfold mil_ok in Hm.
    apply Hm in E. destruct E as [d [Hd [Hs _]]].
    apply Hall in Hd. rewrite Hd in Hs. destruct Hs; discriminate.
Qed.

Lemma catalog_emission_lights_mil : emission_lights_mil DTC_DEFINITIONS = true.
Proof. vm_compute. reflexivity. Qed.

Lemma emission_entry_lights_mil d :
  entry_ok d -> is_emission_related d = true -> mil_illuminate d = true.
Proof.
  intros (Hdef & _) He. apply definition_of_in_key in Hdef.
  pose proof catalog_emission_lights_mil as H. unfold emission_lights_mil in H.
  rewrite forallb_forall in H. apply H in Hdef. rewrite He in Hdef.
  exact Hdef.
Qed.

(** X13.  An ordinary clear (mode 04, clear_permanent = False) turns the MIL
    off exactly when no PERMANENT code is stored: on a manager reached from
    DTCManager(), the MIL is on afterwards if and only if a PERMANENT entry
    was stored before. *)
Theorem mil_after_ordinary_clear (m : DTCManager) :
  reachable m ->
  is_mil_on (snd (clear_dtcs m false)) = true
  <-> get_permanent_dtcs m <> [].
Proof.
  intros Hr. destruct (reachable_ok m Hr) as (_ & Hu & Hok).
  unfold is_mil_on. pose proof (clear_mil_ok m false) as Hm.
  unfold mil_ok in Hm. rewrite Hm. clear Hm. split.
  - intros [d [Hd [Hs _]]].
    pose proof (clear_no_pending_confirmed m d Hd) as [_ Hnc].
    destruct Hs as [Hs|Hs]; [contradiction|].
    rewrite clear_dtcs_dtcs in Hd. apply cleanup_subset in Hd.
    cbn [dtcs with_dtcs] in Hd. rewrite map_map in Hd.
    apply in_map_iff in Hd as [x [Ex Hx]].
    assert (Hxs : state x = PERMANENT).
    { subst d. unfold clear_one in Hs.
      destruct (state x) eqn:Est; cbn in Hs; rewrite ?Est in Hs;
        try discriminate; reflexivity. }
    intros Hnil.
    assert (Hin : In x (get_permanent_dtcs m)).
    { unfold get_permanent_dtcs, get_dtcs_by_state. apply filter_In.
      split; [exact Hx|]. rewrite Hxs. reflexivity. }
    rewrite Hnil in Hin. destruct Hin.
  - intros Hne.
    destruct (get_permanent_dtcs m) as [|d l] eqn:E; [contradiction|].
    assert (Hin : In d (get_permanent_dtcs m)) by (rewrite E; left; reflexivity).
    unfold get_permanent_dtcs, get_dtcs_by_state in Hin.
    apply filter_In in Hin as [Hd Hs]. apply DTCState_eqb_eq in Hs.
    exists d. split; [apply clear_keeps_permanent; assumption|].
    split; [right; exact Hs|].
    apply emission_entry_lights_mil; [apply Hok; exact Hd|].
    destruct (Hok d Hd) as (_ & _ & _ & _ & Hp). apply (Hp Hs).
Qed.

Lemma mil_after_ordinary_clear_witness :
  let m := fold_left step [Inject "P0420" new_SensorData true 0;
                           Inject "P0420" new_SensorData true 1;
                           Inject "P0100" new_SensorData true 2;
                           Inject "P0100" new_SensorData true 3]
             new_DTCManager in
  is_mil_on (snd (clear_dtcs m false)) = true <-> get_permanent_dtcs m <> [].
Proof.
  intros m. apply mil_after_ordinary_clear. eexists. reflexivity.
Defined.

Lemma in_fold_del_healed (P : DiagnosticTroubleCode -> bool) x ks l :
  In x (fold_left (fun l dtc => if P dtc then del (code dtc) l else l) ks l)
  <-> In x l /\ forall k, In k ks -> P k = true -> code x <> code k.
Proof.
  revert l. induction ks as [|k ks IH]; intros l; cbn [fold_left].
  - split; [intros H; split; [exact H|intros k []]|tauto].
  - rewrite IH. destruct (P k) eqn:Ek.
    + rewrite in_del. split.
      * intros [[Hx Hk] Hr]. split; [exact Hx|].
        intros k' [<-|Hk'] Hp; [exact Hk|apply Hr; assumption].
      * intros [Hx Hr]. split; [split; [exact Hx|]|].
        -- apply Hr; [left; reflexivity|exact Ek].
        -- intros k' Hk'. apply Hr. right. exact Hk'.
    + split.
      * intros [Hx Hr]. split; [exact Hx|].
        intros k' [<-|Hk'] Hp; [congruence|apply Hr; assumption].
      * intros [Hx Hr]. split; [exact Hx|].
        intros k' Hk'. apply Hr. right. exact Hk'.
Qed.

(** X14.  drive_cycle_complete counts the cycle and heals: it removes
    exactly the PENDING entries last detected longer ago than
    healing_drive_cycles * 600 s, and keeps every other entry as it was. *)
Theorem drive_cycle_heals_stale_pending (m : DTCManager) (now : Z)
    (d : DiagnosticTroubleCode) :
  unique_codes (dtcs m) ->
  let m' := drive_cycle_complete m now in
  drive_cycle_count m' = drive_cycle_count m + 1
  /\ (In d (dtcs m') <-> In d (dtcs m) /\ healed m now d = false).
Proof.
  intros Hu m'. split; [reflexivity|].
  subst m'. unfold drive_cycle_complete. cbn [_update_mil dtcs].
  change (fun dtc : DiagnosticTroubleCode =>
            DTCState_eqb (state dtc) PENDING
            && (now - last_detected dtc >? healing_drive_cycles m * 600 * 1000))
    with (healed m now).
  rewrite in_fold_del_healed. split.
  - intros [Hd Hr]. split; [exact Hd|].
    destruct (healed m now d) eqn:Eh; [|reflexivity].
    exfalso. exact (Hr d Hd Eh eq_refl).
  - intros [Hd Hh]. split; [exact Hd|].
    intros k Hk Hp Hc.
    rewrite (unique_codes_inj _ _ _ Hu Hd Hk Hc) in Hh.
    unfold healed in Hh. cbv beta in Hp. congruence.
Qed.

Lemma drive_cycle_heals_stale_pending_witness :
  let m := fold_left step [Inject "P0420" new_SensorData true 0] new_DTCManager in
  let d := {| code := "P0420";
              description := "Catalyst System Efficiency Below Threshold (Bank 1)";
              state := PENDING; detection_count := 1; first_detected := 0;
              last_detected := 0; freeze_frame := Some (capture new_SensorData 0);
              mil_illuminate := true; is_emission_related := true |} in
  drive_cycle_count (drive_cycle_complete m 24000001) = drive_cycle_count m + 1
  /\ (In d (dtcs (drive_cycle_complete m 24000001))
      <-> In d (dtcs m) /\ healed m 24000001 d = false).
Proof.
  intros m d. apply drive_cycle_heals_stale_pending.
  vm_compute. constructor; [intros []|constructor].
Defined.

Lemma to_bytes_code d : to_bytes d = to_bytes (new_DTC (code d) "" 0).
Proof. reflexivity. Qed.

Lemma catalog_encodes :
  forallb (fun kv => encodes_ok (fst kv)) DTC_DEFINITIONS = true.
Proof. vm_compute. reflexivity. Qed.

Lemma entry_encodes d :
  entry_ok d ->
  exists b1 b2, to_bytes d = Ok [b1; b2]
                /\ decode_dtc (b2z b1) (b2z b2) = code d.
Proof.
  intros (Hdef & _). apply definition_of_in_key in Hdef.
  pose proof catalog_encodes as H. rewrite forallb_forall in H.
  apply H in Hdef. cbn [fst] in Hdef. unfold encodes_ok in Hdef.
  rewrite to_bytes_code.
  destruct (to_bytes (new_DTC (code d) "" 0)) as [[|b1 [|b2 [|? ?]]]|];
    try discriminate.
  exists b1, b2. split; [reflexivity|]. apply String.eqb_eq. exact Hdef.
Qed.

(** X15.  Every stored code can be put on the wire and read back: for each
    entry of a manager reached from DTCManager(), to_bytes returns two bytes
    and the decoder of the test client recovers the code from them. *)
Theorem stored_codes_encode (m : DTCManager) (d : DiagnosticTroubleCode) :
  reachable m -> In d (dtcs m) ->
  exists b1 b2, to_bytes d = Ok [b1; b2]
                /\ decode_dtc (b2z b1) (b2z b2) = code d.
Proof.
  intros Hr Hd. apply entry_encodes.
  destruct (reachable_ok m Hr) as (_ & _ & H). exact (H d Hd).
Qed.

Lemma stored_codes_encode_witness :
  exists b1 b2,
    to_bytes {| code := "P0420";
                description := "Catalyst System Efficiency Below Threshold (Bank 1)";
                state := PENDING; detection_count := 1; first_detected := 0;
                last_detected := 0; freeze_frame := Some (capture new_SensorData 0);
                mil_illuminate := true; is_emission_related := true |}
    = Ok [b1; b2]
    /\ decode_dtc (b2z b1) (b2z b2) = "P0420"%string.
Proof.
  apply (stored_codes_encode
           (fold_left step [Inject "P0420" new_SensorData true 0] new_DTCManager)).
  - eexists. reflexivity.
  - vm_compute. left. reflexivity.
Defined.

(** X16.  to_bytes on a code that does not have five characters: the empty
    code raises IndexError, every other such code is encoded as 00 00, the
    bytes of P0000. *)
Theorem to_bytes_wrong_length (d : DiagnosticTroubleCode) :
  String.length (code d) <> 5%nat ->
  to_bytes d = match code d with
               | EmptyString => Raise IndexError
               | _ => Ok [Byte.x00; Byte.x00]
               end.
Proof.
  intros Hl. unfold to_bytes. destruct (code d) as [|c r] eqn:E.
  - reflexivity.
  - cbn [str_index String.get rbind str_tail].
    cbn [String.length] in Hl.
    destruct (Nat.eqb_spec (String.length r) 4) as [H4|_]; [lia|].
    reflexivity.
Qed.

Lemma to_bytes_wrong_length_witness :
  to_bytes (new_DTC "P04200" "" 0) = Ok [Byte.x00; Byte.x00].
Proof.
  apply (to_bytes_wrong_length (new_DTC "P04200" "" 0)). cbn. lia.
Defined.
End DTCMore.

(* --------------------------------------------------------------------- *)
(*  lib/obd_services.py: the answers of modes 01, 03, 07, 09, 0A         *)
(* --------------------------------------------------------------------- *)

Module OBDMore.
Import PyFacts Vehicle DTC DTCSpec DTCLife OBD OBDSpec OBDRange DTCProofs DTCMore.
Import Byte.

(* the accumulation loop of the code-list answers *)
Lemma extend_loop (l : list DiagnosticTroubleCode) :
  Forall (fun d => exists b1 b2, to_bytes d = Ok [b1; b2]) l ->
  forall acc : bytes,
  exists pairs,
    fold_left (fun acc dtc => let* response := acc in
                              let* b := to_bytes dtc in Ok (response ++ b))
      l (Ok acc) = Ok (acc ++ concat pairs)
    /\ Forall2 (fun d p => to_bytes d = Ok p /\ length p = 2%nat) l pairs.
Proof.
  induction 1 as [|d l [b1 [b2 Hd]] Hl IH]; intros acc.
  - exists []. cbn. rewrite app_nil_r. split; [reflexivity|constructor].
  - cbn [fold_left rbind]. rewrite Hd. cbn [rbind].
    destruct (IH (acc ++ [b1; b2])) as [pairs [E F]].
    exists ([b1; b2] :: pairs). split.
    + rewrite E. cbn [concat]. rewrite <- app_assoc. reflexivity.
    + constructor; [split; [exact Hd|reflexivity]|exact F].
Qed.

Lemma dtc_list_response_ok (sid : Z) (sb : byte) (l : list DiagnosticTroubleCode) :
  z2b sid = Ok sb ->
  (length l < 256)%nat ->
  Forall (fun d => exists b1 b2, to_bytes d = Ok [b1; b2]) l ->
  exists n pairs,
    dtc_list_response sid l = Ok (sb :: n :: concat pairs)
    /\ b2z n = len l
    /\ Forall2 (fun d p => to_bytes d = Ok p /\ length p = 2%nat) l pairs.
Proof.
  intros Hs Hlen Hall. unfold dtc_list_response.
  destruct l as [|d l'] eqn:El.
  - exists x00, []. cbn [bytes_of]. rewrite Hs. cbn.
    split; [reflexivity|]. split; [reflexivity|constructor].
  - rewrite <- El in *. clear El.
    destruct (z2b_ok (len l)) as [n [En Bn]]; [unfold len; lia|].
    cbn [bytes_of]. rewrite Hs, En. cbn [rbind].
    destruct (extend_loop l Hall [sb; n]) as [pairs [E F]].
    exists n, pairs. rewrite E. split; [reflexivity|]. split; assumption.
Qed.

Lemma length_filter_le {A} (P : A -> bool) (l : list A) :
  (length (List.filter P l) <= length l)%nat.
Proof.
  induction l as [|x l IH]; cbn; [lia|]. destruct (P x); cbn; lia.
Qed.

Lemma length_filter_disjoint {A} (P Q : A -> bool) (l : list A) :
  (forall x, P x = true -> Q x = false) ->
  (length (List.filter P l) + length (List.filter Q l) <= length l)%nat.
Proof.
  intros H. induction l as [|x l IH]; cbn; [lia|].
  destruct (P x) eqn:Ep.
  - rewrite (H x Ep). cbn. lia.
  - destruct (Q x); cbn; lia.
Qed.

(* a manager never holds more entries than the catalog has codes *)
Lemma reachable_size m : reachable m -> (length (dtcs m) <= 33)%nat.
Proof.
  intros Hr. destruct (reachable_ok m Hr) as (_ & Hu & Hok).
  change 33%nat with (length (map fst DTC_DEFINITIONS)).
  rewrite <- (length_map code).
  apply List.NoDup_incl_length; [exact Hu|].
  intros c Hc. apply in_map_iff in Hc as [d [<- Hd]].
  destruct (Hok d Hd) as (Hdef & _). apply definition_of_in_key in Hdef.
  apply in_map_iff. eexists. split; [|exact Hdef]. reflexivity.
Qed.

Lemma reachable_filter_encodes m (P : DiagnosticTroubleCode -> bool) :
  reachable m ->
  Forall (fun d => exists b1 b2, to_bytes d = Ok [b1; b2]) (List.filter P (dtcs m)).
Proof.
  intros Hr. destruct (reachable_ok m Hr) as (_ & _ & Hok).
  apply List.Forall_forall. intros d Hd. apply filter_In in Hd as [Hd _].
  destruct (entry_encodes d (Hok d Hd)) as [b1 [b2 [E _]]]. eauto.
Qed.

(** X17.  The code-list answers of modes 03, 07 and 0A.  On a manager reached
    from DTCManager() none of the three raises; each answer is the response
    id, one count byte and two bytes per listed code, in the order of the
    list: mode 03 lists the confirmed codes and then the permanent ones and
    its count byte is get_dtc_count, mode 07 lists the pending codes, mode
    0A the permanent ones. *)
Theorem dtc_list_modes (self : OBDServiceHandler) (request : bytes) :
  reachable (dtc_manager self) ->
  let m := dtc_manager self in
  (exists n pairs,
     _mode_03_read_dtcs self request = Ok (x43 :: n :: concat pairs)
     /\ b2z n = get_dtc_count m
     /\ Forall2 (fun d p => to_bytes d = Ok p /\ length p = 2%nat)
          (get_confirmed_dtcs m ++ get_permanent_dtcs m) pairs)
  /\ (exists n pairs,
        _mode_07_pending_dtcs self request = Ok (x47 :: n :: concat pairs)
        /\ b2z n = len (get_pending_dtcs m)
        /\ Forall2 (fun d p => to_bytes d = Ok p /\ length p = 2%nat)
             (get_pending_dtcs m) pairs)
  /\ (exists n pairs,
        _mode_0A_permanent_dtcs self request = Ok (x4a :: n :: concat pairs)
        /\ b2z n = len (get_permanent_dtcs m)
        /\ Forall2 (fun d p => to_bytes d = Ok p /\ length p = 2%nat)
             (get_permanent_dtcs m) pairs).
Proof.
  intros Hr m. pose proof (reachable_size _ Hr) as Hsz. fold m in Hsz.
  split; [|split].
  - unfold _mode_03_read_dtcs. fold m.
    destruct (dtc_list_response_ok 0x43 x43
                (get_confirmed_dtcs m ++ get_permanent_dtcs m) eq_refl)
      as [n [pairs [E [Hn F]]]].
    + rewrite length_app.
      pose proof (length_filter_disjoint
                    (fun dtc => DTCState_eqb (state dtc) CONFIRMED)
                    (fun dtc => DTCState_eqb (state dtc) PERMANENT) (dtcs m)) as H.
      unfold get_confirmed_dtcs, get_permanent_dtcs, get_dtcs_by_state.
      specialize (H ltac:(intros x; cbv beta; destruct (state x); cbn; congruence)). lia.
    + apply Forall_app. split; apply reachable_filter_encodes; exact Hr.
    + exists n, pairs. split; [exact E|]. split; [|exact F].
      rewrite Hn. unfold get_dtc_count, len. rewrite length_app. lia.
  - unfold _mode_07_pending_dtcs. fold m.
    apply dtc_list_response_ok; [reflexivity| |apply reachable_filter_encodes; exact Hr].
    pose proof (length_filter_le (fun dtc => DTCState_eqb (state dtc) PENDING)
                  (dtcs m)).
    unfold get_pending_dtcs, get_dtcs_by_state. lia.
  - unfold _mode_0A_permanent_dtcs. fold m.
    apply dtc_list_response_ok; [reflexivity| |apply reachable_filter_encodes; exact Hr].
    pose proof (length_filter_le (fun dtc => DTCState_eqb (state dtc) PERMANENT)
                  (dtcs m)).
    unfold get_permanent_dtcs, get_dtcs_by_state. lia.
Qed.

Lemma dtc_list_modes_witness :
  let m := fold_left step [Inject "P0420" new_SensorData true 0;
                           Inject "P0420" new_SensorData true 1;
                           Inject "P0100" new_SensorData true 2]
             new_DTCManager in
  exists n pairs,
    _mode_03_read_dtcs (new_OBDServiceHandler new_vehicle m) [x03; x00]
    = Ok (x43 :: n :: concat pairs)
    /\ b2z n = get_dtc_count m
    /\ Forall2 (fun d p => to_bytes d = Ok p /\ length p = 2%nat)
         (get_confirmed_dtcs m ++ get_permanent_dtcs m) pairs.
Proof.
  intros m.
  refine (proj1 (dtc_list_modes (new_OBDServiceHandler new_vehicle m)
                   [x03; x00] _)).
  eexists. reflexivity.
Defined.

Lemma byte_a_check :
  forallb (fun n =>
             let a := Z.lor 0x80 n in
             (0 <=? a) && (a <? 256) && Z.testbit a 7 && (Z.land a 0x7F =? n)
             && negb (Z.testbit n 7) && (Z.land n 0x7F =? n))
          (map Z.of_nat (seq 0 128)) = true.
Proof. vm_compute. reflexivity. Qed.

Lemma get_dtc_count_nonneg m : 0 <= get_dtc_count m.
Proof. unfold get_dtc_count, len. lia. Qed.

(** X18.  PID 01 never raises.  Its answer is 41 01 A B C D where bit 7 of A
    is the MIL flag and the low seven bits are the number of confirmed and
    permanent codes, capped at 127; in B, C and D a set bit means a monitor
    that has not completed, and bit 3 of C (secondary air) is always set,
    whatever the drive cycle says about that monitor. *)
Theorem monitor_status_bytes (self : OBDServiceHandler) :
  let dc := get_drive_cycle (vehicle self) in
  let bit (done : bool) (v : Z) := if done then 0 else v in
  exists a b c d,
    monitor_status self = Ok [x41; x01; a; b; c; d]
    /\ Z.testbit (b2z a) 7 = is_mil_on (dtc_manager self)
    /\ Z.land (b2z a) 0x7F = Z.min 127 (get_dtc_count (dtc_manager self))
    /\ b2z b = bit (misfire_monitor_complete dc) 1
               + bit (fuel_system_monitor_complete dc) 2
               + bit (component_monitor_complete dc) 4
    /\ b2z c = bit (catalyst_monitor_complete dc) 1
               + bit (heated_catalyst_monitor_complete dc) 2
               + bit (evap_system_monitor_complete dc) 4 + 8
    /\ b2z d = bit (oxygen_sensor_monitor_complete dc) 1
               + bit (oxygen_sensor_heater_complete dc) 2
               + bit (egr_system_monitor_complete dc) 4.
Proof.
  intros dc bit. unfold monitor_status. fold dc.
  set (n := Z.min 127 (get_dtc_count (dtc_manager self))).
  assert (Hn : 0 <= n <= 127)
    by (subst n; pose proof (get_dtc_count_nonneg (dtc_manager self)); lia).
  pose proof byte_a_check as Hc. rewrite forallb_forall in Hc.
  specialize (Hc n). cbv zeta in Hc.
  assert (Hin : In n (map Z.of_nat (seq 0 128))).
  { apply in_map_iff. exists (Z.to_nat n). split; [lia|]. apply in_seq. lia. }
  specialize (Hc Hin).
  repeat (apply andb_true_iff in Hc as [Hc ?]).
  repeat match goal with
         | H' : (_ <=? _) = true |- _ => apply Z.leb_le in H'
         | H' : (_ <? _) = true |- _ => apply Z.ltb_lt in H'
         | H' : (_ =? _) = true |- _ => apply Z.eqb_eq in H'
         | H' : negb _ = true |- _ => apply negb_true_iff in H'
         end.
  set (byte_a := Z.lor (if is_mil_on (dtc_manager self) then 128 else 0) n).
  assert (Ha : exists a, z2b byte_a = Ok a
                         /\ Z.testbit (b2z a) 7 = is_mil_on (dtc_manager self)
                         /\ Z.land (b2z a) 0x7F = n).
  { subst byte_a. destruct (is_mil_on (dtc_manager self)).
    - destruct (z2b_ok (Z.lor 128 n)) as [a [Ea Ba]]; [lia|].
      exists a. rewrite Ba. auto.
    - rewrite Z.lor_0_l. destruct (z2b_ok n) as [a [Ea Ba]]; [lia|].
      exists a. rewrite Ba. auto. }
  destruct Ha as [a [Ea [Ha1 Ha2]]].
  cbn [bytes_of]. change (z2b 65) with (@Ok byte x41).
  change (z2b 1) with (@Ok byte x01). rewrite Ea. cbn [rbind].
  destruct (misfire_monitor_complete dc), (fuel_system_monitor_complete dc),
    (component_monitor_complete dc), (catalyst_monitor_complete dc),
    (heated_catalyst_monitor_complete dc), (evap_system_monitor_complete dc),
    (oxygen_sensor_monitor_complete dc), (oxygen_sensor_heater_complete dc),
    (egr_system_monitor_complete dc);
    (eexists a, _, _, _; split; [reflexivity|];
     split; [exact Ha1|]; split; [exact Ha2|]; split; [reflexivity|];
     split; reflexivity).
Qed.

Lemma z2b_raise (v : Z) : v < 0 \/ 256 <= v -> z2b v = Raise ValueError.
Proof.
  intros H. unfold z2b. destruct (Z.ltb_spec v 0) as [_|Hv]; [reflexivity|].
  destruct (Byte.of_N (Z.to_N v)) as [b|] eqn:E; [|reflexivity].
  exfalso. apply Byte.to_of_N in E. pose proof (Byte.to_N_bounded b). lia.
Qed.

(* the way from the dispatcher into mode 01 *)
Lemma process_mode_01 (self : OBDServiceHandler) (pid : byte) (rest : bytes) :
  process self (x01 :: pid :: rest)
  = (let* b := _mode_01_current_data self (x01 :: pid :: rest) in Ok (Some b),
     self).
Proof.
  unfold process.
  replace (len (x01 :: pid :: rest) <? 2) with false
    by (symmetry; apply Z.ltb_ge; unfold len; cbn [length]; lia).
  reflexivity.
Qed.

Ltac enter_mode_01 :=
  rewrite process_mode_01; unfold _mode_01_current_data;
  match goal with
  | |- context [len (?a :: ?b :: ?r) <? 2] =>
      replace (len (a :: b :: r) <? 2) with false
        by (symmetry; apply Z.ltb_ge; unfold len; cbn [length]; lia)
  end;
  cbn [index lookup list_lookup rbind].

(* int() raises on NaN and on the infinities only *)
Lemma int_of_float_raise (x : float) (e : exn) :
  int_of_float x = Raise e ->
  (Prim2SF x = S754_nan /\ e = ValueError)
  \/ (exists s, Prim2SF x = S754_infinity s /\ e = OverflowError).
Proof.
  unfold int_of_float. destruct (Prim2SF x) as [s|s| |s m ex]; try discriminate.
  - intros [= <-]. right. exists s. split; reflexivity.
  - intros [= <-]. left. split; reflexivity.
Qed.

(** X19.  PID 05 (coolant temperature) is not clamped.  With T the coolant
    reading: when int(T + 40) fits a byte the answer is 41 05 int(T + 40);
    when it is negative or above 255, bytes() raises ValueError; and when
    T + 40 is NaN or infinite, int() itself raises (ValueError, resp.
    OverflowError).  Every exception leaves process, with the handler
    unchanged. *)
Theorem coolant_pid_unclamped (self : OBDServiceHandler) (rest : bytes) :
  let t := (coolant_temp (get_sensor_data (vehicle self)) + 40)%float in
  match int_of_float t with
  | Ok v =>
      (0 <= v < 256 ->
       exists b, process self (x01 :: x05 :: rest)
                 = (Ok (Some [x41; x05; b]), self)
                 /\ b2z b = v)
      /\ (v < 0 \/ 256 <= v ->
          process self (x01 :: x05 :: rest) = (Raise ValueError, self))
  | Raise e =>
      process self (x01 :: x05 :: rest) = (Raise e, self)
      /\ ((Prim2SF t = S754_nan /\ e = ValueError)
          \/ (exists s, Prim2SF t = S754_infinity s /\ e = OverflowError))
  end.
Proof.
  intros t. destruct (int_of_float t) as [v|e] eqn:E.
  - split; intros Hv; enter_mode_01;
      change (b2z x05) with 5; cbn [Z.eqb Pos.eqb]; fold t; rewrite E;
      cbn [rbind bytes_of].
    + destruct (z2b_ok v Hv) as [b [Eb Bb]]. exists b. rewrite Eb.
      split; [reflexivity|exact Bb].
    + rewrite (z2b_raise v Hv). reflexivity.
  - split; [|exact (int_of_float_raise t e E)].
    enter_mode_01. change (b2z x05) with 5. cbn [Z.eqb Pos.eqb]. fold t.
    rewrite E. reflexivity.
Qed.

Lemma clamp_byte (v : Z) :
  exists b, z2b (Z.max 0 (Z.min 255 v)) = Ok b
            /\ b2z b = Z.max 0 (Z.min 255 v).
Proof. apply z2b_ok. lia. Qed.

(** X20.  The fuel-trim PIDs 06 and 07 and the timing-advance PID 0E clamp
    the integer to 0..255 after int() and before bytes().  With x the scaled
    reading, a float: when x is finite the answer is
    41 pid max(0, min(255, int(x))), however large or negative x is, and
    nothing raises; when x is NaN or infinite, int(x) raises before the
    clamp is reached (ValueError, resp. OverflowError) and the exception
    leaves process. *)
Theorem clamped_pids (self : OBDServiceHandler) (rest : bytes)
    (pid : byte) (x : float) :
  let s := get_sensor_data (vehicle self) in
  In (pid, x)
     [(x06, ((short_term_fuel_trim s + 100) * 128 / 100)%float);
      (x07, ((long_term_fuel_trim s + 100) * 128 / 100)%float);
      (x0e, ((timing_advance s + 64) * 2)%float)] ->
  match int_of_float x with
  | Ok v =>
      exists b, process self (x01 :: pid :: rest)
                = (Ok (Some [x41; pid; b]), self)
                /\ b2z b = Z.max 0 (Z.min 255 v)
  | Raise e =>
      process self (x01 :: pid :: rest) = (Raise e, self)
      /\ ((Prim2SF x = S754_nan /\ e = ValueError)
          \/ (exists sg, Prim2SF x = S754_infinity sg /\ e = OverflowError))
  end.
Proof.
  intros s Hin. cbn [In] in Hin.
  repeat (destruct Hin as [Hin|Hin]; [injection Hin as <- <-|]);
    try contradiction;
    match goal with
    | |- match int_of_float ?y with _ => _ end =>
        destruct (int_of_float y) as [v|e] eqn:E
    end;
    try (split; [|exact (int_of_float_raise _ e E)]);
    try (destruct (clamp_byte v) as [b [Eb Bb]]; exists b;
         split; [|exact Bb]);
    enter_mode_01; fold s;
    match goal with
    | |- context [b2z ?p =? _] =>
        let n := eval vm_compute in (b2z p) in change (b2z p) with n
    end; cbn [Z.eqb Pos.eqb]; rewrite E; cbn [rbind bytes_of];
    rewrite ?Eb; reflexivity.
Qed.

Lemma clamped_pids_witness :
  exists b,
    process (new_OBDServiceHandler new_vehicle new_DTCManager) [x01; x06]
    = (Ok (Some [x41; x06; b]),
       new_OBDServiceHandler new_vehicle new_DTCManager)
    /\ b2z b = Z.max 0 (Z.min 255 128).
Proof.
  exact (clamped_pids (new_OBDServiceHandler new_vehicle new_DTCManager) []
           x06 ((0 + 100) * 128 / 100)%float (or_introl eq_refl)).
Defined.

Lemma hi_lo_value (v : Z) :
  256 * Z.land (Z.shiftr v 8) 0xFF + Z.land v 0xFF = v mod 65536.
Proof.
  change 0xFF with (Z.ones 8). rewrite !Z.land_ones by lia.
  rewrite Z.shiftr_div_pow2 by lia.
  change (2 ^ 8) with 256. change 65536 with (256 * 256).
  rewrite Z.rem_mul_r by lia. lia.
Qed.

Lemma hi_lo_bytes (a b : Z) (ab bb : byte) (v : Z) :
  z2b a = Ok ab -> z2b b = Ok bb ->
  exists h l, bytes_of ([a; b] ++ hi_lo v) = Ok [ab; bb; h; l]
              /\ 256 * b2z h + b2z l = v mod 65536.
Proof.
  intros Ha Hb. unfold hi_lo. cbn [app bytes_of]. rewrite Ha, Hb.
  destruct (z2b_ok _ (land_255_range (Z.shiftr v 8))) as [h [Eh Bh]].
  destruct (z2b_ok _ (land_255_range v)) as [l [El Bl]].
  rewrite Eh, El. cbn [rbind]. exists h, l. split; [reflexivity|].
  rewrite Bh, Bl. apply hi_lo_value.
Qed.

(** X21.  The two-byte PIDs 0C, 10, 1F, 21, 23, 31 and 42 mask the integer
    to 16 bits.  With x the scaled reading, a float: when x is finite the
    answer is 41 pid hi lo with 256 * hi + lo = int(x) mod 65536, so a value
    of 65536 or more, or a negative one, wraps around silently and nothing
    raises; when x is NaN or infinite, int(x) raises (ValueError, resp.
    OverflowError) and the exception leaves process. *)
Theorem two_byte_pids_wrap (self : OBDServiceHandler) (rest : bytes)
    (pid : byte) (x : float) :
  let s := get_sensor_data (vehicle self) in
  In (pid, x)
     [(x0c, (rpm s * 4)%float);
      (x10, (maf s * 100)%float);
      (x1f, engine_runtime s);
      (x21, distance_with_mil s);
      (x23, (fuel_pressure s * 10)%float);
      (x31, distance_since_clear s);
      (x42, (battery_voltage s * 1000)%float)] ->
  match int_of_float x with
  | Ok v =>
      exists h l,
        process self (x01 :: pid :: rest) = (Ok (Some [x41; pid; h; l]), self)
        /\ 256 * b2z h + b2z l = v mod 65536
  | Raise e =>
      process self (x01 :: pid :: rest) = (Raise e, self)
      /\ ((Prim2SF x = S754_nan /\ e = ValueError)
          \/ (exists sg, Prim2SF x = S754_infinity sg /\ e = OverflowError))
  end.
Proof.
  intros s Hin. cbn [In] in Hin.
  repeat (destruct Hin as [Hin|Hin]; [injection Hin as <- <-|]);
    try contradiction;
    match goal with
    | |- match int_of_float ?y with _ => _ end =>
        destruct (int_of_float y) as [v|e] eqn:E
    end;
    try (split; [|exact (int_of_float_raise _ e E)]);
    try (match goal with
         | |- exists h l, process _ (_ :: ?p :: _) = _ /\ _ =>
             let n := eval vm_compute in (b2z p) in
             destruct (hi_lo_bytes 0x41 n x41 p v eq_refl eq_refl)
               as [h [l [Eb Hv]]]; exists h, l; split; [|exact Hv]
         end);
    enter_mode_01; fold s;
    match goal with
    | |- context [b2z ?p =? _] =>
        let n := eval vm_compute in (b2z p) in change (b2z p) with n
    end; cbn [Z.eqb Pos.eqb]; rewrite E; cbn [rbind];
    rewrite ?Eb; reflexivity.
Qed.

Lemma two_byte_pids_wrap_witness :
  int_of_float 70000 = Ok 70000 /\
  exists h l,
    process (new_OBDServiceHandler (vehicle_reading 0 70000) new_DTCManager)
      [x01; x1f]
    = (Ok (Some [x41; x1f; h; l]),
       new_OBDServiceHandler (vehicle_reading 0 70000) new_DTCManager)
    /\ 256 * b2z h + b2z l = 70000 mod 65536.
Proof.
  split; [reflexivity|].
  exact (two_byte_pids_wrap
           (new_OBDServiceHandler (vehicle_reading 0 70000) new_DTCManager) []
           x1f 70000%float
           (or_intror (or_intror (or_introl eq_refl)))).
Defined.

(* products that are not binary64 values are rounded as Python rounds them:
   a mass air flow of 1.38 g/s is reported as 138 (00 8A), and an infinite
   speed makes PID 0D raise OverflowError *)
Example float_readings :
  process (new_OBDServiceHandler (vehicle_reading 1.38 0) new_DTCManager)
    [x01; x10]
  = (Ok (Some [x41; x10; x00; x8a]),
     new_OBDServiceHandler (vehicle_reading 1.38 0) new_DTCManager)
  /\ int_of_float infinity = Raise OverflowError
  /\ int_of_float nan = Raise ValueError
  /\ int_of_float (-1.99) = Ok (-1).
Proof. repeat split; vm_compute; reflexivity. Qed.

Lemma length_ljust (n : nat) (b : bytes) :
  (length b <= n)%nat -> length (ljust n b) = n.
Proof.
  intros H. unfold ljust. rewrite length_app, repeat_length. lia.
Qed.

(** X22.  Mode 09 PID 02 always answers 49 02 01 followed by exactly 17
    bytes: the ASCII bytes of the configured VIN, cut after 17 characters or
    padded with NUL bytes; a VIN with a non-ASCII character raises
    UnicodeEncodeError instead. *)
Theorem vin_answer_has_17_bytes (self : OBDServiceHandler) (rest : bytes) :
  match encode_ascii (vin self) with
  | Ok e =>
      exists v,
        process self (x09 :: x02 :: rest)
        = (Ok (Some (x49 :: x02 :: x01 :: v)), self)
        /\ length v = 17%nat
        /\ v = take 17 e ++ zeros (17 - length e)
  | Raise _ =>
      process self (x09 :: x02 :: rest) = (Raise UnicodeEncodeError, self)
  end.
Proof.
  assert (Hexn : forall s e, encode_ascii s = Raise e -> e = UnicodeEncodeError).
  { induction s as [|c r IH]; cbn; [discriminate|].
    destruct (N_of_ascii c <? 128)%N; [|intros e [= <-]; reflexivity].
    destruct (encode_ascii r); cbn; [discriminate|].
    intros e' [= <-]. apply IH. reflexivity. }
  unfold process.
  replace (len (x09 :: x02 :: rest) <? 2) with false
    by (symmetry; apply Z.ltb_ge; unfold len; cbn [length]; lia).
  cbn [index lookup list_lookup]. change (b2z x09) with 9.
  cbn [Z.eqb Pos.eqb]. unfold _mode_09_vehicle_info.
  replace (len (x09 :: x02 :: rest) <? 2) with false
    by (symmetry; apply Z.ltb_ge; unfold len; cbn [length]; lia).
  cbn [index lookup list_lookup rbind]. change (b2z x02) with 2.
  cbn [Z.eqb Pos.eqb].
  destruct (encode_ascii (vin self)) as [e|ex] eqn:E; cbn [rbind].
  - exists (ljust 17 (take 17 e)). split; [reflexivity|]. split.
    + apply length_ljust. rewrite length_take. lia.
    + unfold ljust, zeros. rewrite length_take. f_equal. f_equal. lia.
  - rewrite (Hexn _ _ E). reflexivity.
Qed.

(** X23.  Only mode 04 changes anything: for every request whose first byte
    is not 04, process leaves the handler (vehicle, codes, MIL, identity
    strings) exactly as it was; and a request of two bytes or more for a
    mode outside 01-04 and 06-0A is answered 7F <mode> 11. *)
Theorem only_mode_04_writes (self : OBDServiceHandler) (request : bytes) :
  index request 0 <> Ok 4 ->
  snd (process self request) = self
  /\ (2 <= len request ->
      forall mode, index request 0 = Ok mode ->
        ~ In mode [1; 2; 3; 4; 6; 7; 8; 9; 10] ->
        exists mb, z2b mode = Ok mb
                   /\ process self request = (Ok (Some [x7f; mb; x11]), self)).
Proof.
  intros H4. split.
  - unfold process. destruct (len request <? 2); [reflexivity|].
    destruct (index request 0) as [mode|e]; [|reflexivity].
    destruct (Z.eqb_spec mode 4) as [->|_]; [congruence|].
    repeat match goal with
           | |- context [if ?b then _ else _] => destruct b
           end; reflexivity.
  - intros Hlen mode Hm Hnot. unfold process.
    replace (len request <? 2) with false by (symmetry; apply Z.ltb_ge; lia).
    rewrite Hm. cbn [In] in Hnot.
    repeat match goal with
           | |- context [mode =? ?k] =>
               destruct (Z.eqb_spec mode k) as [->|_]; [exfalso; tauto|]
           end.
    assert (Hb : exists mb, z2b mode = Ok mb).
    { unfold index in Hm. destruct (request !! 0%nat) as [b|]; [|discriminate].
      injection Hm as <-. exists b. apply z2b_b2z. }
    destruct Hb as [mb Emb]. exists mb. split; [exact Emb|].
    cbn [bytes_of]. rewrite Emb. reflexivity.
Qed.

Lemma only_mode_04_writes_witness :
  snd (process (new_OBDServiceHandler new_vehicle new_DTCManager) [x05; x00])
  = new_OBDServiceHandler new_vehicle new_DTCManager.
Proof.
  refine (proj1 (only_mode_04_writes
                   (new_OBDServiceHandler new_vehicle new_DTCManager)
                   [x05; x00] _)).
  vm_compute. discriminate.
Defined.
End OBDMore.

(* --------------------------------------------------------------------- *)
(*  lib/uds_services.py: security, identifiers, tester present, replies  *)
(* --------------------------------------------------------------------- *)

Module UDSMore.
Import PyFacts Vehicle DTC DTCSpec UDS UDSSpec UDSShape UDSProofs.
Import Byte.

Lemma check_timeout_alive self service now :
  session_alive self now -> check_session_timeout self service now = self.
Proof.
  intros [Hd|Ht]; unfold check_session_timeout.
  - rewrite Hd. cbn. destruct (service =? 62); reflexivity.
  - destruct (Z.gtb_spec (now - session_start_time self) (session_timeout self));
      [lia|]. split_branches; reflexivity.
Qed.

(** X24.  The whole seed and key exchange.  A locked handler that has not
    used up its attempts answers 27 01 with 67 01 and four seed bytes; any
    four key bytes whose big-endian value is that of the seed bytes XOR
    0x12345678, sent with 27 02 at any later time, are answered 67 02 and
    leave the handler at LEVEL_1 with the attempt counter at 0 and the seed
    used up. *)
Theorem seed_then_key_unlocks (h : UDSServiceHandler) (now rnd : Z) :
  security_level h = LOCKED ->
  security_attempts h < max_security_attempts h ->
  exists s1 s2 s3 s4,
    fst (process h [x27; x01] now rnd) = Ok (Some [x67; x01; s1; s2; s3; s4])
    /\ forall (k1 k2 k3 k4 : byte) (rest : bytes) (now' rnd' : Z),
         int_from_bytes [k1; k2; k3; k4]
         = Z.lxor (int_from_bytes [s1; s2; s3; s4]) 0x12345678 ->
         let r := process (snd (process h [x27; x01] now rnd))
                    (x27 :: x02 :: k1 :: k2 :: k3 :: k4 :: rest) now' rnd' in
         fst r = Ok (Some [x67; x02])
         /\ security_level (snd r) = LEVEL_1
         /\ security_attempts (snd r) = 0
         /\ current_seed (snd r) = None.
Proof.
  intros Hl Ha.
  set (seed := randint 0x10000000 0xFFFFFFFF rnd).
  assert (Hseed : 0 <= seed < 2 ^ 32).
  { pose proof (randint_range 0x10000000 0xFFFFFFFF rnd ltac:(lia)).
    fold seed in H. change (2 ^ 32) with 4294967296. lia. }
  destruct (int_to_bytes4_roundtrip seed Hseed) as [s1 [s2 [s3 [s4 [Eb Ei]]]]].
  exists s1, s2, s3, s4.
  set (h' := check_session_timeout h 39 now).
  assert (E1 : process h [x27; x01] now rnd
               = (Ok (Some [x67; x01; s1; s2; s3; s4]),
                  set_security LOCKED (Some seed) (security_attempts h) h')).
  { rewrite process_cons. cbv zeta. change (b2z x27) with 39.
    cbn [Z.eqb Pos.eqb]. fold h'.
    pose proof (check_timeout_locked h 39 now Hl) as Hl'. fold h' in Hl'.
    destruct (check_timeout_frame h 39 now) as (_ & Hat & Hmx).
    fold h' in Hat, Hmx.
    unfold _service_27_security_access.
    change (len [x27; x01] <? 2) with false.
    change (at_ [x27; x01] 1) with (@Ok Z 1). cbv iota.
    change (1 mod 2 =? 1) with true. cbv iota.
    rewrite Hl', Hat, Hmx.
    change (SecurityLevel_value LOCKED >=? (1 + 1) / 2) with false. cbv iota.
    destruct (Z.geb_spec (security_attempts h) (max_security_attempts h)); [lia|].
    fold seed. rewrite Eb. reflexivity. }
  rewrite E1. cbn [fst snd]. split; [reflexivity|].
  intros k1 k2 k3 k4 rest now' rnd' Hk. cbv zeta.
  rewrite process_cons. cbv zeta. change (b2z x27) with 39.
  cbn [Z.eqb Pos.eqb].
  set (h1 := check_session_timeout _ 39 now').
  assert (Hs : current_seed h1 = Some seed).
  { subst h1. destruct (check_timeout_tables
                          (set_security LOCKED (Some seed) (security_attempts h) h')
                          39 now') as (-> & _). reflexivity. }
  rewrite (key_request_shape h1 x02 k1 k2 k3 k4 rest rnd' seed Hs eq_refl).
  rewrite Hk, Ei, Z.eqb_refl.
  change (SecurityLevel_of (b2z x02 / 2)) with (@Ok SecurityLevel LEVEL_1).
  cbn. repeat split.
Qed.

Lemma seed_then_key_unlocks_witness :
  exists s1 s2 s3 s4,
    fst (process blank_handler [x27; x01] 0 0)
    = Ok (Some [x67; x01; s1; s2; s3; s4])
    /\ forall (k1 k2 k3 k4 : byte) (rest : bytes) (now' rnd' : Z),
         int_from_bytes [k1; k2; k3; k4]
         = Z.lxor (int_from_bytes [s1; s2; s3; s4]) 0x12345678 ->
         let r := process (snd (process blank_handler [x27; x01] 0 0))
                    (x27 :: x02 :: k1 :: k2 :: k3 :: k4 :: rest) now' rnd' in
         fst r = Ok (Some [x67; x02])
         /\ security_level (snd r) = LEVEL_1
         /\ security_attempts (snd r) = 0
         /\ current_seed (snd r) = None.
Proof.
  apply (seed_then_key_unlocks blank_handler 0 0).
  - reflexivity.
  - simpl. lia.
Defined.

Lemma service_2E_dids self request :
  dom (dids (snd (_service_2E_write_data_by_id self request))) = dom (dids self)
  /\ (security_level self = LOCKED ->
      dids (snd (_service_2E_write_data_by_id self request)) = dids self).
Proof.
  unfold _service_2E_write_data_by_id.
  destruct (len request <? 4); [split; reflexivity|].
  destruct (security_level self) eqn:Es; cbn [SecurityLevel_eqb SecurityLevel_value Z.eqb];
    [split; reflexivity| |].
  all: match goal with
       | |- context [match ?x with Ok _ => _ | Raise _ => _ end] => destruct x as [[r1 r2]|]
       end; [|split; [reflexivity|discriminate]].
  all: destruct (dids self !! Z.lor (Z.shiftl r1 8) r2) eqn:El;
    cbn [snd dids set_tables]; (split; [|discriminate]);
    [apply dom_insert_lookup_L; rewrite El; eauto|reflexivity].
Qed.

Lemma other_services_dids self request now rnd :
  dids (snd (_service_10_diagnostic_session self request now)) = dids self
  /\ dids (snd (_service_14_clear_dtc self request)) = dids self
  /\ dids (snd (_service_27_security_access self request rnd)) = dids self
  /\ dids (snd (_service_2F_io_control self request)) = dids self
  /\ dids (snd (_service_31_routine_control self request)) = dids self
  /\ dids (snd (_service_3E_tester_present self request now)) = dids self.
Proof.
  repeat split.
  - unfold _service_10_diagnostic_session. split_branches; reflexivity.
  - unfold _service_14_clear_dtc. split_branches; reflexivity.
  - unfold _service_27_security_access. split_branches; reflexivity.
  - unfold _service_2F_io_control. split_branches; reflexivity.
  - unfold _service_31_routine_control. split_branches; reflexivity.
  - unfold _service_3E_tester_present. split_branches; reflexivity.
Qed.

(** X25.  The identifier table is protected.  No request adds or removes a
    data identifier: the set of DIDs after process is the set before; and
    while the handler is LOCKED no request changes any stored value. *)
Theorem did_table_protected (self : UDSServiceHandler) (request : bytes)
    (now rnd : Z) :
  let self1 := snd (process self request now rnd) in
  dom (dids self1) = dom (dids self)
  /\ (security_level self = LOCKED -> dids self1 = dids self).
Proof.
  intros self1. subst self1.
  destruct request as [|service rest]; [split; reflexivity|].
  rewrite process_cons. cbv zeta.
  set (h := check_session_timeout self (b2z service) now).
  destruct (check_timeout_tables self (b2z service) now) as (_ & Hd & _).
  fold h in Hd.
  pose proof (check_timeout_locked self (b2z service) now) as Hl. fold h in Hl.
  destruct (other_services_dids h (service :: rest) now rnd)
    as (H10 & H14 & H27 & H2F & H31 & H3E).
  destruct (service_2E_dids h (service :: rest)) as [H2Ea H2Eb].
  rewrite <- Hd.
  case_services; cbn [snd];
    rewrite ?H10, ?H14, ?H27, ?H2F, ?H31, ?H3E;
    try (split; [reflexivity|intros; reflexivity]).
  split; [exact H2Ea|]. intros HL. apply H2Eb. apply Hl. exact HL.
Qed.

(** X26.  Write, then read.  For an unlocked handler whose session is not due
    to time out, service 2E on a known DID with at least one data byte is
    answered 6E did, and from then on service 22 on that DID returns exactly
    the bytes written, at any time and in any session. *)
Theorem write_then_read (self : UDSServiceHandler) (r1 r2 d0 : byte)
    (data : bytes) (old : bytes) (now rnd : Z) :
  security_level self <> LOCKED ->
  session_alive self now ->
  dids self !! Z.lor (Z.shiftl (b2z r1) 8) (b2z r2) = Some old ->
  let w := process self (x2e :: r1 :: r2 :: d0 :: data) now rnd in
  fst w = Ok (Some [x6e; r1; r2])
  /\ forall (rest : bytes) (now' rnd' : Z),
       fst (process (snd w) (x22 :: r1 :: r2 :: rest) now' rnd')
       = Ok (Some (x62 :: r1 :: r2 :: d0 :: data)).
Proof.
  intros Hl Ha Hd w. subst w.
  rewrite process_cons. cbv zeta. change (b2z x2e) with 46.
  cbn [Z.eqb Pos.eqb]. rewrite (check_timeout_alive self 46 now Ha).
  assert (Ew : _service_2E_write_data_by_id self (x2e :: r1 :: r2 :: d0 :: data)
               = (Ok (Some [x6e; r1; r2]),
                  set_tables (dtc_manager self) (io_controls self)
                    (active_routines self)
                    (<[Z.lor (Z.shiftl (b2z r1) 8) (b2z r2) := d0 :: data]>
                       (dids self)) self)).
  { unfold _service_2E_write_data_by_id.
    rewrite (len_ge _ 4 4) by (cbn; lia).
    replace (SecurityLevel_eqb (security_level self) LOCKED) with false
      by (destruct (security_level self); [congruence|reflexivity|reflexivity]).
    change (at_ (x2e :: r1 :: r2 :: d0 :: data) 1) with (@Ok Z (b2z r1)).
    change (at_ (x2e :: r1 :: r2 :: d0 :: data) 2) with (@Ok Z (b2z r2)).
    cbn [rbind]. rewrite Hd. cbn [drop].
    change [110; b2z r1; b2z r2] with (map b2z [x6e; r1; r2]).
    rewrite respond_bytes. reflexivity. }
  rewrite Ew. cbn [fst snd]. split; [reflexivity|].
  intros rest now' rnd'.
  rewrite process_cons. cbv zeta. change (b2z x22) with 34.
  cbn [Z.eqb Pos.eqb fst].
  set (h := check_session_timeout _ 34 now').
  assert (Hh : dids h = <[Z.lor (Z.shiftl (b2z r1) 8) (b2z r2) := d0 :: data]>
                          (dids self)).
  { subst h. match goal with
             | |- dids (check_session_timeout ?s _ _) = _ =>
                 destruct (check_timeout_tables s 34 now') as (_ & -> & _)
             end. reflexivity. }
  unfold _service_22_read_data_by_id.
  rewrite (len_ge _ 3 3) by (cbn; lia).
  change (at_ (x22 :: r1 :: r2 :: rest) 1) with (@Ok Z (b2z r1)).
  change (at_ (x22 :: r1 :: r2 :: rest) 2) with (@Ok Z (b2z r2)).
  cbn [rbind]. rewrite Hh, lookup_insert_eq.
  change [98; b2z r1; b2z r2] with (map b2z [x62; r1; r2]).
  rewrite bytes_of_b2z. reflexivity.
Qed.

Lemma write_then_read_witness :
  let self := set_tables new_DTCManager ∅ ∅ (<[0xF190 := [x41]]> ∅)
                (set_security LEVEL_1 None 0 blank_handler) in
  let w := process self [x2e; xf1; x90; x42; x43] 0 0 in
  fst w = Ok (Some [x6e; xf1; x90])
  /\ forall (rest : bytes) (now' rnd' : Z),
       fst (process (snd w) (x22 :: xf1 :: x90 :: rest) now' rnd')
       = Ok (Some [x62; xf1; x90; x42; x43]).
Proof.
  intros self.
  apply (write_then_read self xf1 x90 x42 [x43] [x41] 0 0).
  - simpl. discriminate.
  - left. reflexivity.
  - vm_compute. reflexivity.
Defined.

(** X27.  Tester Present is exempt from the session timeout.  Whatever the
    clock reads, 3E keeps the session and the security level as they are and
    restarts the session timer, so a 3E that comes after the timeout has run
    out revives the session; it is answered 7E 00 for sub-function 00 and is
    given no answer for any other sub-function. *)
Theorem tester_present_keeps_session (self : UDSServiceHandler) (sub : byte)
    (rest : bytes) (now rnd : Z) :
  process self (x3e :: sub :: rest) now rnd
  = (if b2z sub =? 0 then Ok (Some [x7e; x00]) else Ok None,
     set_session (current_session self) now (security_level self) self).
Proof.
  rewrite process_cons. cbv zeta. change (b2z x3e) with 62.
  cbn [Z.eqb Pos.eqb]. unfold check_session_timeout. cbn [Z.eqb Pos.eqb negb].
  unfold _service_3E_tester_present.
  rewrite (len_ge _ 2 2) by (cbn; lia).
  change (at_ (x3e :: sub :: rest) 1) with (@Ok Z (b2z sub)). cbv iota.
  destruct (b2z sub =? 0); reflexivity.
Qed.

Lemma z2b_inv (a : Z) (p : byte) : z2b a = Ok p -> b2z p = a.
Proof.
  unfold z2b. destruct (a <? 0) eqn:E; [discriminate|].
  apply Z.ltb_ge in E.
  destruct (Byte.of_N (Z.to_N a)) as [b|] eqn:Eb; [|discriminate].
  intros [= <-]. unfold b2z. apply Byte.to_of_N in Eb. rewrite Eb. lia.
Qed.

Lemma bytes_of_head (a : Z) (l : list Z) (r : bytes) :
  bytes_of (a :: l) = Ok r -> exists p tail, r = p :: tail /\ b2z p = a.
Proof.
  cbn [bytes_of]. destruct (z2b a) as [p|] eqn:Ea; [|discriminate].
  cbn [rbind]. destruct (bytes_of l) as [t|]; [|discriminate].
  cbn [rbind]. intros [= <-]. exists p, t. split; [reflexivity|].
  apply z2b_inv. exact Ea.
Qed.

Lemma respond_positive (sid a : Z) (l : list Z) (resp : bytes) :
  a = sid + 0x40 ->
  respond (a :: l) = Ok (Some resp) -> well_shaped sid resp.
Proof.
  intros -> H. unfold respond in H.
  destruct (bytes_of (sid + 64 :: l)) as [r|] eqn:E; [|discriminate].
  cbn [rbind] in H. injection H as <-.
  destruct (bytes_of_head _ _ _ E) as [p [t [-> Hp]]].
  right. eauto.
Qed.

Lemma respond_negative (sid nrc : Z) (resp : bytes) :
  _negative_response sid nrc = Ok (Some resp) -> well_shaped sid resp.
Proof.
  unfold _negative_response, respond. cbn [bytes_of].
  change (z2b 127) with (@Ok byte x7f). cbn [rbind].
  destruct (z2b sid) as [s|] eqn:Es; [|discriminate]. cbn [rbind].
  destruct (z2b nrc) as [n|]; [|discriminate]. cbn [rbind].
  intros [= <-]. left. exists s, n. split; [reflexivity|].
  apply z2b_inv. exact Es.
Qed.

(* an accumulation loop never touches the head it started from *)
Lemma extend_keeps_head {A} (f : result bytes -> A -> result bytes) (l : list A) :
  (forall e x, f (Raise e) x = Raise e) ->
  (forall r x r', f (Ok r) x = Ok r' -> exists t, r' = r ++ t) ->
  forall hd r, fold_left f l (Ok hd) = Ok r -> exists t, r = hd ++ t.
Proof.
  intros Hraise Hok. induction l as [|x l IH]; intros hd r; cbn [fold_left].
  - intros [= <-]. exists []. rewrite app_nil_r. reflexivity.
  - destruct (f (Ok hd) x) as [r1|e] eqn:E.
    + intros H. destruct (IH _ _ H) as [t ->].
      destruct (Hok _ _ _ E) as [t1 ->]. exists (t1 ++ t).
      rewrite app_assoc. reflexivity.
    + intros H. exfalso. revert H. clear -Hraise.
      revert e. induction l as [|y l IHl]; intros e; cbn [fold_left].
      * discriminate.
      * rewrite Hraise. apply IHl.
Qed.

Ltac shape_leaves :=
  repeat match goal with
         | |- context [if ?b then _ else _] => destruct b
         | |- context [match ?x with _ => _ end] => destruct x
         end;
  cbn [fst]; intros resp Hr;
  first [ discriminate Hr
        | apply respond_negative in Hr; exact Hr
        | eapply respond_positive in Hr; [exact Hr|reflexivity] ].

Lemma shape_10 self request now resp :
  fst (_service_10_diagnostic_session self request now) = Ok (Some resp) ->
  well_shaped 0x10 resp.
Proof. revert resp. unfold _service_10_diagnostic_session. shape_leaves. Qed.

Lemma shape_14 self request resp :
  fst (_service_14_clear_dtc self request) = Ok (Some resp) ->
  well_shaped 0x14 resp.
Proof. revert resp. unfold _service_14_clear_dtc. shape_leaves. Qed.

Lemma shape_27 self request rnd resp :
  fst (_service_27_security_access self request rnd) = Ok (Some resp) ->
  well_shaped 0x27 resp.
Proof.
  revert resp. unfold _service_27_security_access.
  destruct (len request <? 2); [shape_leaves|].
  destruct (at_ request 1) as [sub|]; [|shape_leaves].
  destruct (sub mod 2 =? 1).
  - destruct (SecurityLevel_value (security_level self) >=? (sub + 1) / 2);
      [shape_leaves|].
    destruct (security_attempts self >=? max_security_attempts self);
      [shape_leaves|].
    cbn [fst]. intros resp.
    destruct (int_to_bytes4 _) as [sb|]; cbn [rbind]; [|discriminate].
    destruct (bytes_of [103; sub]) as [hd|] eqn:Eh; cbn [rbind]; [|discriminate].
    intros [= <-]. destruct (bytes_of_head _ _ _ Eh) as [p [t [-> Hp]]].
    right. exists p, (t ++ sb). split; [reflexivity|exact Hp].
  - shape_leaves.
Qed.

Lemma shape_2E self request resp :
  fst (_service_2E_write_data_by_id self request) = Ok (Some resp) ->
  well_shaped 0x2E resp.
Proof. revert resp. unfold _service_2E_write_data_by_id. shape_leaves. Qed.

Lemma shape_2F self request resp :
  fst (_service_2F_io_control self request) = Ok (Some resp) ->
  well_shaped 0x2F resp.
Proof.
  revert resp. unfold _service_2F_io_control.
  destruct (len request <? 4); [shape_leaves|].
  destruct (negb (DiagnosticSession_eqb (current_session self) EXTENDED));
    [shape_leaves|].
  match goal with
  | |- context [match ?x with Ok _ => _ | Raise _ => _ end] =>
      destruct x as [[[r1 r2] cp]|]
  end; cbn [fst]; intros resp Hr; [|discriminate].
  eapply respond_positive in Hr; [exact Hr|reflexivity].
Qed.

Lemma shape_31 self request resp :
  fst (_service_31_routine_control self request) = Ok (Some resp) ->
  well_shaped 0x31 resp.
Proof.
  revert resp. unfold _service_31_routine_control.
  destruct (len request <? 4); [shape_leaves|].
  match goal with
  | |- context [match ?x with Ok _ => _ | Raise _ => _ end] =>
      destruct x as [[[sub r2] r3]|]
  end; [|shape_leaves].
  destruct (sub =? 1); [shape_leaves|].
  destruct (sub =? 2).
  { cbn [fst]. intros resp Hr.
    eapply respond_positive in Hr; [exact Hr|reflexivity]. }
  destruct (sub =? 3).
  { cbn [fst]. intros resp Hr.
    eapply respond_positive in Hr; [exact Hr|reflexivity]. }
  shape_leaves.
Qed.

Lemma shape_3E self request now resp :
  fst (_service_3E_tester_present self request now) = Ok (Some resp) ->
  well_shaped 0x3E resp.
Proof. revert resp. unfold _service_3E_tester_present. shape_leaves. Qed.

Lemma shape_simple self request resp :
  (_service_11_ecu_reset self request = Ok (Some resp) -> well_shaped 0x11 resp)
  /\ (_service_28_communication_control self request = Ok (Some resp) ->
      well_shaped 0x28 resp)
  /\ (_service_34_request_download self request = Ok (Some resp) ->
      well_shaped 0x34 resp)
  /\ (_service_36_transfer_data self request = Ok (Some resp) ->
      well_shaped 0x36 resp)
  /\ (_service_37_transfer_exit self request = Ok (Some resp) ->
      well_shaped 0x37 resp)
  /\ (_service_85_control_dtc_setting self request = Ok (Some resp) ->
      well_shaped 0x85 resp).
Proof.
  repeat split.
  - unfold _service_11_ecu_reset.
    destruct (len request <? 2); [apply respond_negative|].
    destruct (at_ request 1) as [rt|]; cbn [rbind]; [|discriminate].
    destruct (negb _); [apply respond_negative|].
    intros Hr. eapply respond_positive in Hr; [exact Hr|reflexivity].
  - unfold _service_28_communication_control.
    destruct (len request <? 3); [apply respond_negative|].
    destruct (at_ request 1) as [ct|]; cbn [rbind]; [|discriminate].
    destruct (at_ request 2) as [cm|]; cbn [rbind]; [|discriminate].
    intros Hr. eapply respond_positive in Hr; [exact Hr|reflexivity].
  - unfold _service_34_request_download.
    destruct (negb _); [apply respond_negative|].
    destruct (SecurityLevel_eqb _ _); [apply respond_negative|].
    intros Hr. eapply respond_positive in Hr; [exact Hr|reflexivity].
  - unfold _service_36_transfer_data.
    destruct (len request <? 2); [apply respond_negative|].
    destruct (at_ request 1) as [bs|]; cbn [rbind]; [|discriminate].
    intros Hr. eapply respond_positive in Hr; [exact Hr|reflexivity].
  - unfold _service_37_transfer_exit.
    intros Hr. eapply respond_positive in Hr; [exact Hr|reflexivity].
  - unfold _service_85_control_dtc_setting.
    destruct (len request <? 2); [apply respond_negative|].
    destruct (negb _); [apply respond_negative|].
    destruct (at_ request 1) as [ct|]; cbn [rbind]; [|discriminate].
    intros Hr. eapply respond_positive in Hr; [exact Hr|reflexivity].
Qed.

Lemma shape_19 self request resp :
  _service_19_read_dtc_info self request = Ok (Some resp) ->
  well_shaped 0x19 resp.
Proof.
  unfold _service_19_read_dtc_info.
  destruct (len request <? 2); [apply respond_negative|].
  destruct (at_ request 1) as [sub|]; cbn [rbind]; [|discriminate].
  destruct (sub =? 1).
  { intros Hr. eapply respond_positive in Hr; [exact Hr|reflexivity]. }
  destruct (sub =? 2).
  { destruct (len request <? 3); [apply respond_negative|].
    destruct (at_ request 2) as [mask|]; cbn [rbind]; [|discriminate].
    destruct (bytes_of [89; 2; mask]) as [hd|] eqn:Eh; cbn [rbind];
      [|discriminate].
    match goal with
    | |- rbind ?f _ = _ -> _ => destruct f as [r|] eqn:Ef
    end; cbn [rbind]; [|discriminate].
    intros [= <-].
    destruct (bytes_of_head _ _ _ Eh) as [p [t [-> Hp]]].
    apply extend_keeps_head in Ef as [t' ->].
    2: { intros e x. reflexivity. }
    2: { intros r0 x r'. cbn [rbind].
         destruct (to_bytes x) as [b|]; cbn [rbind]; [|discriminate].
         destruct (bytes_of [8]) as [st|]; cbn [rbind]; [|discriminate].
         intros [= <-]. eauto. }
    right. exists p, (t ++ t'). split; [reflexivity|exact Hp]. }
  destruct (sub =? 10).
  { destruct (bytes_of [89; 10]) as [hd|] eqn:Eh; cbn [rbind]; [|discriminate].
    match goal with
    | |- rbind ?f _ = _ -> _ => destruct f as [r|] eqn:Ef
    end; cbn [rbind]; [|discriminate].
    intros [= <-].
    destruct (bytes_of_head _ _ _ Eh) as [p [t [-> Hp]]].
    apply extend_keeps_head in Ef as [t' ->].
    2: { intros e x. reflexivity. }
    2: { intros r0 x r'. cbn [rbind].
         destruct (str_index x 0) as [c|]; cbn [rbind]; [|discriminate].
         destruct (pack_digits _ _) as [[b1 b2]|]; cbn [rbind]; [|discriminate].
         destruct (bytes_of [b1; b2; 0]) as [e3|]; cbn [rbind]; [|discriminate].
         intros [= <-]. eauto. }
    right. exists p, (t ++ t'). split; [reflexivity|exact Hp]. }
  apply respond_negative.
Qed.

Lemma shape_22 self request resp :
  _service_22_read_data_by_id self request = Ok (Some resp) ->
  well_shaped 0x22 resp.
Proof.
  unfold _service_22_read_data_by_id.
  destruct (len request <? 3); [apply respond_negative|].
  destruct (at_ request 1) as [r1|]; cbn [rbind]; [|discriminate].
  destruct (at_ request 2) as [r2|]; cbn [rbind]; [|discriminate].
  destruct (dids self !! _) as [d|]; [|apply respond_negative].
  destruct (bytes_of [98; r1; r2]) as [hd|] eqn:Eh; cbn [rbind]; [|discriminate].
  intros [= <-]. destruct (bytes_of_head _ _ _ Eh) as [p [t [-> Hp]]].
  right. exists p, (t ++ d). split; [reflexivity|exact Hp].
Qed.

(** X28.  Every answer is well formed.  Whatever the request and the state,
    a response returned by process is either the three bytes 7F sid nrc or a
    message whose first byte is sid + 0x40, sid being the first byte of the
    request; an empty request gets no answer. *)
Theorem responses_are_well_formed (self self' : UDSServiceHandler)
    (request resp : bytes) (now rnd : Z) :
  process self request now rnd = (Ok (Some resp), self') ->
  exists sid rest, request = sid :: rest /\ well_shaped (b2z sid) resp.
Proof.
  destruct request as [|sid rest]; [discriminate|].
  intros H. exists sid, rest. split; [reflexivity|].
  assert (Hf : fst (process self (sid :: rest) now rnd) = Ok (Some resp))
    by (rewrite H; reflexivity).
  clear H. rewrite process_cons in Hf. cbv zeta in Hf.
  set (h := check_session_timeout self (b2z sid) now) in Hf.
  destruct (shape_simple h (sid :: rest) resp)
    as (S11 & S28 & S34 & S36 & S37 & S85).
  revert Hf. case_services; cbn [fst]; intros Hf;
    match goal with
    | e : b2z sid = _ |- _ => rewrite e
    | _ => idtac
    end;
    eauto using shape_10, shape_14, shape_19, shape_22, shape_27, shape_2E,
      shape_2F, shape_31, shape_3E, respond_negative.
Qed.

Lemma responses_are_well_formed_witness :
  exists sid rest, [x22; xf1; x90] = sid :: rest
                   /\ well_shaped (b2z sid) [x7f; x22; x31].
Proof.
  apply (responses_are_well_formed blank_handler blank_handler
           [x22; xf1; x90] [x7f; x22; x31] 0 0).
  vm_compute. reflexivity.
Defined.
End UDSMore.

(* --------------------------------------------------------------------- *)
(*  mock_ecu_v2.py: the dispatcher and the request handler               *)
(* --------------------------------------------------------------------- *)

Module ECUMore.
Import PyFacts ISOTP ISOTPSpec ISOTPTape Vehicle DTC DTCSpec OBDSpec UDSSpec ECU.
Import ISOTPProofs ISOTPMore UDSProofs UDSMore.
Import Byte.

(* the dispatcher hands the transport objects on untouched *)
Lemma process_service_transport self payload now rnd :
  isotp_sender (snd (_process_service self payload now rnd)) = isotp_sender self
  /\ isotp_receiver (snd (_process_service self payload now rnd))
     = isotp_receiver self.
Proof.
  unfold _process_service.
  destruct (len payload <? 1); [split; reflexivity|].
  destruct (index payload 0) as [service|]; [|split; reflexivity].
  destruct ((1 <=? service) && (service <=? 10)).
  - destruct (OBD.process (obd_handler self) payload). split; reflexivity.
  - destruct (service >=? 16); [|split; reflexivity].
    destruct (UDS.process (uds_handler self) payload now rnd). split; reflexivity.
Qed.

(* a request too short for the OBD dispatcher leaves the ECU as it is *)
Lemma one_byte_mode_04 (self : MockECU) (now rnd : Z) :
  shared self -> _process_service self [x04] now rnd = (Ok None, self).
Proof.
  intros Hsh. unfold _process_service.
  change (len [x04] <? 1) with false.
  change (index [x04] 0) with (@Ok Z 4). cbv iota.
  change ((1 <=? 4) && (4 <=? 10)) with true. cbv iota.
  unfold OBD.process. change (len [x04] <? 2) with true. cbv iota.
  unfold shared in Hsh. destruct self as [sd rc oh uh]. cbn in *.
  destruct uh. cbn in *. subst. reflexivity.
Qed.

(** X29.  One manager behind both protocols.  Through
    MockECU._process_service, an OBD mode 04 request of two bytes or more
    and UDS service 14 with group FFFFFF run the same
    clear_dtcs(clear_permanent=False) on the manager the two handlers
    share, and each handler sees the result of the other's clear; the UDS
    clear leaves the vehicle as it is, while mode 04 also resets the drive
    cycle.  The one-byte request 04 is stopped by the length guard of the
    OBD dispatcher: it gets no answer and clears nothing. *)
Theorem clear_through_either_protocol (self : MockECU) (b : byte)
    (tail rest : bytes) (now rnd : Z) :
  shared self ->
  let m := OBD.dtc_manager (obd_handler self) in
  let o := snd (_process_service self (x04 :: b :: tail) now rnd) in
  let u := snd (_process_service self (x14 :: xff :: xff :: xff :: rest) now rnd) in
  OBD.dtc_manager (obd_handler o) = snd (clear_dtcs m false)
  /\ UDS.dtc_manager (uds_handler o) = snd (clear_dtcs m false)
  /\ OBD.dtc_manager (obd_handler u) = snd (clear_dtcs m false)
  /\ UDS.dtc_manager (uds_handler u) = snd (clear_dtcs m false)
  /\ OBD.vehicle (obd_handler u) = OBD.vehicle (obd_handler self)
  /\ get_drive_cycle (OBD.vehicle (obd_handler o))
     = reset (get_drive_cycle (OBD.vehicle (obd_handler self)))
  /\ _process_service self [x04] now rnd = (Ok None, self).
Proof.
  intros Hsh m o u.
  set (rq := x04 :: b :: tail) in *.
  assert (Eo : o = let h := snd (OBD._mode_04_clear_dtcs (obd_handler self) rq) in
                   {| isotp_sender := isotp_sender self;
                      isotp_receiver := isotp_receiver self;
                      obd_handler := h;
                      uds_handler := uds_sees (OBD.dtc_manager h) (uds_handler self) |}).
  { subst o. unfold _process_service.
    replace (len rq <? 1) with false
      by (symmetry; apply Z.ltb_ge; subst rq; unfold len; cbn [length]; lia).
    change (index rq 0) with (@Ok Z 4). cbv iota.
    change ((1 <=? 4) && (4 <=? 10)) with true. cbv iota.
    unfold OBD.process.
    replace (len rq <? 2) with false
      by (symmetry; apply Z.ltb_ge; subst rq; unfold len; cbn [length]; lia).
    change (index rq 0) with (@Ok Z 4). cbv iota.
    cbn [Z.eqb Pos.eqb].
    destruct (OBD._mode_04_clear_dtcs (obd_handler self) rq) as [r h].
    reflexivity. }
  assert (Eh : OBD.dtc_manager (snd (OBD._mode_04_clear_dtcs (obd_handler self) rq))
               = snd (clear_dtcs m false)
               /\ get_drive_cycle
                    (OBD.vehicle (snd (OBD._mode_04_clear_dtcs (obd_handler self) rq)))
                  = reset (get_drive_cycle (OBD.vehicle (obd_handler self)))).
  { unfold OBD._mode_04_clear_dtcs. fold m.
    destruct (clear_dtcs m false) as [cl m1]. split; reflexivity. }
  destruct Eh as [Eh1 Eh2].
  assert (Eu : u = let h := snd (UDS.process (uds_handler self)
                                   (x14 :: xff :: xff :: xff :: rest) now rnd) in
                   {| isotp_sender := isotp_sender self;
                      isotp_receiver := isotp_receiver self;
                      obd_handler := obd_sees (UDS.dtc_manager h) (obd_handler self);
                      uds_handler := h |}).
  { subst u. unfold _process_service.
    rewrite (len_ge _ 1 1) by (cbn; lia).
    change (index (x14 :: xff :: xff :: xff :: rest) 0) with (@Ok Z 20). cbv iota.
    change ((1 <=? 20) && (20 <=? 10)) with false. cbv iota.
    change (20 >=? 16) with true. cbv iota.
    destruct (UDS.process (uds_handler self) _ now rnd) as [r h]. reflexivity. }
  assert (Ep : UDS.dtc_manager
                 (snd (UDS.process (uds_handler self)
                         (x14 :: xff :: xff :: xff :: rest) now rnd))
               = snd (clear_dtcs m false)).
  { rewrite process_cons. cbv zeta. change (b2z x14) with 20.
    cbn [Z.eqb Pos.eqb].
    set (h := UDS.check_session_timeout (uds_handler self) 20 now).
    destruct (check_timeout_tables (uds_handler self) 20 now)
      as (_ & _ & _ & _ & Hm & _). fold h in Hm.
    unfold UDS._service_14_clear_dtc.
    rewrite (len_ge _ 4 4) by (cbn; lia).
    change (UDS.at_ (x14 :: xff :: xff :: xff :: rest) 1) with (@Ok Z 255).
    change (UDS.at_ (x14 :: xff :: xff :: xff :: rest) 2) with (@Ok Z 255).
    change (UDS.at_ (x14 :: xff :: xff :: xff :: rest) 3) with (@Ok Z 255).
    cbn [rbind]. change (Z.lor (Z.lor (Z.shiftl 255 16) (Z.shiftl 255 8)) 255 =? 16777215)
      with true. cbv iota. cbn [snd UDS.dtc_manager UDS.set_tables].
    rewrite Hm. unfold shared in Hsh. rewrite <- Hsh. reflexivity. }
  rewrite Eo, Eu. cbv zeta.
  cbn [obd_handler uds_handler uds_sees obd_sees UDS.set_tables UDS.dtc_manager
       OBD.dtc_manager OBD.vehicle].
  rewrite Eh1, Eh2, Ep.
  repeat (split; [reflexivity|]). apply one_byte_mode_04. exact Hsh.
Qed.

Lemma clear_through_either_protocol_witness :
  let self := {| isotp_sender := ecu_sender;
                 isotp_receiver := new_receiver 0x7E8 0x7E0 default_config;
                 obd_handler := OBD.new_OBDServiceHandler new_vehicle
                   (fold_left step [Inject "P0100" new_SensorData true 0;
                                    Inject "P0100" new_SensorData true 1]
                      new_DTCManager);
                 uds_handler := UDS.set_tables
                   (fold_left step [Inject "P0100" new_SensorData true 0;
                                    Inject "P0100" new_SensorData true 1]
                      new_DTCManager) ∅ ∅ ∅ blank_handler |} in
  let m := OBD.dtc_manager (obd_handler self) in
  let o := snd (_process_service self [x04; x00] 0 0) in
  let u := snd (_process_service self [x14; xff; xff; xff] 0 0) in
  map (fun d => (code d, state d)) (dtcs m) = [("P0100"%string, CONFIRMED)]
  /\ OBD.dtc_manager (obd_handler o) = snd (clear_dtcs m false)
  /\ UDS.dtc_manager (uds_handler o) = snd (clear_dtcs m false)
  /\ OBD.dtc_manager (obd_handler u) = snd (clear_dtcs m false)
  /\ OBD.vehicle (obd_handler u) = OBD.vehicle (obd_handler self)
  /\ map (fun d => (code d, state d)) (dtcs (snd (clear_dtcs m false)))
     = [("P0100"%string, HISTORY)]
  /\ _process_service self [x04] 0 0 = (Ok None, self).
Proof.
  intros self m o u.
  pose proof (clear_through_either_protocol self x00 [] [] 0 0 eq_refl) as H.
  cbv zeta in H. destruct H as (H1 & H2 & H3 & _ & H5 & _ & H7).
  split; [reflexivity|]. split; [exact H1|]. split; [exact H2|].
  split; [exact H3|]. split; [exact H5|]. split; [reflexivity|exact H7].
Defined.

(** X30.  From the bus and back.  A Single frame with the ECU's request id
    is unpacked, dispatched and answered in one step: when the dispatcher
    returns a response of 1 to 7 bytes, _handle_request puts exactly one
    frame on the bus, under the response id, and that frame parses back to
    the response; when the dispatcher returns None or raises, nothing is
    sent and the ECU carries on with the state the handler left. *)
Theorem single_frame_request_answered (fuel : nat) (self : MockECU)
    (pci : byte) (rest : bytes) (ext : bool) (now rnd : Z) (w : tape) :
  Z.land (b2z pci) 0xF0 = 0x00 ->
  let p := slice 1 (1 + Z.land (b2z pci) 0x0F) (pci :: rest) in
  let self1 := {| isotp_sender := isotp_sender self;
                  isotp_receiver := _reset_reception (isotp_receiver self);
                  obd_handler := obd_handler self;
                  uds_handler := uds_handler self |} in
  let r := _process_service self1 p now rnd in
  let msg := {| arbitration_id := r_rx_id (isotp_receiver self);
                data := pci :: rest; is_extended_id := ext |} in
  (forall resp, fst r = Ok (Some resp) -> (1 <= length resp <= 7)%nat ->
     exists f,
       create_single_frame resp (padding (s_config (isotp_sender self))) = Ok f
       /\ parse f = Ok (SINGLE_FRAME, resp)
       /\ _handle_request fuel self msg now rnd w
          = Some (snd r,
                  {| tp_now := tp_now w; tp_inbox := tp_inbox w;
                     tp_sent := tp_sent w ++
                       [{| arbitration_id := s_tx_id (isotp_sender self);
                           data := f; is_extended_id := false |}] |}))
  /\ ((fst r = Ok None \/ exists e, fst r = Raise e) ->
      _handle_request fuel self msg now rnd w = Some (snd r, w)).
Proof.
  intros Hpci p self1 r msg.
  assert (Erx : receive_frame (isotp_receiver self) msg w
                = (Some p, _reset_reception (isotp_receiver self), w)).
  { unfold receive_frame. subst msg. cbn [arbitration_id data].
    rewrite Z.eqb_refl. cbn [negb]. unfold parse.
    replace (len (pci :: rest) =? 0) with false
      by (symmetry; apply Z.eqb_neq; unfold len; cbn [length]; lia).
    cbn [index lookup list_lookup rbind]. cbv zeta. rewrite Hpci.
    cbn [Z.eqb]. reflexivity. }
  destruct (process_service_transport self1 p now rnd) as [Hs _].
  fold r in Hs. cbn [isotp_sender] in Hs.
  split.
  - intros resp Hr Hlen.
    destruct (create_single_frame_ok resp
                (padding (s_config (isotp_sender self))) ltac:(lia))
      as [f [Ef [Pf _]]].
    exists f. split; [exact Ef|]. split; [exact Pf|].
    unfold _handle_request. rewrite Erx. fold self1. fold r.
    destruct r as [r0 self2] eqn:Er. cbn [fst snd] in *. subst r0.
    replace (len resp =? 0) with false
      by (symmetry; apply Z.eqb_neq; unfold len; lia).
    unfold _send_response, send.
    replace (len resp <=? 7) with true
      by (symmetry; apply Z.leb_le; unfold len; lia).
    unfold _send_single_frame. rewrite Hs.
    change (isotp_sender self1) with (isotp_sender self). rewrite Ef.
    cbn [bus_send tape_Env]. reflexivity.
  - intros Hr. unfold _handle_request. rewrite Erx. fold self1. fold r.
    destruct r as [r0 self2] eqn:Er. cbn [fst snd] in *.
    destruct Hr as [->|[e ->]]; reflexivity.
Qed.

Lemma single_frame_request_answered_witness :
  let self := {| isotp_sender := ecu_sender;
                 isotp_receiver := new_receiver 0x7E8 0x7E0 default_config;
                 obd_handler := OBD.new_OBDServiceHandler new_vehicle new_DTCManager;
                 uds_handler := blank_handler |} in
  _handle_request 1 self
    {| arbitration_id := 0x7E0;
       data := [x02; x01; x0c; x00; x00; x00; x00; x00];
       is_extended_id := false |} 0 0
    {| tp_now := 0; tp_inbox := []; tp_sent := [] |}
  = Some (self,
          {| tp_now := 0; tp_inbox := [];
             tp_sent := [{| arbitration_id := 0x7E8;
                            data := [x04; x41; x0c; x00; x00; x00; x00; x00];
                            is_extended_id := false |}] |}).
Proof.
  intros self.
  destruct (proj1 (single_frame_request_answered 1 self x02
                     [x01; x0c; x00; x00; x00; x00; x00] false 0 0
                     {| tp_now := 0; tp_inbox := []; tp_sent := [] |} eq_refl)
              [x41; x0c; x00; x00] eq_refl ltac:(simpl; lia))
    as [f [Ef [_ E]]].
  vm_compute in Ef. injection Ef as <-. exact E.
Defined.

End ECUMore.
